(** * Cornelius: the marching-squares / cubes / hypercubes kernel of JETSCAPE

    A shallow embedding of [external_packages/Cornelius] (Square, Polygon,
    Cube, Polyhedron, Hypercube and the Cornelius facade) together with the
    properties established about it.

    C++ [double] is IEEE-754 binary64 and is embedded as Rocq's primitive
    [float], so comparisons with NaN, signed zeros, rounding and underflow
    behave as they do in the compiled program.  [exit(1)], a thrown
    [std::out_of_range] and undefined behaviour are explicit results. *)

From Stdlib Require Import Floats ZArith List Bool Lia Permutation.
Import ListNotations.

#[local] Set Warnings "-inexact-float".
#[local] Open Scope float_scope.

(* ================================================================== *)
(** * Results of a call *)

(** Why the process was terminated with [exit(1)]. *)
Inductive fatal : Type :=
| BadCutCount (number_cuts : nat)      (* Square::ends_of_edge *)
| TooFewLines (remaining : Z)          (* Cube::construct_polygons *)
| NotInitialized (dimension : Z).      (* Cornelius::find_surface_*d *)

Inductive outcome (A : Type) : Type :=
| Ret (a : A)                          (* normal return *)
| Exit (e : fatal)                     (* std::cerr << ...; exit(1) *)
| OutOfRange                           (* throw std::out_of_range(...) *)
| Undefined.                           (* undefined behaviour in C++ *)

Arguments Ret {A} a.
Arguments Exit {A} e.
Arguments OutOfRange {A}.
Arguments Undefined {A}.

Definition bind {A B : Type} (m : outcome A) (k : A -> outcome B) : outcome B :=
  match m with
  | Ret a => k a
  | Exit e => Exit e
  | OutOfRange => OutOfRange
  | Undefined => Undefined
  end.

Notation "x <- m ;; k" := (bind m (fun x => k))
  (at level 61, m at next level, right associativity).

(* ================================================================== *)
(** * Doubles, small arrays and coordinate indices *)

Module Double.

(** [a >= b] and [a > b] on doubles; both are false when an operand is NaN. *)
Definition geb (a b : float) : bool := b <=? a.
Definition gtb (a b : float) : bool := b <? a.

(** [std::pow(x, 2.0)]. *)
Definition sqr (x : float) : float := x * x.

Definition INT_MIN : Z := - 2 ^ 31.
Definition INT_MAX : Z := 2 ^ 31 - 1.

(** Implicit conversion [double -> int]: the fractional part is discarded;
    the behaviour is undefined when the truncated value does not fit an
    [int] (which includes NaN and the infinities). *)
Definition to_int (x : float) : option Z :=
  match Prim2SF x with
  | S754_zero _ => Some 0%Z
  | S754_finite s m e =>
      let a := if (0 <=? e)%Z then Z.shiftl (Zpos m) e
               else Z.shiftr (Zpos m) (- e) in
      let n := if s then (- a)%Z else a in
      if ((INT_MIN <=? n) && (n <=? INT_MAX))%Z then Some n else None
  | S754_infinity _ | S754_nan => None
  end.

(** Conversion [int -> double] of a loop counter that is 0 or 1. *)
Definition of_step (j : bool) : float := if j then 1 else 0.

End Double.

(** [std::array<T, STEPS>] with [STEPS = 2]: the index is 0 ([false]) or 1
    ([true]). *)
Definition arr2 (A : Type) : Type := (A * A)%type.

Definition at2 {A : Type} (a : arr2 A) (j : bool) : A :=
  if j then snd a else fst a.

Definition STEPS : list bool := [false; true].

(** An index into a [std::array<double, DIM>] with [DIM = 4]. *)
Inductive axis : Type := A0 | A1 | A2 | A3.

Definition DIM : list axis := [A0; A1; A2; A3].

Definition axis_eqb (a b : axis) : bool :=
  match a, b with
  | A0, A0 | A1, A1 | A2, A2 | A3, A3 => true
  | _, _ => false
  end.

(** [std::array<double, DIM>]. *)
Record vec4 : Type := mk4 { c0 : float; c1 : float; c2 : float; c3 : float }.

Definition get (v : vec4) (i : axis) : float :=
  match i with A0 => c0 v | A1 => c1 v | A2 => c2 v | A3 => c3 v end.

Definition set (v : vec4) (i : axis) (x : float) : vec4 :=
  match i with
  | A0 => mk4 x (c1 v) (c2 v) (c3 v)
  | A1 => mk4 (c0 v) x (c2 v) (c3 v)
  | A2 => mk4 (c0 v) (c1 v) x (c3 v)
  | A3 => mk4 (c0 v) (c1 v) (c2 v) x
  end.

Definition zero4 : vec4 := mk4 0 0 0 0.

Definition map2_4 (f : float -> float -> float) (u v : vec4) : vec4 :=
  mk4 (f (c0 u) (c0 v)) (f (c1 u) (c1 v)) (f (c2 u) (c2 v)) (f (c3 u) (c3 v)).

Definition map4 (f : float -> float) (u : vec4) : vec4 :=
  mk4 (f (c0 u)) (f (c1 u)) (f (c2 u)) (f (c3 u)).

(** The constants of [Square.h], which is not among the sources at hand:
    the offsets that keep a cut away from a corner lying exactly on the
    threshold.  Everything below is parametric in them. *)
Class SquareConstants : Type := {
  ALMOST_ZERO : float;
  ALMOST_ONE : float
}.

(* ================================================================== *)
(** * Line *)

Module Line.

Record t : Type := mk {
  start_point : vec4;
  end_point : vec4;
  outside_point : vec4;
  const_i : arr2 axis
}.

(** Modelled from the spec: [Line.h] is missing.  A line holds its two
    endpoints in the ambient coordinates, one outside reference point and
    the pair of constant-coordinate indices of the face it lies on. *)
Definition init_line (points : arr2 vec4) (out : vec4) (new_const_i : arr2 axis) : t :=
  mk (at2 points false) (at2 points true) out new_const_i.

(** Modelled from the spec: [Line.h] is missing.  The orientation (start
    against end) is exchanged when the line is chained into a polygon. *)
Definition flip_start_end (l : t) : t :=
  mk (end_point l) (start_point l) (outside_point l) (const_i l).

End Line.

(* ================================================================== *)
(** * Square *)

Module Square.
Section WithConstants.
Context {consts : SquareConstants}.

(** [cuts] together with [number_cuts] is the list of recorded cuts, and
    [lines] together with [number_lines] the list of lines. *)
Record t : Type := mk {
  points : arr2 (arr2 float);
  const_i : arr2 axis;
  const_value : arr2 float;
  x1 : axis;
  x2 : axis;
  dx : vec4;
  cuts : list (arr2 float);
  out : arr2 (arr2 float);
  lines : list Line.t;
  ambiguous : bool
}.

Definition number_cuts (s : t) : nat := length (cuts s).
Definition get_number_lines (s : t) : nat := length (lines s).
Definition get_lines (s : t) : list Line.t := lines s.
Definition is_ambiguous (s : t) : bool := ambiguous s.

Definition set_cuts (s : t) (c : list (arr2 float)) : t :=
  mk (points s) (const_i s) (const_value s) (x1 s) (x2 s) (dx s) c (out s)
     (lines s) (ambiguous s).
Definition set_out (s : t) (o : arr2 (arr2 float)) : t :=
  mk (points s) (const_i s) (const_value s) (x1 s) (x2 s) (dx s) (cuts s) o
     (lines s) (ambiguous s).
Definition set_lines (s : t) (l : list Line.t) : t :=
  mk (points s) (const_i s) (const_value s) (x1 s) (x2 s) (dx s) (cuts s)
     (out s) l (ambiguous s).
Definition set_ambiguous (s : t) (b : bool) : t :=
  mk (points s) (const_i s) (const_value s) (x1 s) (x2 s) (dx s) (cuts s)
     (out s) (lines s) b.

(** The two coordinate indices that are not held constant, in increasing
    order. *)
Definition free_axes (c : arr2 axis) : arr2 axis :=
  match filter (fun a => negb (axis_eqb a (fst c)) && negb (axis_eqb a (snd c))) DIM with
  | a :: b :: _ => (a, b)
  | a :: nil => (a, a)
  | nil => (A0, A0)
  end.

(** Modelled from the spec: [Square.h] is missing.  A cell is
    re-initialised for every query: the corner values, the constant
    coordinates and the spacing are stored, the free coordinates derived,
    and all counters and the ambiguity flag reset. *)
Definition init_square (sq : arr2 (arr2 float)) (c_i : arr2 axis)
    (c_v : arr2 float) (new_dx : vec4) : t :=
  let x := free_axes c_i in
  mk sq c_i c_v (fst x) (snd x) new_dx [] ((0, 0), (0, 0)) [] false.

Definition pt (s : t) (i j : bool) : float := at2 (at2 (points s) i) j.

(** The lambda [add_cut] of [ends_of_edge]. *)
Definition add_cut (s : t) (x y : float) : t :=
  set_cuts s (cuts s ++ [(x, y)]).

Definition ends_of_edge (s : t) (value : float) : outcome t :=
  let top_left := pt s false false - value in
  let top_right := pt s false true - value in
  let bottom_left := pt s true false - value in
  let bottom_right := pt s true true - value in
  let dx1 := get (dx s) (x1 s) in
  let dx2 := get (dx s) (x2 s) in
  (* Edge 1 *)
  let s :=
    if top_left * bottom_left <? 0 then
      add_cut s (top_left / (pt s false false - pt s true false) * dx1) 0
    else if (pt s false false =? value) && (pt s true false <? value) then
      add_cut s (ALMOST_ZERO * dx1) 0
    else if (pt s true false =? value) && (pt s false false <? value) then
      add_cut s (ALMOST_ONE * dx1) 0
    else s in
  (* Edge 2 *)
  let s :=
    if top_left * top_right <? 0 then
      add_cut s 0 (top_left / (pt s false false - pt s false true) * dx2)
    else if (pt s false false =? value) && (pt s false true <? value) then
      add_cut s 0 (ALMOST_ZERO * dx2)
    else if (pt s false true =? value) && (pt s false false <? value) then
      add_cut s 0 (ALMOST_ONE * dx2)
    else s in
  (* Edge 3 *)
  let s :=
    if bottom_left * bottom_right <? 0 then
      add_cut s dx1 (bottom_left / (pt s true false - pt s true true) * dx2)
    else if (pt s true false =? value) && (pt s true true <? value) then
      add_cut s dx1 (ALMOST_ZERO * dx2)
    else if (pt s true true =? value) && (pt s true false <? value) then
      add_cut s dx1 (ALMOST_ONE * dx2)
    else s in
  (* Edge 4 *)
  let s :=
    if top_right * bottom_right <? 0 then
      add_cut s (top_right / (pt s false true - pt s true true) * dx1) dx2
    else if (pt s false true =? value) && (pt s true true <? value) then
      add_cut s (ALMOST_ZERO * dx1) dx2
    else if (pt s true true =? value) && (pt s false true <? value) then
      add_cut s (ALMOST_ONE * dx1) dx2
    else s in
  if negb (number_cuts s =? 0)%nat && negb (number_cuts s =? 2)%nat
     && negb (number_cuts s =? 4)%nat
  then Exit (BadCutCount (number_cuts s))
  else Ret s.

(** [std::swap(cuts[1], cuts[2])]. *)
Definition swap_cuts_1_2 (c : list (arr2 float)) : list (arr2 float) :=
  match c with
  | k0 :: k1 :: k2 :: rest => k0 :: k2 :: k1 :: rest
  | _ => c
  end.

Definition find_outside (s : t) (value : float) : t :=
  let dx1 := get (dx s) (x1 s) in
  let dx2 := get (dx s) (x2 s) in
  let p00 := pt s false false in
  if (number_cuts s =? 4)%nat then
    let s := set_ambiguous s true in
    let value_middle :=
      0.25 * (pt s false false + pt s false true + pt s true false + pt s true true) in
    let s :=
      if ((p00 <? value) && (value_middle <? value))
         || (Double.gtb p00 value && Double.gtb value_middle value)
      then set_cuts s (swap_cuts_1_2 (cuts s))
      else s in
    if value_middle <? value then
      set_out s ((0.5 * dx1, 0.5 * dx2), (0.5 * dx1, 0.5 * dx2))
    else if p00 <? value then
      set_out s ((0, 0), (dx1, dx2))
    else
      set_out s ((dx1, 0), (0, dx2))
  else
    let step (o : float * float * Z) (below : bool) (a b : float) :=
      if below then
        let '(o0, o1, n) := o in (o0 + a * dx1, o1 + b * dx2, (n + 1)%Z)
      else o in
    let o := (0, 0, 0%Z) in
    let o := step o (pt s false false <? value) 0 0 in
    let o := step o (pt s false true <? value) 0 1 in
    let o := step o (pt s true false <? value) 1 0 in
    let o := step o (pt s true true <? value) 1 1 in
    let '(o0, o1, number_out) := o in
    if (0 <? number_out)%Z then
      let d := of_uint63 (Uint63.of_Z number_out) in
      set_out s ((o0 / d, o1 / d), (0 / d, 0 / d))
    else
      set_out s ((o0, o1), (0, 0)).

(** The point of the ambient space with free coordinates [p] on the face
    of this square: the four assignments to [points_temp[.]] and
    [out_temp[.]].  The four indices are distinct, so every coordinate is
    assigned and the previous content of the temporary does not matter. *)
Definition lift (s : t) (p : arr2 float) : vec4 :=
  let v := set zero4 (x1 s) (fst p) in
  let v := set v (x2 s) (snd p) in
  let v := set v (fst (const_i s)) (fst (const_value s)) in
  set v (snd (const_i s)) (snd (const_value s)).

Definition make_line (s : t) (cut_a cut_b o : arr2 float) : Line.t :=
  Line.init_line (lift s cut_a, lift s cut_b) (lift s o) (const_i s).

(** The loop [for (i = 0; i < number_cuts; i += 2)] over the remaining
    cuts, [k] being [i / 2]. *)
Fixpoint lines_from (s : t) (c : list (arr2 float)) (k : bool) : list Line.t :=
  match c with
  | cut_a :: cut_b :: rest =>
      make_line s cut_a cut_b (at2 (out s) k) :: lines_from s rest true
  | _ => []
  end.

Definition mask (s : t) (value : float) : Z :=
  Z.lor (Z.lor (Z.lor
    (Z.b2z (Double.geb (pt s false false) value))
    (Z.shiftl (Z.b2z (Double.geb (pt s false true) value)) 1))
    (Z.shiftl (Z.b2z (Double.geb (pt s true false) value)) 2))
    (Z.shiftl (Z.b2z (Double.geb (pt s true true) value)) 3).

Definition construct_lines (s : t) (value : float) : outcome t :=
  let m := mask s value in
  if (m =? 0)%Z || (m =? 15)%Z then Ret (set_lines s [])
  else
    s <- ends_of_edge s value ;;
    let s := if (0 <? number_cuts s)%nat then find_outside s value else s in
    let s := set_lines s [] in
    match cuts s with
    | [cut_a; cut_b] =>
        Ret (set_lines s [make_line s cut_a cut_b (at2 (out s) false)])
    | c => Ret (set_lines s (lines_from s c false))
    end.

End WithConstants.
End Square.

(* ================================================================== *)
(** * Greedy growth

    [Cube::construct_polygons] and [Hypercube::construct_polyhedra] grow
    an element with the same inner [for] loop over a list of candidates
    and their [not_used] marks; it is written once here, for an element
    type [P], a candidate type [E] and the test-and-add operation [add]
    ([add_line] or [add_polygon] with [perform_no_check = false]). *)

Module Greedy.
Section Growth.
Variables (E P : Type) (add : P -> E -> option P).

(** One run of the [for] loop from index [i] on: the first candidate that
    is still unused and that the element accepts, with its index. *)
Fixpoint scan (p : P) (rest : list (E * bool)) (i : nat) : option (nat * P) :=
  match rest with
  | [] => None
  | (e, unused) :: rest' =>
      if unused then
        match add p e with
        | Some p' => Some (i, p')
        | None => scan p rest' (S i)
        end
      else scan p rest' (S i)
  end.

(** [not_used[i] = 0]. *)
Definition clear (i : nat) (not_used : list bool) : list bool :=
  firstn i not_used ++ false :: skipn (S i) not_used.

(** The whole [for] loop, entered at index [i]: after every accepted
    candidate the code sets [i = 0] and the loop header increments it, so
    the scan resumes at index 1.  Every round marks one more candidate as
    used, so [fuel = length refs] rounds are never exceeded. *)
Fixpoint grow (fuel : nat) (p : P) (refs : list E) (not_used : list bool)
    (used : nat) (i : nat) : P * list bool * nat :=
  match fuel with
  | O => (p, not_used, used)
  | S fuel' =>
      match scan p (skipn i (combine refs not_used)) i with
      | None => (p, not_used, used)
      | Some (k, p') => grow fuel' p' refs (clear k not_used) (S used) 1
      end
  end.
End Growth.

Arguments scan {E P} add p rest i.
Arguments grow {E P} add fuel p refs not_used used i.

End Greedy.

(** The helpers of [GeneralGeometryElement.h] and [Line.h], which are not
    among the sources at hand: the orientation fix applied to every partial
    normal, and the normal and centroid of a line (the 2-D surface
    element).  The geometry below is parametric in them. *)
Class ElementHelpers : Type := {
  flip_normal_if_needed : vec4 -> vec4 -> vec4;
  line_normal : Line.t -> vec4;
  line_centroid : Line.t -> vec4
}.

(* ================================================================== *)
(** * Polygon *)

Module Polygon.

Definition EPSILON : float := 1e-10.

(** [lines] together with [number_lines] is the list of lines. *)
Record t : Type := mk {
  lines : list Line.t;
  x1 : axis;
  x2 : axis;
  x3 : axis;
  const_i : axis
}.

Definition get_number_lines (p : t) : nat := length (lines p).
Definition get_lines (p : t) : list Line.t := lines p.

(** The remaining three indices once [new_const_i] is held constant
    (the [switch] of [init_polygon], the table [x_lookup] of
    [Cube::init_cube]). *)
Definition x_lookup (new_const_i : axis) : axis * axis * axis :=
  match new_const_i with
  | A0 => (A1, A2, A3)
  | A1 => (A0, A2, A3)
  | A2 => (A0, A1, A3)
  | A3 => (A0, A1, A2)
  end.

Definition init_polygon (new_const_i : axis) : t :=
  let '(a, b, c) := x_lookup new_const_i in
  mk [] a b c new_const_i.

Definition push (p : t) (l : Line.t) : t :=
  mk (lines p ++ [l]) (x1 p) (x2 p) (x3 p) (const_i p).

(** [difference += std::abs(p[i] - q[i])] for [i = 0 .. DIM-1]. *)
Definition difference (p q : vec4) : float :=
  fold_left (fun d i => d + abs (get p i - get q i)) DIM 0.

(** [add_line]: [Some] of the extended polygon when the line is taken
    (the C++ returns [true]), [None] when it is refused.  The line is
    stored as it is after the in-place [flip_start_end]. *)
Definition add_line (p : t) (new_line : Line.t) (perform_no_check : bool) : option t :=
  match rev (lines p) with
  | [] => Some (push p new_line)
  | last :: _ =>
      if perform_no_check then Some (push p new_line)
      else
        let last_end_point := Line.end_point last in
        let difference1 := difference (Line.start_point new_line) last_end_point in
        let difference2 := difference (Line.end_point new_line) last_end_point in
        if (difference1 <? EPSILON) || (difference2 <? EPSILON) then
          let new_line :=
            if difference2 <? EPSILON then Line.flip_start_end new_line
            else new_line in
          Some (push p new_line)
        else None
  end.

(** Component-wise [m[k] += start[k] + end[k]] over all lines. *)
Definition sum_endpoints (ls : list Line.t) (m : vec4) : vec4 :=
  fold_left
    (fun m l => map2_4 Floats.PrimFloat.add m
                  (map2_4 Floats.PrimFloat.add (Line.start_point l) (Line.end_point l)))
    ls m.

Definition count (n : nat) : float := of_uint63 (Uint63.of_Z (Z.of_nat n)).

Definition calculate_centroid (p : t) : vec4 :=
  let number_lines := get_number_lines p in
  let mean_values := sum_endpoints (lines p) zero4 in
  let mean_values := map4 (fun m => m / (2 * count number_lines)) mean_values in
  if (number_lines =? 3)%nat then mean_values
  else
    let '(sum_up, sum_down) :=
      fold_left
        (fun (acc : vec4 * float) l =>
           let '(sum_up, sum_down) := acc in
           let a := map2_4 Floats.PrimFloat.sub (Line.start_point l) mean_values in
           let b := map2_4 Floats.PrimFloat.sub (Line.end_point l) mean_values in
           let triangle_centroid :=
             map4 (fun s => s / 3)
               (map2_4 Floats.PrimFloat.add
                  (map2_4 Floats.PrimFloat.add (Line.start_point l) (Line.end_point l))
                  mean_values) in
           let A_l :=
             0.5 * sqrt
               (Double.sqr (get a (x2 p) * get b (x3 p) - get a (x3 p) * get b (x2 p))
                + Double.sqr (get a (x1 p) * get b (x3 p) - get a (x3 p) * get b (x1 p))
                + Double.sqr (get a (x2 p) * get b (x1 p) - get a (x1 p) * get b (x2 p))) in
           (map2_4 Floats.PrimFloat.add sum_up (map4 (fun c => A_l * c) triangle_centroid),
            sum_down + A_l))
        (lines p) (zero4, 0) in
    map4 (fun s => s / sum_down) sum_up.

Section WithHelpers.
Context {helpers : ElementHelpers}.

(** The partial normal of the triangle spanned by one line and the
    centroid, after the orientation fix. *)
Definition triangle_normal (p : t) (centroid : vec4) (l : Line.t) : vec4 :=
  let a := map2_4 Floats.PrimFloat.sub (Line.start_point l) centroid in
  let b := map2_4 Floats.PrimFloat.sub (Line.end_point l) centroid in
  let n := zero4 in
  let n := set n (x1 p) (0.5 * (get a (x2 p) * get b (x3 p) - get a (x3 p) * get b (x2 p))) in
  let n := set n (x2 p) (-0.5 * (get a (x1 p) * get b (x3 p) - get a (x3 p) * get b (x1 p))) in
  let n := set n (x3 p) (0.5 * (get a (x1 p) * get b (x2 p) - get a (x2 p) * get b (x1 p))) in
  let n := set n (const_i p) 0 in
  let v_out := map2_4 Floats.PrimFloat.sub (Line.outside_point l) centroid in
  flip_normal_if_needed n v_out.

Definition calculate_normal (p : t) : vec4 :=
  let centroid := calculate_centroid p in
  fold_left (fun normal l => map2_4 Floats.PrimFloat.add normal (triangle_normal p centroid l))
    (lines p) zero4.
End WithHelpers.

End Polygon.

(* ================================================================== *)
(** * Cube *)

Module Cube.
Section WithConstants.
Context {consts : SquareConstants}.

(** [line_refs] together with [number_lines] is the list [line_refs];
    [polygons] holds the [number_polygons] polygons built so far (the
    default-constructed placeholder of the C++ vector is left out). *)
Record t : Type := mk {
  cube : arr2 (arr2 (arr2 float));
  polygons : list Polygon.t;
  squares : list Square.t;
  line_refs : list Line.t;
  ambiguous : bool;
  const_i : axis;
  const_value : float;
  x1 : axis;
  x2 : axis;
  x3 : axis;
  dx : vec4
}.

Definition get_number_lines (c : t) : nat := length (line_refs c).
Definition get_number_polygons (c : t) : nat := length (polygons c).
Definition get_polygons (c : t) : list Polygon.t := polygons c.
Definition is_ambiguous (c : t) : bool := ambiguous c.

Definition set_polygons (c : t) (p : list Polygon.t) : t :=
  mk (cube c) p (squares c) (line_refs c) (ambiguous c) (const_i c)
     (const_value c) (x1 c) (x2 c) (x3 c) (dx c).
Definition set_squares (c : t) (s : list Square.t) : t :=
  mk (cube c) (polygons c) s (line_refs c) (ambiguous c) (const_i c)
     (const_value c) (x1 c) (x2 c) (x3 c) (dx c).
Definition set_line_refs (c : t) (l : list Line.t) : t :=
  mk (cube c) (polygons c) (squares c) l (ambiguous c) (const_i c)
     (const_value c) (x1 c) (x2 c) (x3 c) (dx c).
Definition set_ambiguous (c : t) (b : bool) : t :=
  mk (cube c) (polygons c) (squares c) (line_refs c) b (const_i c)
     (const_value c) (x1 c) (x2 c) (x3 c) (dx c).

Definition init_cube (cu : arr2 (arr2 (arr2 float))) (new_const_i : axis)
    (new_const_value : float) (new_dx : vec4) : t :=
  let '(a, b, c) := Polygon.x_lookup new_const_i in
  mk cu [] [] [] false new_const_i new_const_value a b c new_dx.

(** The 2x2 slice of the cube at step [j] of coordinate [i]. *)
Definition slice (c : t) (i : axis) (j : bool) : arr2 (arr2 float) :=
  let sq (f : bool -> bool -> float) := ((f false false, f false true), (f true false, f true true)) in
  if axis_eqb i (x1 c) then
    sq (fun ci1 ci2 => at2 (at2 (at2 (cube c) j) ci1) ci2)
  else if axis_eqb i (x2 c) then
    sq (fun ci1 ci2 => at2 (at2 (at2 (cube c) ci1) j) ci2)
  else
    sq (fun ci1 ci2 => at2 (at2 (at2 (cube c) ci1) ci2) j).

Definition split_to_squares (c : t) : t :=
  set_squares c
    (flat_map
       (fun i =>
          if axis_eqb i (const_i c) then []
          else
            map (fun j =>
                   Square.init_square (slice c i j) (const_i c, i)
                     (const_value c, Double.of_step j * get (dx c) i) (dx c))
              STEPS)
       DIM).

(** The first loop of [construct_polygons]: every square constructs its
    lines, which are collected in [line_refs]. *)
Fixpoint construct_all_lines (sqs : list Square.t) (value : float)
    : outcome (list Square.t * list Line.t) :=
  match sqs with
  | [] => Ret ([], [])
  | s :: rest =>
      s' <- Square.construct_lines s value ;;
      r <- construct_all_lines rest value ;;
      Ret (s' :: fst r, Square.get_lines s' ++ snd r)
  end.

Definition check_ambiguity (c : t) (number_lines : nat) : t :=
  if existsb Square.is_ambiguous (squares c) then set_ambiguous c true
  else if (number_lines =? 6)%nat then set_ambiguous c true
  else c.

(** The inner [for] loop of the ambiguous case. *)
Definition grow : nat -> Polygon.t -> list Line.t -> list bool -> nat -> nat
    -> Polygon.t * list bool * nat :=
  Greedy.grow (fun p l => Polygon.add_line p l false).

(** The [do ... while (used < number_lines)] loop of the ambiguous case. *)
Fixpoint build (fuel : nat) (new_const_i : axis) (refs : list Line.t)
    (not_used : list bool) (used : nat) (polys : list Polygon.t)
    : outcome (list Polygon.t) :=
  let number_lines := Z.of_nat (length refs) in
  if (number_lines - Z.of_nat used <? 3)%Z then
    Exit (TooFewLines (number_lines - Z.of_nat used))
  else
    match fuel with
    | O => Ret polys
    | S fuel' =>
        let '(p, not_used, used) :=
          grow (length refs) (Polygon.init_polygon new_const_i) refs not_used used 0 in
        let polys := polys ++ [p] in
        if (Z.of_nat used <? number_lines)%Z then
          build fuel' new_const_i refs not_used used polys
        else Ret polys
    end.

Definition construct_polygons (c : t) (value : float) : outcome t :=
  let c := split_to_squares c in
  r <- construct_all_lines (squares c) value ;;
  let c := set_line_refs (set_squares c (fst r)) (snd r) in
  let number_lines := get_number_lines c in
  if (number_lines =? 0)%nat then Ret c
  else
    let c := check_ambiguity c number_lines in
    if ambiguous c then
      polys <- build number_lines (const_i c) (line_refs c)
                 (repeat true number_lines) 0 (polygons c) ;;
      Ret (set_polygons c polys)
    else
      let p :=
        fold_left
          (fun p l => match Polygon.add_line p l true with Some p' => p' | None => p end)
          (line_refs c) (Polygon.init_polygon (const_i c)) in
      Ret (set_polygons c (polygons c ++ [p])).

End WithConstants.
End Cube.

(* ================================================================== *)
(** * Polyhedron *)

Module Polyhedron.

Definition INV_SIX : float := 1 / 6.
Definition EPSILON : float := 1e-10.

(** [polygons] together with [number_polygons] is the list of polygons
    (the [nullptr] placeholder of the C++ vector is left out). *)
Record t : Type := mk {
  polygons : list Polygon.t;
  number_tetrahedrons : nat
}.

Definition get_number_polygons (p : t) : nat := length (polygons p).
Definition get_number_tetrahedrons (p : t) : nat := number_tetrahedrons p.

Definition init_polyhedron : t := mk [] 0.

(** The body of the loop of [lines_are_connected] for the coordinates
    [coords] still to visit. *)
Fixpoint connected_loop (coords : list axis) (start_point1 end_point1 start_point2 : vec4)
    (difference1 difference2 : float) : bool :=
  match coords with
  | [] => true
  | i :: rest =>
      let difference1 :=
        if difference1 <=? EPSILON
        then difference1 + abs (get start_point1 i - get start_point2 i)
        else difference1 in
      let difference2 :=
        if difference2 <=? EPSILON
        then difference2 + abs (get end_point1 i - get start_point2 i)
        else difference2 in
      if Double.gtb difference1 EPSILON && Double.gtb difference2 EPSILON then false
      else connected_loop rest start_point1 end_point1 start_point2 difference1 difference2
  end.

Definition lines_are_connected (line1 line2 : Line.t) : bool :=
  connected_loop DIM (Line.start_point line1) (Line.end_point line1)
    (Line.start_point line2) 0 0.

Definition push (p : t) (new_polygon : Polygon.t) : t :=
  mk (polygons p ++ [new_polygon])
     (number_tetrahedrons p + Polygon.get_number_lines new_polygon).

(** [add_polygon]: [Some] of the extended polyhedron when the polygon is
    taken (the C++ returns [true]), [None] when it is refused. *)
Definition add_polygon (p : t) (new_polygon : Polygon.t) (perform_no_check : bool)
    : option t :=
  if (get_number_polygons p =? 0)%nat || perform_no_check then Some (push p new_polygon)
  else if existsb
            (fun old =>
               existsb
                 (fun new_line =>
                    existsb (fun line2 => lines_are_connected new_line line2)
                      (Polygon.get_lines old))
                 (Polygon.get_lines new_polygon))
            (polygons p)
  then Some (push p new_polygon)
  else None.

Definition tetrahedron_volume (v1 v2 v3 : vec4) : vec4 :=
  let bc01 := c0 v2 * c1 v3 - c1 v2 * c0 v3 in
  let bc02 := c0 v2 * c2 v3 - c2 v2 * c0 v3 in
  let bc03 := c0 v2 * c3 v3 - c3 v2 * c0 v3 in
  let bc12 := c1 v2 * c2 v3 - c2 v2 * c1 v3 in
  let bc13 := c1 v2 * c3 v3 - c3 v2 * c1 v3 in
  let bc23 := c2 v2 * c3 v3 - c3 v2 * c2 v3 in
  mk4 ((c1 v1 * bc23 - c2 v1 * bc13 + c3 v1 * bc12) * INV_SIX)
      (- (c0 v1 * bc23 - c2 v1 * bc03 + c3 v1 * bc02) * INV_SIX)
      ((c0 v1 * bc13 - c1 v1 * bc03 + c3 v1 * bc01) * INV_SIX)
      (- (c0 v1 * bc12 - c1 v1 * bc02 + c2 v1 * bc01) * INV_SIX).

Definition vsub := map2_4 Floats.PrimFloat.sub.
Definition vadd := map2_4 Floats.PrimFloat.add.

Definition calculate_centroid (p : t) : vec4 :=
  let mean_values :=
    fold_left (fun m poly => Polygon.sum_endpoints (Polygon.get_lines poly) m)
      (polygons p) zero4 in
  let mean_values :=
    map4 (fun m => m / (2 * Polygon.count (number_tetrahedrons p))) mean_values in
  let '(sum_up, sum_down) :=
    fold_left
      (fun (acc : vec4 * float) poly =>
         let cent := Polygon.calculate_centroid poly in
         fold_left
           (fun (acc : vec4 * float) l =>
              let '(sum_up, sum_down) := acc in
              let cm_i :=
                map4 (fun s => s * 0.25)
                  (vadd (vadd (vadd (Line.start_point l) (Line.end_point l)) cent)
                     mean_values) in
              let a := vsub (Line.start_point l) mean_values in
              let b := vsub (Line.end_point l) mean_values in
              let c := vsub cent mean_values in
              let n := tetrahedron_volume a b c in
              let V_i := sqrt (0 + c0 n * c0 n + c1 n * c1 n + c2 n * c2 n + c3 n * c3 n) in
              (vadd sum_up (map4 (fun x => V_i * x) cm_i), sum_down + V_i))
           (Polygon.get_lines poly) acc)
      (polygons p) (zero4, 0) in
  map4 (fun s => s / sum_down) sum_up.

Section WithHelpers.
Context {helpers : ElementHelpers}.

(** The partial normal of the tetrahedron spanned by one line, the
    centroid [cent] of its polygon and the centroid of the polyhedron,
    after the orientation fix. *)
Definition tetrahedron_normal (centroid cent : vec4) (l : Line.t) : vec4 :=
  let a := vsub (Line.start_point l) centroid in
  let b := vsub (Line.end_point l) centroid in
  let c := vsub cent centroid in
  let Vout := vsub (Line.outside_point l) centroid in
  flip_normal_if_needed (tetrahedron_volume a b c) Vout.

Definition calculate_normal (p : t) : vec4 :=
  let centroid := calculate_centroid p in
  fold_left
    (fun normal poly =>
       let cent := Polygon.calculate_centroid poly in
       fold_left (fun normal l => vadd normal (tetrahedron_normal centroid cent l))
         (Polygon.get_lines poly) normal)
    (polygons p) zero4.
End WithHelpers.

End Polyhedron.

(* ================================================================== *)
(** * Hypercube *)

Module Hypercube.
Section WithConstants.
Context {consts : SquareConstants}.

(** [polyhedra] holds the [number_polyhedra] polyhedra built so far and
    [polygon_refs] the [number_polygons] collected polygons. *)
Record t : Type := mk {
  hypercube : arr2 (arr2 (arr2 (arr2 float)));
  polyhedra : list Polyhedron.t;
  cubes : list Cube.t;
  polygon_refs : list Polygon.t;
  ambiguous : bool;
  dx : vec4
}.

Definition get_number_polyhedra (h : t) : nat := length (polyhedra h).
Definition get_polyhedra (h : t) : list Polyhedron.t := polyhedra h.
Definition is_ambiguous (h : t) : bool := ambiguous h.

Definition set_polyhedra (h : t) (p : list Polyhedron.t) : t :=
  mk (hypercube h) p (cubes h) (polygon_refs h) (ambiguous h) (dx h).
Definition set_cubes (h : t) (c : list Cube.t) : t :=
  mk (hypercube h) (polyhedra h) c (polygon_refs h) (ambiguous h) (dx h).
Definition set_polygon_refs (h : t) (p : list Polygon.t) : t :=
  mk (hypercube h) (polyhedra h) (cubes h) p (ambiguous h) (dx h).
Definition set_ambiguous (h : t) (b : bool) : t :=
  mk (hypercube h) (polyhedra h) (cubes h) (polygon_refs h) b (dx h).

Definition init_hypercube (hc : arr2 (arr2 (arr2 (arr2 float)))) (new_dx : vec4) : t :=
  mk hc [] [] [] false new_dx.

(** The 2x2x2 slice of the hypercube at step [j] of coordinate [i]. *)
Definition slice (h : t) (i : axis) (j : bool) : arr2 (arr2 (arr2 float)) :=
  let hv (a b c d : bool) := at2 (at2 (at2 (at2 (hypercube h) a) b) c) d in
  let cu (f : bool -> bool -> bool -> float) :=
    (((f false false false, f false false true), (f false true false, f false true true)),
     ((f true false false, f true false true), (f true true false, f true true true))) in
  match i with
  | A0 => cu (fun ci1 ci2 ci3 => hv j ci1 ci2 ci3)
  | A1 => cu (fun ci1 ci2 ci3 => hv ci1 j ci2 ci3)
  | A2 => cu (fun ci1 ci2 ci3 => hv ci1 ci2 j ci3)
  | A3 => cu (fun ci1 ci2 ci3 => hv ci1 ci2 ci3 j)
  end.

(** The corner values of a 2x2x2 array, in the order of its three nested
    loops. *)
Definition corners3 (cu : arr2 (arr2 (arr2 float))) : list float :=
  flat_map (fun a => flat_map (fun b => map (fun c => at2 (at2 (at2 cu a) b) c) STEPS) STEPS)
    STEPS.

Definition corners4 (hc : arr2 (arr2 (arr2 (arr2 float)))) : list float :=
  flat_map (fun a => corners3 (at2 hc a)) STEPS.

(** [split_to_cubes]: the corners below [value] are counted while the two
    cubes of coordinate 0 are filled, and these visit every corner once. *)
Definition split_to_cubes (h : t) (value : float) : t * Z :=
  let number_points_below_value :=
    fold_left
      (fun n j =>
         fold_left (fun n x => if x <? value then (n + 1)%Z else n)
           (corners3 (slice h A0 j)) n)
      STEPS 0%Z in
  (set_cubes h
     (flat_map
        (fun i =>
           map (fun j => Cube.init_cube (slice h i j) i (Double.of_step j * get (dx h) i) (dx h))
             STEPS)
        DIM),
   number_points_below_value).

Definition check_ambiguity (h : t) (number_points_below_value : Z) : t :=
  let h := set_ambiguous h (existsb Cube.is_ambiguous (cubes h)) in
  if negb (ambiguous h) then
    let number_lines :=
      fold_left (fun n c => (n + Z.of_nat (Cube.get_number_lines c))%Z) (cubes h) 0%Z in
    let number_points_below_value :=
      if (8 <? number_points_below_value)%Z then (16 - number_points_below_value)%Z
      else number_points_below_value in
    if (number_lines =? 24)%Z && (number_points_below_value =? 2)%Z
    then set_ambiguous h true
    else h
  else h.

(** The first loop of [construct_polyhedra]: every cube constructs its
    polygons, which are collected in [polygon_refs]. *)
Fixpoint construct_all_polygons (cs : list Cube.t) (value : float)
    : outcome (list Cube.t * list Polygon.t) :=
  match cs with
  | [] => Ret ([], [])
  | c :: rest =>
      c' <- Cube.construct_polygons c value ;;
      r <- construct_all_polygons rest value ;;
      Ret (c' :: fst r, Cube.get_polygons c' ++ snd r)
  end.

(** The inner [for] loop of the ambiguous case. *)
Definition grow : nat -> Polyhedron.t -> list Polygon.t -> list bool -> nat -> nat
    -> Polyhedron.t * list bool * nat :=
  Greedy.grow (fun p poly => Polyhedron.add_polygon p poly false).

(** The [do ... while (used < number_polygons)] loop of the ambiguous
    case.  The loop makes no test on the number of polygons that remain
    and has no error exit. *)
Fixpoint build (fuel : nat) (refs : list Polygon.t) (not_used : list bool)
    (used : nat) (polys : list Polyhedron.t) : outcome (list Polyhedron.t) :=
  match fuel with
  | O => Ret polys
  | S fuel' =>
      let '(p, not_used, used) :=
        grow (length refs) Polyhedron.init_polyhedron refs not_used used 0 in
      let polys := polys ++ [p] in
      if (used <? length refs)%nat then build fuel' refs not_used used polys
      else Ret polys
  end.

(** [construct_polyhedra].  The call [check_ambiguity(value)] hands the
    threshold, a [double], to the [int] parameter
    [number_points_below_value]; the count returned by [split_to_cubes]
    is not used. *)
Definition construct_polyhedra (h : t) (value : float) : outcome t :=
  let '(h, number_points_below_value) := split_to_cubes h value in
  r <- construct_all_polygons (cubes h) value ;;
  let h := set_polygon_refs (set_cubes h (fst r)) (snd r) in
  let number_polygons := length (polygon_refs h) in
  match Double.to_int value with
  | None => Undefined
  | Some converted_value =>
      let h := check_ambiguity h converted_value in
      if ambiguous h then
        polys <- build (S number_polygons) (polygon_refs h)
                   (repeat true number_polygons) 0 (polyhedra h) ;;
        Ret (set_polyhedra h polys)
      else
        let p :=
          fold_left
            (fun p poly =>
               match Polyhedron.add_polygon p poly true with Some p' => p' | None => p end)
            (polygon_refs h) Polyhedron.init_polyhedron in
        Ret (set_polyhedra h (polyhedra h ++ [p]))
  end.

End WithConstants.
End Hypercube.

(* ================================================================== *)
(** * Cornelius: the facade *)

Module Cornelius.
Section WithMissingParts.
Context {consts : SquareConstants} {helpers : ElementHelpers}.

(** [normals] and [centroids] are the two result arrays; their length is
    the capacity [MAX_ELEMENTS] of [Cornelius.h], which is not among the
    sources at hand.  The owned cell objects [cube_2d], [cube_3d] and
    [cube_4d] are re-initialised by every query that uses them and are
    not part of the state. *)
Record t : Type := mk {
  number_elements : Z;
  cube_dimension : Z;
  initialized : bool;
  value : float;
  dx : vec4;
  normals : list vec4;
  centroids : list vec4
}.

Definition get_number_elements (c : t) : Z := number_elements c.

(** [arr[i] = xs[i]] for [i = 0 .. number_elements - 1]; writing past the
    end of a [std::array] is undefined. *)
Definition store (xs arr : list vec4) : outcome (list vec4) :=
  if (length xs <=? length arr)%nat then Ret (xs ++ skipn (length xs) arr)
  else Undefined.

Definition set_results (c : t) (n : Z) (ns cs : list vec4) : t :=
  mk n (cube_dimension c) (initialized c) (value c) (dx c) ns cs.

Definition find_surface_2d (c : t) (cu : arr2 (arr2 float)) : outcome t :=
  if negb (initialized c) || negb (cube_dimension c =? 2)%Z then Exit (NotInitialized 2)
  else
    let cube_2d := Square.init_square cu (A0, A1) (0, 0) (dx c) in
    cube_2d <- Square.construct_lines cube_2d (value c) ;;
    ns <- store (map line_normal (Square.get_lines cube_2d)) (normals c) ;;
    cs <- store (map line_centroid (Square.get_lines cube_2d)) (centroids c) ;;
    Ret (set_results c (Z.of_nat (Square.get_number_lines cube_2d)) ns cs).

(** [value_greater += (element >= this->value)] over all corners. *)
Definition value_greater (corners : list float) (value : float) : Z :=
  fold_left (fun n element => (n + Z.b2z (Double.geb element value))%Z) corners 0%Z.

(** [surface_3d]; the optional printing of the triangles to the debug
    file is side output and left out. *)
Definition surface_3d (c : t) (cu : arr2 (arr2 (arr2 float))) : outcome t :=
  if negb (initialized c) || negb (cube_dimension c =? 3)%Z then Exit (NotInitialized 3)
  else
    let g := value_greater (Hypercube.corners3 cu) (value c) in
    if (g =? 0)%Z || (g =? 8)%Z then
      Ret (set_results c 0 (normals c) (centroids c))
    else
      let cube_3d := Cube.init_cube cu A0 0 (dx c) in
      cube_3d <- Cube.construct_polygons cube_3d (value c) ;;
      let polys := Cube.get_polygons cube_3d in
      ns <- store (map Polygon.calculate_normal polys) (normals c) ;;
      cs <- store (map Polygon.calculate_centroid polys) (centroids c) ;;
      Ret (set_results c (Z.of_nat (Cube.get_number_polygons cube_3d)) ns cs).

Definition find_surface_3d (c : t) (cu : arr2 (arr2 (arr2 float))) : outcome t :=
  surface_3d c cu.

Definition find_surface_4d (c : t) (cu : arr2 (arr2 (arr2 (arr2 float)))) : outcome t :=
  if negb (initialized c) || negb (cube_dimension c =? 4)%Z then Exit (NotInitialized 4)
  else
    let g := value_greater (Hypercube.corners4 cu) (value c) in
    if (g =? 0)%Z || (g =? 16)%Z then
      Ret (set_results c 0 (normals c) (centroids c))
    else
      let cube_4d := Hypercube.init_hypercube cu (dx c) in
      cube_4d <- Hypercube.construct_polyhedra cube_4d (value c) ;;
      let polys := Hypercube.get_polyhedra cube_4d in
      ns <- store (map Polyhedron.calculate_normal polys) (normals c) ;;
      cs <- store (map Polyhedron.calculate_centroid polys) (centroids c) ;;
      Ret (set_results c (Z.of_nat (Hypercube.get_number_polyhedra cube_4d)) ns cs).

Definition axis_of_Z (k : Z) : option axis :=
  match k with
  | 0%Z => Some A0
  | 1%Z => Some A1
  | 2%Z => Some A2
  | 3%Z => Some A3
  | _ => None
  end.

(** The unchecked access [arr[i][k]] with [int] indices: reading outside
    either array is undefined. *)
Definition read (arr : list vec4) (i k : Z) : outcome float :=
  if (i <? 0)%Z then Undefined
  else
    match nth_error arr (Z.to_nat i), axis_of_Z k with
    | Some v, Some a => Ret (get v a)
    | _, _ => Undefined
    end.

Definition get_centroid_element (c : t) (index_surface_element element_centroid : Z)
    : outcome float :=
  if (index_surface_element >=? number_elements c)%Z
     || (element_centroid >=? cube_dimension c)%Z
  then OutOfRange
  else read (centroids c) index_surface_element
         (element_centroid + (4 - cube_dimension c))%Z.

Definition get_normal_element (c : t) (index_surface_element element_normal : Z)
    : outcome float :=
  if (index_surface_element >=? number_elements c)%Z
     || (element_normal >=? cube_dimension c)%Z
  then OutOfRange
  else read (normals c) index_surface_element
         (element_normal + (4 - cube_dimension c))%Z.

(** What [get_normals] and [get_centroids] hand back. *)
Inductive vectors : Type :=
| Rows (rows : list (list float))      (* the vector of vectors returned *)
| TooLarge                             (* a vector of negative size: the constructor throws *)
| BadCopy.                             (* undefined: the copy reads outside the result array *)

(** [std::copy(v.begin() + (DIM - cube_dimension), v.begin() + DIM, row.begin())]
    into a row of [cube_dimension] components, for
    [0 <= cube_dimension <= DIM]. *)
Definition last_components (v : vec4) (cube_dimension : Z) : list float :=
  skipn (Z.to_nat (4 - cube_dimension)) [c0 v; c1 v; c2 v; c3 v].

(** The common body of [get_normals] and [get_centroids].  The prototype
    row [std::vector<double>(cube_dimension)] is built first, then the
    vector of [number_elements] rows; an [int] below zero becomes a size
    above [max_size()].  With no element the loop does not run.
    Exhaustion of memory is not modelled. *)
Definition copy_rows (arr : list vec4) (number_elements cube_dimension : Z) : vectors :=
  if (cube_dimension <? 0)%Z || (number_elements <? 0)%Z then TooLarge
  else if (number_elements =? 0)%Z then Rows []
  else if (4 <? cube_dimension)%Z then BadCopy
  else if (Z.of_nat (length arr) <? number_elements)%Z then BadCopy
  else
    Rows (map (fun v => last_components v cube_dimension)
            (firstn (Z.to_nat number_elements) arr)).

Definition get_normals (c : t) : vectors :=
  copy_rows (normals c) (number_elements c) (cube_dimension c).

Definition get_centroids (c : t) : vectors :=
  copy_rows (centroids c) (number_elements c) (cube_dimension c).

End WithMissingParts.
End Cornelius.

(* ================================================================== *)
(** * SurfaceFinder: the caller of the 3-D query *)

Module SurfaceFinder.
Section WithHydro.
Context {consts : SquareConstants} {helpers : ElementHelpers}.

(** The temperature of the fluid cell that the hydro history in use
    ([HydroinfoH5] or [Hydroinfo_MUSIC], neither among the sources at
    hand) reports at proper time [tau] and transverse position [(x, y)],
    at space-time rapidity 0.  The configuration [hydro_type == 0] built
    without HDF5, in which no lookup is made, is not modelled. *)
Variable temperature : float -> float -> float -> float.

(** [check_intersect]: the pair of the returned flag and of the cube
    written through the reference parameter. *)
Definition check_intersect (T_cut tau x y dt dx dy : float)
    : bool * arr2 (arr2 (arr2 float)) :=
  let tau_low := tau - dt / 2 in
  let tau_high := tau + dt / 2 in
  let x_left := x - dx / 2 in
  let x_right := x + dx / 2 in
  let y_left := y - dy / 2 in
  let y_right := y + dy / 2 in
  let cube :=
    (((temperature tau_low x_left y_left, temperature tau_low x_left y_right),
      (temperature tau_low x_right y_left, temperature tau_low x_right y_right)),
     ((temperature tau_high x_left y_left, temperature tau_high x_left y_right),
      (temperature tau_high x_right y_left, temperature tau_high x_right y_right))) in
  let cu (i j k : bool) := at2 (at2 (at2 cube i) j) k in
  let intersect :=
    if (T_cut - cu false false false) * (cu true true true - T_cut) <? 0 then
      if (T_cut - cu false true false) * (cu true false true - T_cut) <? 0 then
        if (T_cut - cu false true true) * (cu true false false - T_cut) <? 0 then
          if (T_cut - cu false false true) * (cu true true false - T_cut) <? 0 then false
          else true
        else true
      else true
    else true in
  (intersect, cube).

(** One line of [hyper_surface_2+1d.dat], without the fluid-cell values
    printed after the six numbers. *)
Record surface_element : Type := mk_element {
  tau_center : float;
  x_center : float;
  y_center : float;
  da_tau : float;
  da_x : float;
  da_y : float
}.

(** The body of the loop over [isurf] in [Find_full_hypersurface]. *)
Definition read_element (c : Cornelius.t)
    (tau_local x_local y_local grid_dt grid_dx grid_dy : float) (isurf : Z)
    : outcome surface_element :=
  centroid_0 <- Cornelius.get_centroid_element c isurf 0 ;;
  centroid_1 <- Cornelius.get_centroid_element c isurf 1 ;;
  centroid_2 <- Cornelius.get_centroid_element c isurf 2 ;;
  normal_0 <- Cornelius.get_normal_element c isurf 0 ;;
  normal_1 <- Cornelius.get_normal_element c isurf 1 ;;
  normal_2 <- Cornelius.get_normal_element c isurf 2 ;;
  Ret (mk_element (centroid_0 + tau_local - grid_dt / 2)
         (centroid_1 + x_local - grid_dx / 2)
         (centroid_2 + y_local - grid_dy / 2)
         normal_0 normal_1 normal_2).

(** [for (isurf = ...; isurf < get_number_elements(); isurf++)], with
    [remaining] passes still to make. *)
Fixpoint read_elements (c : Cornelius.t)
    (tau_local x_local y_local grid_dt grid_dx grid_dy : float) (isurf : Z)
    (remaining : nat) : outcome (list surface_element) :=
  match remaining with
  | O => Ret []
  | S remaining' =>
      e <- read_element c tau_local x_local y_local grid_dt grid_dx grid_dy isurf ;;
      es <- read_elements c tau_local x_local y_local grid_dt grid_dx grid_dy
              (isurf + 1) remaining' ;;
      Ret (e :: es)
  end.

(** The body of the three nested loops of [Find_full_hypersurface] for
    the cell centred at [(tau_local, x_local, y_local)]: the facade after
    the pass and the elements written for this cell. *)
Definition surface_in_cell (c : Cornelius.t)
    (T_cut tau_local x_local y_local grid_dt grid_dx grid_dy : float)
    : outcome (Cornelius.t * list surface_element) :=
  let '(intersect, cube) :=
    check_intersect T_cut tau_local x_local y_local grid_dt grid_dx grid_dy in
  if intersect then
    c <- Cornelius.find_surface_3d c cube ;;
    es <- read_elements c tau_local x_local y_local grid_dt grid_dx grid_dy 0
            (Z.to_nat (Cornelius.get_number_elements c)) ;;
    Ret (c, es)
  else Ret (c, []).

End WithHydro.
End SurfaceFinder.


(* ================================================================== *)
(** * Notions used in the statements *)

(** The corner values of a 2x2 array, in the order of its two nested
    loops. *)
Definition corners2 (sq : arr2 (arr2 float)) : list float :=
  flat_map (fun a => map (fun b => at2 (at2 sq a) b) STEPS) STEPS.

(** Every corner value lies strictly above, or every corner value lies
    strictly below, the threshold. *)
Definition all_above (corners : list float) (value : float) : bool :=
  forallb (fun x => value <? x) corners.

Definition all_below (corners : list float) (value : float) : bool :=
  forallb (fun x => x <? value) corners.

Definition one_sided (corners : list float) (value : float) : bool :=
  all_above corners value || all_below corners value.

(** The number of corner values below the threshold. *)
Definition number_below (corners : list float) (value : float) : Z :=
  Z.of_nat (length (filter (fun x => x <? value) corners)).

(** ** Cells and states on which the model is run *)

(** Values for the constants of [Square.h], needed to run the model on a
    concrete cell.  They are read only when a corner lies exactly on the
    threshold, which happens in none of the cells below. *)
Definition sample_constants : SquareConstants :=
  {| ALMOST_ZERO := 1e-9; ALMOST_ONE := 1 - 1e-9 |}.

Definition dot4 (u v : vec4) : float :=
  0 + c0 u * c0 v + c1 u * c1 v + c2 u * c2 v + c3 u * c3 v.

(** Modelled from the spec: [GeneralGeometryElement.h] is missing.  "Outward"
    is enforced per triangle or tetrahedron by flipping its raw normal if
    it points toward the outside reference point rather than away from
    it: the normal is negated when its dot product with the vector to the
    outside point is positive. *)
Definition flip_if_toward_outside (normal v_out : vec4) : vec4 :=
  if Double.gtb (dot4 normal v_out) 0 then map4 Floats.PrimFloat.opp normal else normal.

(** The opposite convention, which negates a normal that points away from
    the outside point; it is used for comparison only. *)
Definition flip_if_away_from_outside (normal v_out : vec4) : vec4 :=
  if dot4 normal v_out <? 0 then map4 Floats.PrimFloat.opp normal else normal.

(** Modelled from the spec: [Line.cpp] is missing.  The centroid is the
    geometric centre of a surface element and the normal a vector
    perpendicular to it whose magnitude encodes its size; for a line these
    are the midpoint of the end points and the perpendicular of the
    segment within its face, oriented by [flip].  The two only serve to
    run the 2-D facade on a concrete cell. *)
Definition helpers_with (flip : vec4 -> vec4 -> vec4) : ElementHelpers :=
  {| flip_normal_if_needed := flip;
     line_centroid := fun l =>
       map4 (fun s => s * 0.5)
         (map2_4 Floats.PrimFloat.add (Line.start_point l) (Line.end_point l));
     line_normal := fun l =>
       let x := Square.free_axes (Line.const_i l) in
       let d := map2_4 Floats.PrimFloat.sub (Line.end_point l) (Line.start_point l) in
       let n := set (set zero4 (fst x) (- get d (snd x))) (snd x) (get d (fst x)) in
       let mid :=
         map4 (fun s => s * 0.5)
           (map2_4 Floats.PrimFloat.add (Line.start_point l) (Line.end_point l)) in
       flip n (map2_4 Floats.PrimFloat.sub (Line.outside_point l) mid) |}.

Definition spec_helpers : ElementHelpers := helpers_with flip_if_toward_outside.
Definition opposite_helpers : ElementHelpers := helpers_with flip_if_away_from_outside.

Definition unit_spacing : vec4 := mk4 1 1 1 1.

(** A facade initialised for [dimension] with threshold [value], unit
    spacing and room for ten elements. *)
Definition ready (dimension : Z) (value : float) : Cornelius.t :=
  Cornelius.mk 0 dimension true value unit_spacing (repeat zero4 10) (repeat zero4 10).

(** Element [i] of a result array, for an [int] index. *)
Definition element (arr : list vec4) (i : Z) : option vec4 :=
  if (i <? 0)%Z then None else nth_error arr (Z.to_nat i).

(** The accessor contract as the interface states it: the call fails with
    the out-of-range error when [i >= number_elements] or
    [k >= cube_dimension], and otherwise returns the stored component of
    element [i] (component [k] of a [cube_dimension]-dimensional result
    sits at index [k + (DIM - cube_dimension)] of the stored 4-vector). *)
Definition accessor_contract (accessor : Cornelius.t -> Z -> Z -> outcome float)
    (stored : Cornelius.t -> list vec4) (c : Cornelius.t) (i k : Z) : Prop :=
  if ((i >=? Cornelius.number_elements c) || (k >=? Cornelius.cube_dimension c))%Z
  then accessor c i k = OutOfRange
  else exists v a,
      element (stored c) i = Some v
      /\ Cornelius.axis_of_Z (k + (4 - Cornelius.cube_dimension c)) = Some a
      /\ accessor c i k = Ret (get v a).

(** What every query leaves behind: no more elements than the result
    arrays hold, in a dimension of at most [DIM]. *)
Definition bounded (c : Cornelius.t) : Prop :=
  (Cornelius.number_elements c <= Z.of_nat (length (Cornelius.centroids c)))%Z
  /\ (Cornelius.number_elements c <= Z.of_nat (length (Cornelius.normals c)))%Z
  /\ (Cornelius.cube_dimension c <= 4)%Z.

(** The state after a 3-D query that found one element. *)
Definition one_element_3d : Cornelius.t :=
  Cornelius.mk 1 3 true 0.5 unit_spacing
    (mk4 0 0.125 0.125 0.125 :: repeat zero4 9)
    (mk4 0 0.25 0.25 0.25 :: repeat zero4 9).

(** ** The saddle of a square *)

(** The field value at the geometric centre of the square: the mean of the
    four corner values. *)
Definition value_middle (s : Square.t) : float :=
  0.25 * (Square.pt s false false + Square.pt s false true
          + Square.pt s true false + Square.pt s true true).

(** The centre and the corner at (0,0) are classified alike: both strictly
    below, or both strictly above, the threshold. *)
Definition center_agrees (s : Square.t) (value : float) : bool :=
  ((Square.pt s false false <? value) && (value_middle s <? value))
  || (Double.gtb (Square.pt s false false) value && Double.gtb (value_middle s) value).

(** The pairing rule as the specification words it: recorded order when
    the centre agrees with the corner at (0,0), cuts 1 and 2 exchanged
    otherwise. *)
Definition pairing_as_stated (s : Square.t) (value : float) : Prop :=
  Square.cuts (Square.find_outside s value)
  = if center_agrees s value then Square.cuts s
    else Square.swap_cuts_1_2 (Square.cuts s).

(** A saddle: corners 1, 0 / 0, 2 around the threshold 0.5, after its four
    cuts have been recorded. *)
Definition saddle_square : Square.t :=
  Square.set_cuts
    (Square.init_square ((1, 0), (0, 2)) (A0, A1) (0, 0) unit_spacing)
    [(0.5, 0); (0, 0.5); (1, 0.25); (0.25, 1)].

(** ** Coincidence of end points *)

(** The sum of the coordinate-wise absolute differences of two points as
    [lines_are_connected] accumulates it: a sum that has exceeded
    [EPSILON] is not increased any further. *)
Definition running_difference (p q : vec4) (coords : list axis) (d : float) : float :=
  fold_left
    (fun d i => if d <=? Polyhedron.EPSILON then d + abs (get p i - get q i) else d)
    coords d.

(** Two points coincide when that sum does not end above [EPSILON]. *)
Definition coincide (p q : vec4) : bool :=
  negb (Double.gtb (running_difference p q DIM 0) Polyhedron.EPSILON).

(** Connectedness as the specification words it: some end point of the
    first line coincides with some end point of the second. *)
Definition connected_as_stated (line1 line2 : Line.t) : bool :=
  coincide (Line.start_point line1) (Line.start_point line2)
  || coincide (Line.start_point line1) (Line.end_point line2)
  || coincide (Line.end_point line1) (Line.start_point line2)
  || coincide (Line.end_point line1) (Line.end_point line2).

(** Two segments that meet in their common end point (1,0,0,0). *)
Definition segment_a : Line.t :=
  Line.mk (mk4 0 0 0 0) (mk4 1 0 0 0) (mk4 0 0 0 0) (A2, A3).
Definition segment_b : Line.t :=
  Line.mk (mk4 0 1 0 0) (mk4 1 0 0 0) (mk4 0 0 0 0) (A2, A3).

(** ** Ambiguity of a cube and of a hypercube *)

(** The ambiguity rule of a cube as the specification words it: some
    square is ambiguous, or exactly 6 lines were found and exactly 2 of the 8
    corner values lie below the threshold. *)
Definition cube_flag_as_stated (c : Cube.t) (value : float) : Prop :=
  Cube.is_ambiguous c = true
  <-> (existsb Square.is_ambiguous (Cube.squares c) = true
       \/ (Cube.get_number_lines c = 6%nat
           /\ number_below (Hypercube.corners3 (Cube.cube c)) value = 2%Z)).

(** A cube cut in a hexagon: the corner (0,0,0) and its three neighbours
    lie below the threshold 0.5, the other four corners above it. *)
Definition hexagon_cube : arr2 (arr2 (arr2 float)) :=
  (((0, 0), (0, 1)), ((0, 1), (1, 1))).

(** The cube [cu] after a query with threshold [value], spacing 1 and
    constant coordinate 0 (the cube itself when the query does not
    return). *)
Definition run_cube (cu : arr2 (arr2 (arr2 float))) (value : float) : Cube.t :=
  let c := Cube.init_cube cu A0 0 unit_spacing in
  match Cube.construct_polygons (consts := sample_constants) c value with
  | Ret c' => c'
  | _ => c
  end.

(** The lines found in all 8 cubes, as [check_ambiguity] adds them up. *)
Definition total_lines (h : Hypercube.t) : Z :=
  fold_left (fun n c => (n + Z.of_nat (Cube.get_number_lines c))%Z) (Hypercube.cubes h) 0%Z.

(** A count of corners folded into 0 .. 8: [n] becomes [16 - n] when
    [n > 8]. *)
Definition folded (n : Z) : Z := if (8 <? n)%Z then (16 - n)%Z else n.

(** The ambiguity rule of a hypercube as the specification words it. *)
Definition hypercube_flag_as_stated (h : Hypercube.t) (value : float) : Prop :=
  Hypercube.is_ambiguous h = true
  <-> (existsb Cube.is_ambiguous (Hypercube.cubes h) = true
       \/ (total_lines h = 24%Z
           /\ folded (number_below (Hypercube.corners4 (Hypercube.hypercube h)) value)
              = 2%Z)).

(** A hypercube with two opposite corners, (0,0,0,0) and (1,1,1,1), below
    the threshold 0.5 and the other fourteen above it: the surface consists
    of two separate tetrahedra. *)
Definition two_opposite_corners : arr2 (arr2 (arr2 (arr2 float))) :=
  ((((0, 1), (1, 1)), ((1, 1), (1, 1))), (((1, 1), (1, 1)), ((1, 1), (1, 0)))).

(** ** Starting a new element with too little left *)

(** A cube whose corner (0,0,0) and its three neighbours are 1 and whose
    other four corners lie only just below the threshold 0: every cut
    falls, after rounding, on a corner of the cube. *)
Definition marginal_cube : arr2 (arr2 (arr2 float)) :=
  (((1, 1), (1, -1e-17)), ((1, -1e-17), (-1e-17, -1e-17))).

(** ** Orientation of the normals *)

(** Two binary64 values of which the second is the negation of the first,
    up to the sign of a zero. *)
Definition is_zero (x : spec_float) : bool :=
  match x with S754_zero _ => true | _ => false end.

Definition negated (x x' : spec_float) : Prop :=
  x' = SFopp x \/ (is_zero x = true /\ is_zero x' = true).

(** The orientation property as the specification words it, for a polygon
    and the outside reference points it has access to, those of its lines:
    the normal of the polygon, dotted with the vector from the centroid to
    the outside point, is at most 0. *)
Definition oriented_as_stated {helpers : ElementHelpers} (p : Polygon.t) : bool :=
  forallb
    (fun l =>
       dot4 (Polygon.calculate_normal p)
         (map2_4 Floats.PrimFloat.sub (Line.outside_point l) (Polygon.calculate_centroid p))
       <=? 0)
    (Polygon.get_lines p).

(** A cube cut in a pentagon: three corners above the threshold 0.5, five
    below it, no corner on it. *)
Definition pentagon_cube : arr2 (arr2 (arr2 float)) :=
  (((0.25, 0.25), (0.25, 0)), ((0.25, 1), (1, 1))).

(** ** Fuel *)

(** The number of candidates still marked unused. *)
Definition unused (not_used : list bool) : nat :=
  length (filter (fun b => b) not_used).


(* ================================================================== *)
(** * Notions used in the further properties *)


(** ** Cuts and the edges they lie on *)

(** The test that [ends_of_edge] applies to one edge with corner values
    [a] and [b]: a cut is recorded when one of its three conditions
    holds. *)
Definition edge_hit (a b v : float) : bool :=
  if (a - v) * (b - v) <? 0 then true
  else if (a =? v) && (b <? v) then true
  else if (b =? v) && (a <? v) then true
  else false.

(** The three-way branch that [ends_of_edge] makes at one edge, with the
    outcome of its sign test, of its two tests for a corner on the
    threshold, and the cut that each of them records. *)
Definition cut_edge (s : Square.t) (product : float) (on_first on_second : bool)
    (between at_first at_second : arr2 float) : Square.t :=
  if product <? 0 then Square.add_cut s (fst between) (snd between)
  else if on_first then Square.add_cut s (fst at_first) (snd at_first)
  else if on_second then Square.add_cut s (fst at_second) (snd at_second)
  else s.

(** What stays as it is in a square while cuts are recorded. *)
Definition same_cell (s s' : Square.t) : Prop :=
  Square.points s' = Square.points s
  /\ Square.const_i s' = Square.const_i s
  /\ Square.const_value s' = Square.const_value s
  /\ Square.x1 s' = Square.x1 s
  /\ Square.x2 s' = Square.x2 s
  /\ Square.dx s' = Square.dx s
  /\ Square.lines s' = Square.lines s
  /\ Square.ambiguous s' = Square.ambiguous s.

(** The surface crosses an edge with corner values [a] and [b]: the two
    values lie strictly on opposite sides of the threshold, or one lies on
    it and the other strictly below. *)
Definition crosses (a b v : float) : bool :=
  ((a <? v) && (v <? b)) || ((v <? a) && (b <? v))
  || ((a =? v) && (b <? v)) || ((b =? v) && (a <? v)).

(** The four edges of a square, in the order in which [ends_of_edge]
    visits them, each with its two corner values. *)
Definition edges (s : Square.t) : list (float * float) :=
  [(Square.pt s false false, Square.pt s true false);
   (Square.pt s false false, Square.pt s false true);
   (Square.pt s true false, Square.pt s true true);
   (Square.pt s false true, Square.pt s true true)].

Definition crossed_edges (s : Square.t) (v : float) : nat :=
  length (filter (fun e => crosses (fst e) (snd e) v) (edges s)).

(** ** Lines and the elements built from them *)

(** A line and the same line after [flip_start_end]. *)
Definition same_segment (l l' : Line.t) : Prop :=
  l' = l \/ l' = Line.flip_start_end l.

(** The lines of a list of polygons, polygon after polygon. *)
Definition all_lines (polys : list Polygon.t) : list Line.t :=
  flat_map Polygon.get_lines polys.

(** The polygons of a list of polyhedra, polyhedron after polyhedron. *)
Definition all_polygons (polys : list Polyhedron.t) : list Polygon.t :=
  flat_map Polyhedron.polygons polys.

(** Both end points and the outside point of a line have coordinate [i]
    equal to [x]. *)
Definition on_hyperplane (i : axis) (x : float) (l : Line.t) : Prop :=
  get (Line.start_point l) i = x
  /\ get (Line.end_point l) i = x
  /\ get (Line.outside_point l) i = x.

(** Every line of the chain starts where the line before it ends, up to
    [EPSILON] in the sum of the coordinate-wise absolute differences. *)
Fixpoint chained (ls : list Line.t) : bool :=
  match ls with
  | a :: (b :: _) as rest =>
      (Polygon.difference (Line.start_point b) (Line.end_point a) <? Polygon.EPSILON)
      && chained rest
  | _ => true
  end.

(** The number of lines of all polygons of a polyhedron. *)
Definition lines_in (p : Polyhedron.t) : nat :=
  fold_left (fun n poly => (n + Polygon.get_number_lines poly)%nat) (Polyhedron.polygons p) 0%nat.

(** ** The candidates of a greedy loop *)

(** The candidates whose mark [not_used] has been cleared. *)
Definition taken {E : Type} (refs : list E) (not_used : list bool) : list E :=
  map fst (filter (fun x => negb (snd x)) (combine refs not_used)).

(** ** What a query finds *)

(** The lines, polygons and polyhedra that a query of the facade [c]
    finds in a cell: none when the query stops early or does not
    return. *)
Definition found_lines {consts : SquareConstants} (c : Cornelius.t)
    (cu : arr2 (arr2 float)) : list Line.t :=
  match Square.construct_lines (Square.init_square cu (A0, A1) (0, 0) (Cornelius.dx c))
          (Cornelius.value c) with
  | Ret cube_2d => Square.get_lines cube_2d
  | _ => []
  end.

Definition found_polygons {consts : SquareConstants} (c : Cornelius.t)
    (cu : arr2 (arr2 (arr2 float))) : list Polygon.t :=
  let g := Cornelius.value_greater (Hypercube.corners3 cu) (Cornelius.value c) in
  if (g =? 0)%Z || (g =? 8)%Z then []
  else
    match Cube.construct_polygons (Cube.init_cube cu A0 0 (Cornelius.dx c))
            (Cornelius.value c) with
    | Ret cube_3d => Cube.get_polygons cube_3d
    | _ => []
    end.

Definition found_polyhedra {consts : SquareConstants} (c : Cornelius.t)
    (cu : arr2 (arr2 (arr2 (arr2 float)))) : list Polyhedron.t :=
  let g := Cornelius.value_greater (Hypercube.corners4 cu) (Cornelius.value c) in
  if (g =? 0)%Z || (g =? 16)%Z then []
  else
    match Hypercube.construct_polyhedra (Hypercube.init_hypercube cu (Cornelius.dx c))
            (Cornelius.value c) with
    | Ret cube_4d => Hypercube.get_polyhedra cube_4d
    | _ => []
    end.

(** ** What the facade serves *)

(** The facade [c] serves the elements with the given normals and
    centroids in [dimension] dimensions: it reports their number, and
    the accessors return, for element [i] and component [k], entry [k]
    of the last [dimension] components of its normal and of its
    centroid. *)
Definition serves (c : Cornelius.t) (dimension : Z) (normals centroids : list vec4)
    : Prop :=
  Cornelius.cube_dimension c = dimension
  /\ Cornelius.get_number_elements c = Z.of_nat (length normals)
  /\ length centroids = length normals
  /\ (forall i k n x,
         nth_error normals i = Some n ->
         nth_error (Cornelius.last_components n dimension) k = Some x ->
         Cornelius.get_normal_element c (Z.of_nat i) (Z.of_nat k) = Ret x)
  /\ (forall i k m x,
         nth_error centroids i = Some m ->
         nth_error (Cornelius.last_components m dimension) k = Some x ->
         Cornelius.get_centroid_element c (Z.of_nat i) (Z.of_nat k) = Ret x).

(** The line that [Find_full_hypersurface] writes for a polygon found in
    the cell centred at [(tau_local, x_local, y_local)]. *)
Definition element_of {helpers : ElementHelpers}
    (tau_local x_local y_local grid_dt grid_dx grid_dy : float) (p : Polygon.t)
    : SurfaceFinder.surface_element :=
  let centroid := Polygon.calculate_centroid p in
  let normal := Polygon.calculate_normal p in
  SurfaceFinder.mk_element
    (get centroid A1 + tau_local - grid_dt / 2)
    (get centroid A2 + x_local - grid_dx / 2)
    (get centroid A3 + y_local - grid_dy / 2)
    (get normal A1) (get normal A2) (get normal A3).

(** The two ends of a body diagonal of a cube both lie strictly below, or
    both strictly above, the threshold. *)
Definition same_side (a b v : float) : bool :=
  ((a <? v) && (b <? v)) || ((v <? a) && (v <? b)).

(** ** Sample cells *)

(** A cube with two opposite corners, (0,0,0) and (1,1,1), below the
    threshold 0.5 and the other six above it: the surface consists of two
    separate triangles. *)
Definition two_corner_cube : arr2 (arr2 (arr2 float)) :=
  (((0, 1), (1, 1)), ((1, 1), (1, 0))).

(** The hypercube [hc] after a query with threshold [value] and spacing 1
    (the hypercube itself when the query does not return). *)
Definition run_hypercube (hc : arr2 (arr2 (arr2 (arr2 float)))) (value : float)
    : Hypercube.t :=
  let h := Hypercube.init_hypercube hc unit_spacing in
  match Hypercube.construct_polyhedra (consts := sample_constants) h value with
  | Ret h' => h'
  | _ => h
  end.

(** A temperature that rises along [x] only. *)
Definition rising_along_x (tau x y : float) : float := x.

(** The pass of [Find_full_hypersurface] over the cell of unit size centred
    at (0.5, 0.5, 0.5), for the cut 0.5 in that temperature. *)
Definition sample_pass : outcome (Cornelius.t * list SurfaceFinder.surface_element) :=
  SurfaceFinder.surface_in_cell (consts := sample_constants) (helpers := spec_helpers)
    rising_along_x (ready 3 0.5) 0.5 0.5 0.5 0.5 1 1 1.

(** A hypercube with two opposite corners, (0,0,0,0) and (1,1,1,1), at 2
    and the other fourteen at 3: at the threshold 2.5 the two tetrahedra
    are built by the ambiguous branch. *)
Definition two_low_corners : arr2 (arr2 (arr2 (arr2 float))) :=
  ((((2, 3), (3, 3)), ((3, 3), (3, 3))), (((3, 3), (3, 3)), ((3, 3), (3, 2)))).

(** The first polygon grown from the lines of the cube with two corners
    below, with the marks and the count that the loop leaves. *)
Definition first_polygon : Polygon.t * list bool * nat :=
  Cube.grow 6 (Polygon.init_polygon A0) (Cube.line_refs (run_cube two_corner_cube 0.5))
    (repeat true 6) 0 0.

(** The first polyhedron grown from the polygons of the hypercube with two
    low corners. *)
Definition first_polyhedron : Polyhedron.t * list bool * nat :=
  Hypercube.grow 8 Polyhedron.init_polyhedron
    (Hypercube.polygon_refs (run_hypercube two_low_corners 2.5)) (repeat true 8) 0 0.

(** The facade after the 3-D query on the hexagon cube. *)
Definition hexagon_query : Cornelius.t :=
  match Cornelius.find_surface_3d (consts := sample_constants) (helpers := spec_helpers)
          (ready 3 0.5) hexagon_cube with
  | Ret c' => c'
  | _ => ready 3 0.5
  end.

(* ================================================================== *)
(** * Properties *)

(** ** Comparisons of doubles *)

Lemma SFcompare_antisym (x y : spec_float) :
  SFcompare y x = option_map CompOpp (SFcompare x y).
Proof.
  destruct x as [[]|[]| |[] m1 e1], y as [[]|[]| |[] m2 e2]; simpl; try reflexivity.
  all: rewrite (Z.compare_antisym e1 e2); destruct (e1 ?= e2)%Z; simpl; try reflexivity.
  all: rewrite (Pos.compare_cont_antisym m1 m2 Eq); simpl.
  all: destruct (Pos.compare_cont Eq m1 m2); reflexivity.
Qed.

(** [a < b] entails [a <= b] ... *)
Lemma ltb_leb (a b : float) : (a <? b) = true -> (a <=? b) = true.
Proof.
  rewrite ltb_spec, leb_spec. unfold SFltb, SFleb.
  destruct (SFcompare _ _) as [[]|]; congruence.
Qed.

(** ... and excludes [b <= a]. *)
Lemma ltb_not_leb (a b : float) : (a <? b) = true -> (b <=? a) = false.
Proof.
  rewrite ltb_spec, leb_spec. unfold SFltb, SFleb.
  rewrite (SFcompare_antisym (Prim2SF a)).
  destruct (SFcompare _ _) as [[]|]; simpl; congruence.
Qed.

Lemma gt_geb (a b : float) : (b <? a) = true -> Double.geb a b = true.
Proof. apply ltb_leb. Qed.

Lemma lt_not_geb (a b : float) : (a <? b) = true -> Double.geb a b = false.
Proof. apply ltb_not_leb. Qed.

(** ** Negation and the sign of sums of products *)

Section Signs.
Variables prec emax : Z.

Lemma binary_round_aux_opp (s : bool) (m e : Z) (l : location) :
  binary_round_aux prec emax (negb s) m e l = SFopp (binary_round_aux prec emax s m e l).
Proof.
  unfold binary_round_aux.
  destruct (shr_fexp prec emax m e l) as [mrs' e'].
  destruct (shr_fexp prec emax _ e' loc_Exact) as [mrs'' e''].
  destruct (shr_m mrs''); [reflexivity| |reflexivity].
  destruct (Z.leb e'' _); reflexivity.
Qed.

Lemma binary_round_opp (s : bool) (m : positive) (e : Z) :
  binary_round prec emax (negb s) m e = SFopp (binary_round prec emax s m e).
Proof.
  unfold binary_round. destruct (shl_align _ _ _) as [mz ez]. apply binary_round_aux_opp.
Qed.

(** A product changes sign with its first factor. *)
Lemma SFmul_opp_l (a b : spec_float) :
  SFmul prec emax (SFopp a) b = SFopp (SFmul prec emax a b).
Proof.
  destruct a as [sa|sa| |sa ma ea], b as [sb|sb| |sb mb eb];
    cbn [SFmul SFopp]; try reflexivity.
  all: try (destruct sa, sb; reflexivity).
  replace (xorb (negb sa) sb) with (negb (xorb sa sb)) by (destruct sa, sb; reflexivity).
  apply binary_round_aux_opp.
Qed.

Lemma binary_normalize_opp (z e : Z) :
  negated (binary_normalize prec emax z e false) (binary_normalize prec emax (- z) e false).
Proof.
  destruct z as [|p|p]; cbn [binary_normalize Z.opp].
  - right. split; reflexivity.
  - left. apply (binary_round_opp false).
  - left. rewrite (binary_round_opp false).
    destruct (binary_round prec emax false p e) as [[]|[]| |[] ? ?]; reflexivity.
Qed.

(** A sum changes sign with both of its terms, up to the sign of a zero. *)
Lemma SFadd_negated (x x' y : spec_float) :
  negated x x' -> negated (SFadd prec emax x y) (SFadd prec emax x' (SFopp y)).
Proof.
  intros [->|[Hx Hx']].
  - destruct x as [sx|sx| |sx mx ex], y as [sy|sy| |sy my ey]; cbn [SFadd SFopp].
    all: try (left; reflexivity).
    all: try (destruct sx, sy; (left; reflexivity) || (right; split; reflexivity)).
    replace (cond_Zopp (negb sx) (Z.pos (fst (shl_align mx ex (Z.min ex ey))))
             + cond_Zopp (negb sy) (Z.pos (fst (shl_align my ey (Z.min ex ey)))))%Z
      with (- (cond_Zopp sx (Z.pos (fst (shl_align mx ex (Z.min ex ey))))
               + cond_Zopp sy (Z.pos (fst (shl_align my ey (Z.min ex ey))))))%Z
      by (destruct sx, sy; cbn [cond_Zopp negb]; lia).
    apply binary_normalize_opp.
  - destruct x as [sx| | |]; try discriminate Hx.
    destruct x' as [sx'| | |]; try discriminate Hx'.
    destruct y as [sy|sy| |sy my ey]; cbn [SFadd SFopp].
    all: try (left; reflexivity).
    destruct sx, sx', sy; right; split; reflexivity.
Qed.

(** The negation of a positive value is not positive. *)
Lemma negated_not_positive (x x' : spec_float) :
  negated x x' -> SFltb (S754_zero false) x = true -> SFltb (S754_zero false) x' = false.
Proof.
  intros [->|[Hx _]].
  - destruct x as [[]|[]| |[] m e]; cbn; congruence.
  - destruct x; try discriminate Hx. cbn. discriminate.
Qed.

End Signs.

Lemma dot4_opp (n v : vec4) :
  negated (Prim2SF (dot4 n v)) (Prim2SF (dot4 (map4 Floats.PrimFloat.opp n) v)).
Proof.
  unfold dot4. destruct n as [n0 n1 n2 n3], v as [v0 v1 v2 v3]. cbn [map4 c0 c1 c2 c3].
  rewrite !add_spec, !mul_spec, !opp_spec. unfold SF64add, SF64mul.
  rewrite !SFmul_opp_l.
  repeat apply SFadd_negated.
  right. split; reflexivity.
Qed.

(** Whatever the two vectors (NaN and infinite components included), a
    normal that has gone through the orientation fix does not point toward
    the outside point. *)
Lemma flip_not_toward_outside (n v_out : vec4) :
  Double.gtb (dot4 (flip_if_toward_outside n v_out) v_out) 0 = false.
Proof.
  unfold flip_if_toward_outside. destruct (Double.gtb (dot4 n v_out) 0) eqn:E; [|exact E].
  unfold Double.gtb in *. rewrite ltb_spec in *.
  exact (negated_not_positive _ _ (dot4_opp n v_out) E).
Qed.

(** ** The rounds of the greedy loops are never cut short *)

Section GreedyFuel.
Variables (E P : Type) (add : P -> E -> option P).
Open Scope nat_scope.

Lemma scan_all_used (p : P) (rest : list (E * bool)) (i : nat) :
  Forall (fun x => snd x = false) rest -> Greedy.scan add p rest i = None.
Proof.
  intros H. revert i. induction H as [|[e b] rest Hb _ IH]; intros i; simpl.
  - reflexivity.
  - simpl in Hb. subst b. apply IH.
Qed.

Lemma scan_accepts_unused (p p' : P) (rest : list (E * bool)) (i k : nat) :
  Greedy.scan add p rest i = Some (k, p') ->
  i <= k /\ nth_error (map snd rest) (k - i) = Some true.
Proof.
  revert i. induction rest as [|[e b] rest IH]; intros i; simpl.
  - discriminate.
  - destruct b.
    + destruct (add p e).
      * intros H; injection H as <- <-. rewrite Nat.sub_diag. split; [lia|reflexivity].
      * intros H. apply IH in H as [H1 H2]. split; [lia|].
        replace (k - i) with (S (k - S i)) by lia. exact H2.
    + intros H. apply IH in H as [H1 H2]. split; [lia|].
      replace (k - i) with (S (k - S i)) by lia. exact H2.
Qed.

Lemma nth_error_snd_combine (refs : list E) (not_used : list bool) (k : nat) (b : bool) :
  nth_error (map snd (combine refs not_used)) k = Some b -> nth_error not_used k = Some b.
Proof.
  revert not_used k. induction refs as [|e refs IH]; intros [|u not_used] [|k]; simpl;
    try discriminate; auto.
Qed.

Lemma scan_marks_unused (p p' : P) (refs : list E) (not_used : list bool) (i k : nat) :
  Greedy.scan add p (skipn i (combine refs not_used)) i = Some (k, p') ->
  nth_error not_used k = Some true.
Proof.
  intros H. apply scan_accepts_unused in H as [Hik H].
  rewrite <- skipn_map, nth_error_skipn in H.
  replace (i + (k - i)) with k in H by lia.
  exact (nth_error_snd_combine _ _ _ _ H).
Qed.

Lemma unused_clear (not_used : list bool) (k : nat) :
  nth_error not_used k = Some true ->
  S (unused (Greedy.clear k not_used)) = unused not_used
  /\ length (Greedy.clear k not_used) = length not_used.
Proof.
  intros H. pose proof (firstn_skipn_middle _ _ H) as E0.
  unfold Greedy.clear. remember (skipn (S k) not_used) as tl.
  remember (firstn k not_used) as hd. subst not_used.
  unfold unused. rewrite !filter_app, !length_app. simpl. lia.
Qed.

Lemma unused_zero (not_used : list bool) :
  unused not_used = 0%nat -> Forall (fun b => b = false) not_used.
Proof.
  unfold unused. induction not_used as [|[] l IH]; simpl; intros H.
  - constructor.
  - discriminate.
  - constructor; auto.
Qed.

Lemma scan_nothing_unused (p : P) (refs : list E) (not_used : list bool) (i : nat) :
  unused not_used = 0%nat ->
  Greedy.scan add p (skipn i (combine refs not_used)) i = None.
Proof.
  intros H. apply scan_all_used. apply unused_zero in H.
  apply Forall_forall. intros [e b] Hin. simpl.
  assert (Hc : In (e, b) (combine refs not_used)).
  { rewrite <- (firstn_skipn i (combine refs not_used)). apply in_or_app. now right. }
  apply in_combine_r in Hc. rewrite Forall_forall in H. exact (H _ Hc).
Qed.

(** With as many rounds as candidates are left unused the loop ends
    because a scan accepts nothing, never because the rounds are used up:
    further rounds change nothing. *)
Lemma grow_fuel_enough (fuel more : nat) (p : P) (refs : list E)
    (not_used : list bool) (used i : nat) :
  unused not_used <= fuel ->
  Greedy.grow add (fuel + more) p refs not_used used i
  = Greedy.grow add fuel p refs not_used used i.
Proof.
  revert p not_used used i. induction fuel as [|fuel IH]; intros p not_used used i H.
  - assert (H0 : unused not_used = 0%nat) by lia.
    destruct more; simpl; [reflexivity|].
    rewrite (scan_nothing_unused _ _ _ _ H0). reflexivity.
  - simpl. destruct (Greedy.scan add p _ i) as [[k p']|] eqn:Es; [|reflexivity].
    apply IH. apply scan_marks_unused in Es. apply unused_clear in Es. lia.
Qed.

(** A loop accounts for every candidate: what it uses it marks. *)
Lemma grow_accounts (fuel : nat) (p p' : P) (refs : list E)
    (not_used not_used' : list bool) (used used' i : nat) :
  Greedy.grow add fuel p refs not_used used i = (p', not_used', used') ->
  used' + unused not_used' = used + unused not_used
  /\ length not_used' = length not_used
  /\ used <= used'.
Proof.
  revert p not_used used i. induction fuel as [|fuel IH]; intros p not_used used i; simpl.
  - intros H; injection H as <- <- <-. repeat split; reflexivity.
  - destruct (Greedy.scan add p _ i) as [[k q]|] eqn:Es.
    + intros H. apply IH in H as (H1 & H2 & H3).
      apply scan_marks_unused in Es. apply unused_clear in Es. lia.
    + intros H; injection H as <- <- <-. repeat split; reflexivity.
Qed.

Lemma scan_takes_first_unused (p : P) (refs : list E) (not_used : list bool) (i : nat) :
  (forall e, add p e <> None) ->
  length not_used = length refs -> 0 < unused not_used ->
  Greedy.scan add p (combine refs not_used) i <> None.
Proof.
  intros Hadd. revert not_used i.
  induction refs as [|e refs IH]; intros [|b not_used] i Hlen Hun; try discriminate Hlen.
  - unfold unused in Hun. simpl in Hun. lia.
  - simpl. destruct b.
    + destruct (add p e) eqn:Ea; [discriminate|]. exfalso. exact (Hadd e Ea).
    + apply IH; [simpl in Hlen; lia|exact Hun].
Qed.

(** An element that takes any first candidate uses up at least one
    candidate whenever one is left. *)
Lemma grow_progress (fuel : nat) (p p' : P) (refs : list E)
    (not_used not_used' : list bool) (used used' : nat) :
  (forall e, add p e <> None) ->
  length not_used = length refs -> 0 < unused not_used -> 0 < fuel ->
  Greedy.grow add fuel p refs not_used used 0 = (p', not_used', used') ->
  used < used'.
Proof.
  intros Hadd Hlen Hun Hfuel. destruct fuel as [|fuel]; [lia|]. simpl.
  destruct (Greedy.scan add p (combine refs not_used) 0) as [[k q]|] eqn:Es.
  - intros H. apply grow_accounts in H as (_ & _ & H). lia.
  - exfalso. exact (scan_takes_first_unused p refs not_used 0 Hadd Hlen Hun Es).
Qed.

End GreedyFuel.

Lemma unused_repeat (n : nat) :
  unused (repeat true n) = n /\ length (repeat true n) = n.
Proof.
  unfold unused. induction n as [|n [IH1 IH2]]; simpl; [split; reflexivity|].
  rewrite IH1, IH2. split; reflexivity.
Qed.

Lemma unused_le_length (not_used : list bool) : (unused not_used <= length not_used)%nat.
Proof. apply filter_length_le. Qed.

Lemma add_line_first (new_const_i : axis) (l : Line.t) :
  Polygon.add_line (Polygon.init_polygon new_const_i) l false <> None.
Proof. destruct new_const_i; discriminate. Qed.

Lemma add_polygon_first (poly : Polygon.t) :
  Polyhedron.add_polygon Polyhedron.init_polyhedron poly false <> None.
Proof. discriminate. Qed.

Lemma cube_build_unfold (fuel : nat) (new_const_i : axis) (refs : list Line.t)
    (not_used : list bool) (used : nat) (polys : list Polygon.t) :
  Cube.build fuel new_const_i refs not_used used polys
  = if (Z.of_nat (length refs) - Z.of_nat used <? 3)%Z
    then Exit (TooFewLines (Z.of_nat (length refs) - Z.of_nat used))
    else match fuel with
         | O => Ret polys
         | S fuel' =>
             let '(p, not_used, used) :=
               Cube.grow (length refs) (Polygon.init_polygon new_const_i) refs not_used
                 used 0 in
             if (Z.of_nat used <? Z.of_nat (length refs))%Z
             then Cube.build fuel' new_const_i refs not_used used (polys ++ [p])
             else Ret (polys ++ [p])
         end.
Proof. destruct fuel; reflexivity. Qed.

(** The outer loop of the cube is never cut short either: with one round
    per line, further rounds change nothing. *)
Lemma cube_build_fuel_enough (fuel more : nat) (new_const_i : axis) (refs : list Line.t)
    (not_used : list bool) (used : nat) (polys : list Polygon.t) :
  length not_used = length refs ->
  (used + unused not_used = length refs)%nat ->
  (unused not_used <= fuel)%nat ->
  Cube.build (fuel + more) new_const_i refs not_used used polys
  = Cube.build fuel new_const_i refs not_used used polys.
Proof.
  revert not_used used polys.
  induction fuel as [|fuel IH]; intros not_used used polys Hlen Hsum Hfuel;
    rewrite (cube_build_unfold (_ + more)), (cube_build_unfold _ _ _ not_used).
  - destruct (Z.ltb_spec (Z.of_nat (length refs) - Z.of_nat used) 3); [reflexivity|lia].
  - destruct (Z.ltb_spec (Z.of_nat (length refs) - Z.of_nat used) 3); [reflexivity|].
    simpl Nat.add. cbv iota.
    destruct (Cube.grow _ _ _ _ _ _) as [[p nu] u] eqn:Eg.
    destruct (Z.of_nat u <? Z.of_nat (length refs))%Z; [|reflexivity].
    pose proof (grow_accounts _ _ _ _ _ _ _ _ _ _ _ _ Eg) as (Ha & Hb & _).
    assert (Hun : (0 < unused not_used)%nat) by lia.
    assert (Hrefs : (0 < length refs)%nat) by lia.
    pose proof (grow_progress _ _ _ _ _ _ _ _ _ _ _
                  (add_line_first new_const_i) Hlen Hun Hrefs Eg) as Hp.
    apply IH; lia.
Qed.

Lemma hypercube_build_fuel_enough (fuel more : nat) (refs : list Polygon.t)
    (not_used : list bool) (used : nat) (polys : list Polyhedron.t) :
  length not_used = length refs ->
  (used + unused not_used = length refs)%nat ->
  (unused not_used <= fuel)%nat ->
  Hypercube.build (S fuel + more) refs not_used used polys
  = Hypercube.build (S fuel) refs not_used used polys.
Proof.
  revert not_used used polys.
  induction fuel as [|fuel IH]; intros not_used used polys Hlen Hsum Hfuel.
  - simpl. destruct (Hypercube.grow _ _ _ _ _ _) as [[p nu] u] eqn:Eg.
    pose proof (grow_accounts _ _ _ _ _ _ _ _ _ _ _ _ Eg) as (_ & _ & Hu).
    destruct (Nat.ltb_spec u (length refs)); [lia|]. reflexivity.
  - change (Hypercube.build (S (S fuel) + more)) with (Hypercube.build (S (S fuel + more))).
    cbn [Hypercube.build].
    destruct (Hypercube.grow _ _ _ _ _ _) as [[p nu] u] eqn:Eg.
    destruct (Nat.ltb_spec u (length refs)); [|reflexivity].
    pose proof (grow_accounts _ _ _ _ _ _ _ _ _ _ _ _ Eg) as (Ha & Hb & Hu).
    assert (Hun : (0 < unused not_used)%nat) by lia.
    pose proof (unused_le_length not_used) as Hle.
    assert (Hrefs : (0 < length refs)%nat) by lia.
    pose proof (grow_progress _ _ _ _ _ _ _ _ _ _ _
                  add_polygon_first Hlen Hun Hrefs Eg) as Hp.
    apply IH; lia.
Qed.

(** The two loops as [construct_polygons] and [construct_polyhedra] call
    them. *)
Lemma builds_never_cut_short (more : nat) :
  (forall new_const_i refs polys,
      Cube.build (length refs + more) new_const_i refs (repeat true (length refs)) 0 polys
      = Cube.build (length refs) new_const_i refs (repeat true (length refs)) 0 polys)
  /\ (forall refs polys,
        Hypercube.build (S (length refs) + more) refs (repeat true (length refs)) 0 polys
        = Hypercube.build (S (length refs)) refs (repeat true (length refs)) 0 polys).
Proof.
  split; intros.
  - destruct (unused_repeat (length refs)) as [Hu Hl].
    apply cube_build_fuel_enough; lia.
  - destruct (unused_repeat (length refs)) as [Hu Hl].
    apply hypercube_build_fuel_enough; lia.
Qed.

(** ** The pre-check of the facade *)

Section Facade.
Context {consts : SquareConstants} {helpers : ElementHelpers}.

Lemma value_greater_acc (l : list float) (v : float) (n : Z) :
  fold_left (fun n element => (n + Z.b2z (Double.geb element v))%Z) l n
  = (n + Cornelius.value_greater l v)%Z.
Proof.
  unfold Cornelius.value_greater. revert n.
  induction l as [|x l IH]; intros n; simpl.
  - lia.
  - rewrite IH, (IH (Z.b2z _)). lia.
Qed.

Lemma value_greater_all_above (l : list float) (v : float) :
  all_above l v = true -> Cornelius.value_greater l v = Z.of_nat (length l).
Proof.
  unfold all_above. induction l as [|x l IH]; intros H.
  - reflexivity.
  - simpl in H. apply andb_prop in H as [Hx Hl].
    unfold Cornelius.value_greater. simpl fold_left. rewrite value_greater_acc.
    rewrite (IH Hl), (gt_geb _ _ Hx). simpl length. simpl Z.b2z. lia.
Qed.

Lemma value_greater_all_below (l : list float) (v : float) :
  all_below l v = true -> Cornelius.value_greater l v = 0%Z.
Proof.
  unfold all_below. induction l as [|x l IH]; intros H.
  - reflexivity.
  - simpl in H. apply andb_prop in H as [Hx Hl].
    unfold Cornelius.value_greater. simpl fold_left. rewrite value_greater_acc.
    rewrite (IH Hl), (lt_not_geb _ _ Hx). reflexivity.
Qed.

Lemma mask_one_sided (sq : arr2 (arr2 float)) (c_i : arr2 axis) (c_v : arr2 float)
    (d : vec4) (v : float) :
  one_sided (corners2 sq) v = true ->
  let m := Square.mask (Square.init_square sq c_i c_v d) v in
  ((m =? 0)%Z || (m =? 15)%Z) = true.
Proof.
  destruct sq as [[p00 p01] [p10 p11]].
  unfold one_sided, all_above, all_below, Square.mask, Square.pt. simpl.
  intros H. apply orb_prop in H as [H|H];
    repeat (apply andb_prop in H as [?H H]).
  - rewrite !gt_geb by assumption. reflexivity.
  - rewrite !lt_not_geb by assumption. reflexivity.
Qed.

(** C5.  A cell of dimension 2, 3 or 4 all of whose corner values lie
    strictly above the threshold, or all strictly below it, yields no
    surface element: the matching [find_surface] query returns and
    [get_number_elements] is 0 afterwards. *)
Theorem no_elements_when_one_sided (c : Cornelius.t) :
  Cornelius.initialized c = true ->
  (forall cu, Cornelius.cube_dimension c = 2%Z ->
     one_sided (corners2 cu) (Cornelius.value c) = true ->
     exists c', Cornelius.find_surface_2d c cu = Ret c'
                /\ Cornelius.get_number_elements c' = 0%Z)
  /\ (forall cu, Cornelius.cube_dimension c = 3%Z ->
     one_sided (Hypercube.corners3 cu) (Cornelius.value c) = true ->
     exists c', Cornelius.find_surface_3d c cu = Ret c'
                /\ Cornelius.get_number_elements c' = 0%Z)
  /\ (forall cu, Cornelius.cube_dimension c = 4%Z ->
     one_sided (Hypercube.corners4 cu) (Cornelius.value c) = true ->
     exists c', Cornelius.find_surface_4d c cu = Ret c'
                /\ Cornelius.get_number_elements c' = 0%Z).
Proof.
  intros Hinit. repeat split.
  - intros cu Hdim Hside.
    unfold Cornelius.find_surface_2d. rewrite Hinit, Hdim. simpl negb. simpl orb.
    cbv iota. unfold Square.construct_lines.
    rewrite (mask_one_sided cu (A0, A1) (0, 0) (Cornelius.dx c) _ Hside).
    simpl. eexists. split; reflexivity.
  - intros cu Hdim Hside.
    unfold Cornelius.find_surface_3d, Cornelius.surface_3d.
    rewrite Hinit, Hdim. simpl negb. simpl orb. cbv iota.
    unfold one_sided in Hside. apply orb_prop in Hside as [H|H].
    + rewrite (value_greater_all_above _ _ H). simpl. eexists. split; reflexivity.
    + rewrite (value_greater_all_below _ _ H). simpl. eexists. split; reflexivity.
  - intros cu Hdim Hside.
    unfold Cornelius.find_surface_4d.
    rewrite Hinit, Hdim. simpl negb. simpl orb. cbv iota.
    unfold one_sided in Hside. apply orb_prop in Hside as [H|H].
    + rewrite (value_greater_all_above _ _ H). simpl. eexists. split; reflexivity.
    + rewrite (value_greater_all_below _ _ H). simpl. eexists. split; reflexivity.
Qed.

Lemma store_bounded (xs arr r : list vec4) :
  Cornelius.store xs arr = Ret r -> (length xs <= length r)%nat.
Proof.
  unfold Cornelius.store. destruct (Nat.leb_spec (length xs) (length arr)); [|discriminate].
  intros E; injection E as <-. rewrite length_app. lia.
Qed.

(** Every query that returns leaves a bounded state behind, in the
    dimension it was initialised for. *)
Lemma query_results_bounded (c c' : Cornelius.t) :
  (Cornelius.cube_dimension c <= 4)%Z ->
  (exists cu, Cornelius.find_surface_2d c cu = Ret c')
  \/ (exists cu, Cornelius.find_surface_3d c cu = Ret c')
  \/ (exists cu, Cornelius.find_surface_4d c cu = Ret c') ->
  bounded c'.
Proof.
  intros Hd [[cu E]|[[cu E]|[cu E]]]; revert E;
    unfold Cornelius.find_surface_2d, Cornelius.find_surface_3d, Cornelius.surface_3d,
      Cornelius.find_surface_4d.
  - destruct (_ || _); [discriminate|].
    destruct (Square.construct_lines _ _) as [s| | |]; cbn [bind]; try discriminate.
    destruct (Cornelius.store _ (Cornelius.normals c)) as [ns| | |] eqn:En; cbn [bind];
      try discriminate.
    destruct (Cornelius.store _ (Cornelius.centroids c)) as [cs| | |] eqn:Ec; cbn [bind];
      try discriminate.
    intros E; injection E as <-.
    apply store_bounded in En, Ec. rewrite length_map in En, Ec.
    unfold bounded, Square.get_number_lines, Square.get_lines in *. simpl. lia.
  - destruct (_ || _); [discriminate|].
    destruct (_ || _).
    { intros E; injection E as <-. unfold bounded. simpl. lia. }
    destruct (Cube.construct_polygons _ _) as [s| | |]; cbn [bind]; try discriminate.
    destruct (Cornelius.store _ (Cornelius.normals c)) as [ns| | |] eqn:En; cbn [bind];
      try discriminate.
    destruct (Cornelius.store _ (Cornelius.centroids c)) as [cs| | |] eqn:Ec; cbn [bind];
      try discriminate.
    intros E; injection E as <-.
    apply store_bounded in En, Ec. rewrite length_map in En, Ec.
    unfold bounded, Cube.get_number_polygons, Cube.get_polygons in *. simpl. lia.
  - destruct (_ || _); [discriminate|].
    destruct (_ || _).
    { intros E; injection E as <-. unfold bounded. simpl. lia. }
    destruct (Hypercube.construct_polyhedra _ _) as [s| | |]; cbn [bind]; try discriminate.
    destruct (Cornelius.store _ (Cornelius.normals c)) as [ns| | |] eqn:En; cbn [bind];
      try discriminate.
    destruct (Cornelius.store _ (Cornelius.centroids c)) as [cs| | |] eqn:Ec; cbn [bind];
      try discriminate.
    intros E; injection E as <-.
    apply store_bounded in En, Ec. rewrite length_map in En, Ec.
    unfold bounded, Hypercube.get_number_polyhedra, Hypercube.get_polyhedra in *. simpl. lia.
Qed.

End Facade.

(** A witness of C5 in each dimension: all four corners above, all eight
    below, all sixteen above the threshold 0.5. *)
Lemma no_elements_when_one_sided_witness :
  (exists c', Cornelius.find_surface_2d (consts := sample_constants)
                (helpers := spec_helpers) (ready 2 0.5) ((1, 2), (3, 4)) = Ret c'
              /\ Cornelius.get_number_elements c' = 0%Z)
  /\ (exists c', Cornelius.find_surface_3d (consts := sample_constants)
                (helpers := spec_helpers) (ready 3 0.5)
                (((0, 0.25), (0, 0.25)), ((0.125, 0), (0, 0))) = Ret c'
              /\ Cornelius.get_number_elements c' = 0%Z)
  /\ (exists c', Cornelius.find_surface_4d (consts := sample_constants)
                (helpers := spec_helpers) (ready 4 0.5)
                ((((1, 1), (1, 1)), ((1, 1), (1, 1))), (((1, 1), (1, 1)), ((1, 1), (2, 1))))
                = Ret c'
              /\ Cornelius.get_number_elements c' = 0%Z).
Proof.
  split; [|split].
  - apply (proj1 (@no_elements_when_one_sided sample_constants spec_helpers
                    (ready 2 0.5) eq_refl)); reflexivity.
  - apply (proj1 (proj2 (@no_elements_when_one_sided sample_constants spec_helpers
                           (ready 3 0.5) eq_refl))); reflexivity.
  - apply (proj2 (proj2 (@no_elements_when_one_sided sample_constants spec_helpers
                           (ready 4 0.5) eq_refl))); reflexivity.
Defined.

(** ** The result accessors *)

Lemma read_not_out_of_range (arr : list vec4) (i k : Z) :
  Cornelius.read arr i k <> OutOfRange.
Proof.
  unfold Cornelius.read. destruct (i <? 0)%Z; [discriminate|].
  destruct (nth_error _ _); [|discriminate].
  destruct (Cornelius.axis_of_Z _); discriminate.
Qed.

Lemma read_stored (arr : list vec4) (i k : Z) :
  (0 <= i < Z.of_nat (length arr))%Z -> (0 <= k < 4)%Z ->
  exists v a, element arr i = Some v /\ Cornelius.axis_of_Z k = Some a
              /\ Cornelius.read arr i k = Ret (get v a).
Proof.
  intros Hi Hk. unfold Cornelius.read, element.
  destruct (Z.ltb_spec i 0); [lia|].
  destruct (nth_error arr (Z.to_nat i)) as [v|] eqn:E.
  - assert (Ha : exists a, Cornelius.axis_of_Z k = Some a).
    { assert ((k = 0 \/ k = 1 \/ k = 2 \/ k = 3)%Z) as [-> | [-> | [-> | ->]]] by lia;
        simpl; eauto. }
    destruct Ha as [a Ha]. exists v, a. rewrite Ha. auto.
  - apply nth_error_None in E. lia.
Qed.

(** C8, as amended.  Both accessors fail with the out-of-range error
    whenever [i >= number_elements] or [k >= cube_dimension]; for
    [0 <= i < number_elements] and [0 <= k < cube_dimension] they return the
    stored component of element [i]'s centroid, respectively normal.
    Nothing is said about negative indices. *)
Theorem accessors_in_range (c : Cornelius.t) (i k : Z) :
  bounded c ->
  ((i >= Cornelius.number_elements c)%Z \/ (k >= Cornelius.cube_dimension c)%Z ->
     Cornelius.get_centroid_element c i k = OutOfRange
     /\ Cornelius.get_normal_element c i k = OutOfRange)
  /\ ((0 <= i)%Z -> (0 <= k)%Z ->
      accessor_contract Cornelius.get_centroid_element Cornelius.centroids c i k
      /\ accessor_contract Cornelius.get_normal_element Cornelius.normals c i k).
Proof.
  intros (Hc & Hn & Hd). split.
  - intros H. unfold Cornelius.get_centroid_element, Cornelius.get_normal_element.
    assert (E : ((i >=? Cornelius.number_elements c)
                 || (k >=? Cornelius.cube_dimension c))%Z = true).
    { apply orb_true_iff. rewrite !Z.geb_le. lia. }
    rewrite E. split; reflexivity.
  - intros Hi Hk.
    unfold accessor_contract, Cornelius.get_centroid_element, Cornelius.get_normal_element.
    destruct ((i >=? Cornelius.number_elements c)
              || (k >=? Cornelius.cube_dimension c))%Z eqn:E.
    + split; reflexivity.
    + apply orb_false_iff in E as [E1 E2].
      rewrite Z.geb_leb in E1, E2. apply Z.leb_gt in E1, E2.
      split; apply read_stored; lia.
Qed.

(** A witness of C8: component 1 of element 0 after a 3-D query with one
    element, and the failure for element 1. *)
Lemma accessors_in_range_witness :
  bounded one_element_3d
  /\ Cornelius.get_centroid_element one_element_3d 1 0 = OutOfRange
  /\ accessor_contract Cornelius.get_centroid_element Cornelius.centroids one_element_3d 0 1.
Proof.
  assert (B : bounded one_element_3d) by (unfold bounded; simpl; lia).
  split; [exact B|]. split.
  - apply (proj1 (accessors_in_range one_element_3d 1 0 B)). left. simpl. lia.
  - apply (proj2 (accessors_in_range one_element_3d 0 1 B)); lia.
Defined.

(** C8 as stated fails for a negative index: [i = -1] passes the test
    [i >= number_elements], and what is returned is not a stored component
    of any element. *)
Lemma accessor_contract_fails_below_zero :
  ~ accessor_contract Cornelius.get_centroid_element Cornelius.centroids
      one_element_3d (-1) 0.
Proof.
  unfold accessor_contract. simpl. intros (v & a & E & _). discriminate E.
Qed.

(** C10.  A negative element index, or a negative component, that lies
    below the upper bounds is not rejected: no out-of-range error is
    raised and the call is the unchecked array access, which for a
    negative element index reads outside the array. *)
Theorem negative_index_not_rejected (c : Cornelius.t) (i k : Z) :
  (i < 0 \/ k < 0)%Z ->
  (i < Cornelius.number_elements c)%Z -> (k < Cornelius.cube_dimension c)%Z ->
  Cornelius.get_centroid_element c i k
    = Cornelius.read (Cornelius.centroids c) i (k + (4 - Cornelius.cube_dimension c))
  /\ Cornelius.get_normal_element c i k
    = Cornelius.read (Cornelius.normals c) i (k + (4 - Cornelius.cube_dimension c))
  /\ Cornelius.get_centroid_element c i k <> OutOfRange
  /\ Cornelius.get_normal_element c i k <> OutOfRange
  /\ ((i < 0)%Z -> Cornelius.get_centroid_element c i k = Undefined
                   /\ Cornelius.get_normal_element c i k = Undefined).
Proof.
  intros _ Hi Hk.
  unfold Cornelius.get_centroid_element, Cornelius.get_normal_element.
  assert (E : ((i >=? Cornelius.number_elements c)
               || (k >=? Cornelius.cube_dimension c))%Z = false).
  { apply orb_false_iff. rewrite !Z.geb_leb. split; apply Z.leb_gt; lia. }
  rewrite E. repeat split; try apply read_not_out_of_range.
  all: unfold Cornelius.read; apply Z.ltb_lt in H; rewrite H; reflexivity.
Qed.

(** A witness of C10: element index -1, and component -1, after a 3-D
    query with one element. *)
Lemma negative_index_not_rejected_witness :
  Cornelius.get_centroid_element one_element_3d (-1) 0 = Undefined
  /\ Cornelius.get_normal_element one_element_3d 0 (-1) = Ret 0.
Proof.
  split.
  - apply (negative_index_not_rejected one_element_3d (-1) 0); simpl; lia.
  - rewrite (proj1 (proj2 (negative_index_not_rejected one_element_3d 0 (-1)
                             (or_intror eq_refl) eq_refl eq_refl))).
    reflexivity.
Defined.

(** ** The edge search of a square *)

(** The square on which the edge search miscounts: the corners at (0,0)
    and (1,0) lie on opposite sides of the threshold 0, but so close to it
    that the product of their offsets underflows to -0. *)
Section Underflow.
Context {consts : SquareConstants}.

(** C6 fails on the code.  For the square with corners 1e-200, 1 /
    -1e-200, -1 and threshold 0 the corners are not on one side (the mask is
    3), yet the edge search records a single cut and the program ends in
    the internal-consistency error branch. *)
Theorem edge_search_miscounts_on_underflow :
  let cell := ((1e-200, 1), (-1e-200, -1)) in
  let s := Square.init_square cell (A0, A1) (0, 0) unit_spacing in
  one_sided (corners2 cell) 0 = false
  /\ Square.mask s 0 = 3%Z
  /\ ((1e-200 - 0) * (-1e-200 - 0) <? 0) = false
  /\ Square.ends_of_edge s 0 = Exit (BadCutCount 1)
  /\ Square.construct_lines s 0 = Exit (BadCutCount 1).
Proof. repeat split; vm_compute; reflexivity. Qed.

End Underflow.

(** ** The saddle of a square *)

(** C3, as amended.  With four cuts the square is ambiguous, and cuts 1
    and 2 are exchanged (pairing "//") exactly when the centre value and
    the corner at (0,0) are both strictly below or both strictly above the
    threshold; otherwise the cuts keep their recorded order (pairing
    "\\"). *)
Theorem saddle_swaps_when_center_agrees (s : Square.t) (value : float) :
  Square.number_cuts s = 4%nat ->
  Square.is_ambiguous (Square.find_outside s value) = true
  /\ Square.cuts (Square.find_outside s value)
     = if center_agrees s value then Square.swap_cuts_1_2 (Square.cuts s)
       else Square.cuts s.
Proof.
  intros H4. unfold Square.find_outside. rewrite H4. simpl Nat.eqb. cbv iota.
  unfold center_agrees, value_middle.
  change (Square.pt (Square.set_ambiguous s true)) with (Square.pt s).
  destruct (((Square.pt s false false <? value) && _) || _).
  all: repeat match goal with |- context [if ?b then _ else _] => destruct b end.
  all: split; reflexivity.
Qed.

(** A witness of C3: the saddle 1, 0 / 0, 2 around 0.5, whose centre 0.75
    and corner (0,0) are both above the threshold. *)
Lemma saddle_swaps_when_center_agrees_witness :
  Square.number_cuts saddle_square = 4%nat
  /\ center_agrees saddle_square 0.5 = true
  /\ Square.cuts (Square.find_outside saddle_square 0.5)
     = [(0.5, 0); (1, 0.25); (0, 0.5); (0.25, 1)].
Proof.
  split; [reflexivity|]. split; [reflexivity|].
  rewrite (proj2 (saddle_swaps_when_center_agrees saddle_square 0.5 eq_refl)).
  reflexivity.
Defined.

(** C3 as stated fails: on that saddle the centre agrees with the corner
    at (0,0), and the cuts do not keep their recorded order. *)
Lemma pairing_as_stated_fails : ~ pairing_as_stated saddle_square 0.5.
Proof.
  unfold pairing_as_stated.
  replace (center_agrees saddle_square 0.5) with true by reflexivity.
  intros E. vm_compute in E. discriminate E.
Qed.

(** The cuts of [saddle_square] are those the edge search records, and the
    two lines constructed join cut 0 with cut 2 and cut 1 with cut 3. *)
Lemma saddle_square_lines :
  let s := Square.init_square ((1, 0), (0, 2)) (A0, A1) (0, 0) unit_spacing in
  Square.ends_of_edge (consts := sample_constants) s 0.5 = Ret saddle_square
  /\ exists s', Square.construct_lines (consts := sample_constants) s 0.5 = Ret s'
       /\ map (fun l => (Line.start_point l, Line.end_point l)) (Square.lines s')
          = [(mk4 0 0 0.5 0, mk4 0 0 1 0.25); (mk4 0 0 0 0.5, mk4 0 0 0.25 1)].
Proof.
  split; [vm_compute; reflexivity|].
  eexists. split; vm_compute; reflexivity.
Qed.

(** ** Connected lines *)

(** A sum that has exceeded [EPSILON] stays as it is. *)
Lemma running_difference_frozen (p q : vec4) (coords : list axis) (d : float) :
  Double.gtb d Polyhedron.EPSILON = true -> running_difference p q coords d = d.
Proof.
  unfold running_difference, Double.gtb. intros H.
  induction coords as [|i coords IH]; simpl.
  - reflexivity.
  - rewrite (ltb_not_leb _ _ H). exact IH.
Qed.

(** Leaving the loop early, as soon as both sums exceed [EPSILON], does
    not change its result. *)
Lemma connected_loop_spec (coords : list axis) (s1 e1 s2 : vec4) (d1 d2 : float) :
  Double.gtb d1 Polyhedron.EPSILON && Double.gtb d2 Polyhedron.EPSILON = false ->
  Polyhedron.connected_loop coords s1 e1 s2 d1 d2
  = negb (Double.gtb (running_difference s1 s2 coords d1) Polyhedron.EPSILON
          && Double.gtb (running_difference e1 s2 coords d2) Polyhedron.EPSILON).
Proof.
  revert d1 d2. induction coords as [|i coords IH]; intros d1 d2 H.
  - simpl. rewrite H. reflexivity.
  - simpl.
    set (d1' := if d1 <=? Polyhedron.EPSILON then _ else d1).
    set (d2' := if d2 <=? Polyhedron.EPSILON then _ else d2).
    destruct (Double.gtb d1' Polyhedron.EPSILON && Double.gtb d2' Polyhedron.EPSILON) eqn:E.
    + apply andb_prop in E as [E1 E2].
      change (fold_left _ coords d1') with (running_difference s1 s2 coords d1').
      change (fold_left _ coords d2') with (running_difference e1 s2 coords d2').
      rewrite !running_difference_frozen by assumption.
      rewrite E1, E2. reflexivity.
    + apply (IH _ _ E).
Qed.

(** C4, as amended.  Two lines are considered connected if and only if
    the start point of the second line coincides with the start point or
    with the end point of the first line, two points coinciding when the
    sum of their coordinate-wise absolute differences (no longer increased
    once it has exceeded EPSILON = 1e-10) does not end above EPSILON.  The
    end point of the second line is not examined. *)
Theorem connected_iff_second_start_coincides (line1 line2 : Line.t) :
  Polyhedron.lines_are_connected line1 line2
  = coincide (Line.start_point line1) (Line.start_point line2)
    || coincide (Line.end_point line1) (Line.start_point line2).
Proof.
  unfold Polyhedron.lines_are_connected, coincide.
  rewrite connected_loop_spec by reflexivity.
  apply negb_andb.
Qed.

(** C4 as stated fails: [segment_a] and [segment_b] share their end point,
    so some pair of end points coincides, but the start point of
    [segment_b] is far from both end points of [segment_a] and the lines
    are not considered connected. *)
Lemma connected_as_stated_fails :
  connected_as_stated segment_a segment_b = true
  /\ Polyhedron.lines_are_connected segment_a segment_b = false.
Proof. split; vm_compute; reflexivity. Qed.

(** ** Ambiguity of a cube *)

Section CubeAmbiguity.
Context {consts : SquareConstants}.

(** The edge search leaves the ambiguity flag alone. *)
Lemma ends_of_edge_keeps_flag (s s1 : Square.t) (v : float) :
  Square.ends_of_edge s v = Ret s1 -> Square.ambiguous s1 = Square.ambiguous s.
Proof.
  unfold Square.ends_of_edge, Square.add_cut.
  repeat match goal with
         | |- context [if ?b then Square.set_cuts _ _ else _] => destruct b
         end.
  all: simpl; destruct (_ && _); intros E; try discriminate E.
  all: injection E as <-; reflexivity.
Qed.

(** Away from four cuts [find_outside] leaves flag and cuts alone. *)
Lemma find_outside_plain (s : Square.t) (v : float) :
  Square.number_cuts s <> 4%nat ->
  Square.ambiguous (Square.find_outside s v) = Square.ambiguous s
  /\ Square.cuts (Square.find_outside s v) = Square.cuts s.
Proof.
  intros H. unfold Square.find_outside.
  destruct (Nat.eqb_spec (Square.number_cuts s) 4); [contradiction|].
  repeat match goal with
         | |- context [if ?b then _ else _] => destruct b
         end.
  all: split; reflexivity.
Qed.

(** With four cuts [find_outside] keeps four cuts. *)
Lemma find_outside_four (s : Square.t) (v : float) :
  Square.number_cuts s = 4%nat -> length (Square.cuts (Square.find_outside s v)) = 4%nat.
Proof.
  intros H4. unfold Square.find_outside. rewrite H4. simpl Nat.eqb. cbv iota.
  unfold Square.number_cuts in H4.
  repeat match goal with
         | |- context [if ?b then _ else _] => destruct b
         end.
  all: simpl; try exact H4.
  all: destruct (Square.cuts s) as [|k0 [|k1 [|k2 l]]]; simpl in *; congruence.
Qed.

(** A square that comes out of [construct_lines] ambiguous carries two
    lines. *)
Lemma ambiguous_square_has_lines (s s' : Square.t) (v : float) :
  Square.ambiguous s = false ->
  Square.construct_lines s v = Ret s' ->
  Square.ambiguous s' = true -> length (Square.lines s') = 2%nat.
Proof.
  intros Hs. unfold Square.construct_lines.
  destruct (_ || _).
  { intros E; injection E as <-. simpl. congruence. }
  destruct (Square.ends_of_edge s v) as [s1| | |] eqn:E1; simpl; try discriminate.
  pose proof (ends_of_edge_keeps_flag _ _ _ E1) as H1. rewrite Hs in H1.
  set (s2 := if (0 <? Square.number_cuts s1)%nat then Square.find_outside s1 v else s1).
  assert (Hflag : Square.ambiguous s2 = true -> length (Square.cuts s2) = 4%nat).
  { subst s2. destruct (0 <? Square.number_cuts s1)%nat.
    - destruct (Nat.eq_dec (Square.number_cuts s1) 4) as [H4|H4].
      + intros _. exact (find_outside_four s1 v H4).
      + destruct (find_outside_plain s1 v H4) as [-> _]. congruence.
    - congruence. }
  change (Square.cuts (Square.set_lines s2 [])) with (Square.cuts s2).
  destruct (Square.cuts s2) as [|k0 [|k1 [|k2 [|k3 [|k4 l]]]]] eqn:Ec;
    intros E; injection E as <-; simpl; intros Ha;
    specialize (Hflag Ha); simpl in Hflag; try discriminate; reflexivity.
Qed.

Lemma split_to_squares_fresh (c : Cube.t) :
  Forall (fun s => Square.ambiguous s = false) (Cube.squares (Cube.split_to_squares c)).
Proof.
  unfold Cube.split_to_squares. simpl.
  destruct (Cube.const_i c); simpl; repeat constructor.
Qed.

(** Squares that are ambiguous after the first loop have contributed
    lines. *)
Lemma ambiguous_squares_have_lines (sqs sqs' : list Square.t) (ls : list Line.t)
    (v : float) :
  Forall (fun s => Square.ambiguous s = false) sqs ->
  Cube.construct_all_lines sqs v = Ret (sqs', ls) ->
  existsb Square.is_ambiguous sqs' = true -> ls <> [].
Proof.
  intros Hf. revert sqs' ls. induction Hf as [|s sqs Hs Hf IH]; intros sqs' ls; simpl.
  - intros E; injection E as <- <-. discriminate.
  - destruct (Square.construct_lines s v) as [s'| | |] eqn:E1; simpl; try discriminate.
    destruct (Cube.construct_all_lines sqs v) as [[sqs1 ls1]| | |] eqn:E2; simpl;
      try discriminate.
    intros E; injection E as <- <-. simpl.
    intros H. apply orb_prop in H as [H|H].
    + pose proof (ambiguous_square_has_lines _ _ _ Hs E1 H) as Hl.
      unfold Square.get_lines. destruct (Square.lines s'); [discriminate|]. discriminate.
    + specialize (IH _ _ eq_refl H). intros Habs.
      apply app_eq_nil in Habs as [_ Habs]. contradiction.
Qed.

(** C2, as amended.  For every 3-D cube query that returns, the cube is
    flagged ambiguous if and only if some constituent square is ambiguous
    or exactly 6 lines were found; the number of corner values below the
    threshold is not consulted. *)
Theorem cube_ambiguous_iff_square_or_six_lines
    (cu : arr2 (arr2 (arr2 float))) (c_i : axis) (c_v : float) (d : vec4)
    (value : float) (c' : Cube.t) :
  Cube.construct_polygons (Cube.init_cube cu c_i c_v d) value = Ret c' ->
  Cube.is_ambiguous c' = true
  <-> (existsb Square.is_ambiguous (Cube.squares c') = true
       \/ Cube.get_number_lines c' = 6%nat).
Proof.
  unfold Cube.construct_polygons.
  set (c0 := Cube.split_to_squares (Cube.init_cube cu c_i c_v d)).
  assert (H0 : Cube.ambiguous c0 = false)
    by (unfold c0, Cube.init_cube; destruct (Polygon.x_lookup c_i) as [[? ?] ?]; reflexivity).
  pose proof (split_to_squares_fresh (Cube.init_cube cu c_i c_v d)) as Hfresh.
  fold c0 in Hfresh. clearbody c0.
  destruct (Cube.construct_all_lines (Cube.squares c0) value) as [[sqs ls]| | |] eqn:E;
    simpl; try discriminate.
  set (c1 := Cube.set_line_refs (Cube.set_squares c0 sqs) ls).
  change (Cube.get_number_lines c1) with (length ls).
  destruct (Nat.eqb_spec (length ls) 0) as [Hz|Hz].
  - intros Ec; injection Ec as <-. unfold Cube.is_ambiguous, Cube.get_number_lines. simpl.
    rewrite H0, Hz. split; [discriminate|].
    intros [H|H]; [|discriminate].
    apply (ambiguous_squares_have_lines _ _ _ _ Hfresh E) in H.
    destruct ls; [contradiction|discriminate].
  - assert (Hc : Cube.ambiguous (Cube.check_ambiguity c1 (length ls)) = true
                 <-> (existsb Square.is_ambiguous sqs = true \/ length ls = 6%nat)).
    { unfold Cube.check_ambiguity. change (Cube.squares c1) with sqs.
      destruct (existsb Square.is_ambiguous sqs); simpl; [tauto|].
      destruct (Nat.eqb_spec (length ls) 6); simpl.
      - tauto.
      - change (Cube.ambiguous c1) with (Cube.ambiguous c0). rewrite H0.
        split; [discriminate|]. intros [?|?]; [discriminate|contradiction]. }
    assert (Hk : Cube.squares (Cube.check_ambiguity c1 (length ls)) = sqs
                 /\ Cube.line_refs (Cube.check_ambiguity c1 (length ls)) = ls).
    { unfold Cube.check_ambiguity. change (Cube.squares c1) with sqs.
      destruct (existsb Square.is_ambiguous sqs); [split; reflexivity|].
      destruct (length ls =? 6)%nat; split; reflexivity. }
    destruct Hk as [Hsq Hln].
    set (c2 := Cube.check_ambiguity c1 (length ls)) in *.
    destruct (Cube.ambiguous c2) eqn:Ea.
    + destruct (Cube.build _ _ _ _ _ _) as [polys| | |]; simpl; try discriminate.
      intros Ec; injection Ec as <-.
      unfold Cube.is_ambiguous, Cube.get_number_lines. simpl.
      rewrite Ea, Hsq, Hln. exact Hc.
    + intros Ec; injection Ec as <-.
      unfold Cube.is_ambiguous, Cube.get_number_lines. simpl.
      rewrite Ea, Hsq, Hln. exact Hc.
Qed.

End CubeAmbiguity.

(** A witness of C2: the hexagon cube, which is flagged because of its 6
    lines. *)
Lemma cube_ambiguous_iff_square_or_six_lines_witness :
  Cube.construct_polygons (consts := sample_constants)
    (Cube.init_cube hexagon_cube A0 0 unit_spacing) 0.5 = Ret (run_cube hexagon_cube 0.5)
  /\ (Cube.is_ambiguous (run_cube hexagon_cube 0.5) = true
      <-> (existsb Square.is_ambiguous (Cube.squares (run_cube hexagon_cube 0.5)) = true
           \/ Cube.get_number_lines (run_cube hexagon_cube 0.5) = 6%nat)).
Proof.
  assert (E : Cube.construct_polygons (consts := sample_constants)
                (Cube.init_cube hexagon_cube A0 0 unit_spacing) 0.5
              = Ret (run_cube hexagon_cube 0.5)) by (vm_compute; reflexivity).
  split; [exact E|].
  exact (cube_ambiguous_iff_square_or_six_lines hexagon_cube A0 0 unit_spacing 0.5 _ E).
Defined.

(** C2 as stated fails: the hexagon cube has no ambiguous square and 6
    lines, 4 of its corner values lie below the threshold, and it is
    flagged ambiguous. *)
Lemma cube_flag_as_stated_fails :
  Cube.construct_polygons (consts := sample_constants)
    (Cube.init_cube hexagon_cube A0 0 unit_spacing) 0.5 = Ret (run_cube hexagon_cube 0.5)
  /\ number_below (Hypercube.corners3 hexagon_cube) 0.5 = 4%Z
  /\ ~ cube_flag_as_stated (run_cube hexagon_cube 0.5) 0.5.
Proof.
  split; [vm_compute; reflexivity|]. split; [vm_compute; reflexivity|].
  unfold cube_flag_as_stated. intros [H _].
  assert (Ha : Cube.is_ambiguous (run_cube hexagon_cube 0.5) = true)
    by (vm_compute; reflexivity).
  destruct (H Ha) as [E|[_ E]]; vm_compute in E; discriminate E.
Qed.

(** ** Ambiguity of a hypercube *)

Section HypercubeAmbiguity.
Context {consts : SquareConstants}.

Lemma check_ambiguity_spec (h : Hypercube.t) (n : Z) :
  Hypercube.cubes (Hypercube.check_ambiguity h n) = Hypercube.cubes h
  /\ (Hypercube.ambiguous (Hypercube.check_ambiguity h n) = true
      <-> (existsb Cube.is_ambiguous (Hypercube.cubes h) = true
           \/ (total_lines h = 24%Z /\ folded n = 2%Z))).
Proof.
  unfold Hypercube.check_ambiguity, total_lines, folded.
  destruct h as [hc ph cs pr a d].
  cbn [Hypercube.cubes Hypercube.ambiguous Hypercube.set_ambiguous].
  remember (fold_left (fun n c => (n + Z.of_nat (Cube.get_number_lines c))%Z) cs 0%Z) as t.
  remember (if (8 <? n)%Z then (16 - n)%Z else n) as m.
  destruct (existsb Cube.is_ambiguous cs); cbn [negb]; cbv iota.
  - split; [reflexivity|]. cbn. tauto.
  - destruct (Z.eqb_spec t 24); destruct (Z.eqb_spec m 2); cbn.
    all: split; [reflexivity|].
    all: split; [try discriminate; tauto|].
    all: intros [?|[? ?]]; try discriminate; try contradiction; reflexivity.
Qed.

(** What the code computes: the flag of a hypercube is the disjunction of
    the flags of its cubes with the test "24 lines and folded count 2",
    where the count is the threshold converted to [int]. *)
Lemma hypercube_flag_uses_converted_threshold
    (hc : arr2 (arr2 (arr2 (arr2 float)))) (d : vec4) (value : float) (h : Hypercube.t) :
  Hypercube.construct_polyhedra (Hypercube.init_hypercube hc d) value = Ret h ->
  exists n, Double.to_int value = Some n
    /\ (Hypercube.is_ambiguous h = true
        <-> (existsb Cube.is_ambiguous (Hypercube.cubes h) = true
             \/ (total_lines h = 24%Z /\ folded n = 2%Z))).
Proof.
  unfold Hypercube.construct_polyhedra.
  destruct (Hypercube.split_to_cubes (Hypercube.init_hypercube hc d) value) as [h0 nb].
  destruct (Hypercube.construct_all_polygons (Hypercube.cubes h0) value)
    as [[cs ps]| | |]; cbn [bind fst snd]; try discriminate.
  destruct (Double.to_int value) as [n|]; [|discriminate].
  set (h1 := Hypercube.set_polygon_refs (Hypercube.set_cubes h0 cs) ps).
  destruct (check_ambiguity_spec h1 n) as [Hcs Hflag].
  set (h2 := Hypercube.check_ambiguity h1 n) in *. clearbody h2.
  intros E. exists n. split; [reflexivity|].
  assert (Hh : Hypercube.cubes h = Hypercube.cubes h2
               /\ Hypercube.ambiguous h = Hypercube.ambiguous h2).
  { destruct (Hypercube.ambiguous h2) eqn:Ea.
    - destruct (Hypercube.build _ _ _ _ _) as [polys| | |]; cbn [bind] in E;
        try discriminate.
      injection E as <-. split; [reflexivity|exact Ea].
    - injection E as <-. split; [reflexivity|exact Ea]. }
  destruct Hh as [Hh1 Hh2].
  unfold Hypercube.is_ambiguous, total_lines in *. rewrite Hh1, Hh2, Hcs. exact Hflag.
Qed.

(** C1 fails on the code.  For the hypercube with exactly the two opposite
    corners (0,0,0,0) and (1,1,1,1) below the threshold 0.5, no sub-cube
    is ambiguous, 24 lines are found in all and 2 corner values lie below
    the threshold (as [split_to_cubes] counts them, too), so the rule
    demands the flag; but [check_ambiguity] receives the threshold 0.5
    converted to the [int] 0 in place of the count, the hypercube is not
    flagged, and the two tetrahedra end up in one polyhedron of 8
    polygons. *)
Theorem hypercube_flag_ignores_points_below :
  exists h,
    Hypercube.construct_polyhedra (Hypercube.init_hypercube two_opposite_corners unit_spacing)
      0.5 = Ret h
    /\ existsb Cube.is_ambiguous (Hypercube.cubes h) = false
    /\ total_lines h = 24%Z
    /\ number_below (Hypercube.corners4 two_opposite_corners) 0.5 = 2%Z
    /\ snd (Hypercube.split_to_cubes
              (Hypercube.init_hypercube two_opposite_corners unit_spacing) 0.5) = 2%Z
    /\ Double.to_int 0.5 = Some 0%Z
    /\ Hypercube.is_ambiguous h = false
    /\ map Polyhedron.get_number_polygons (Hypercube.get_polyhedra h) = [8%nat]
    /\ ~ hypercube_flag_as_stated h 0.5.
Proof.
  eexists. split; [vm_compute; reflexivity|].
  repeat (split; [vm_compute; reflexivity|]).
  unfold hypercube_flag_as_stated. intros [_ H].
  assert (E : Hypercube.is_ambiguous _ = true) by (apply H; right; vm_compute; split; reflexivity).
  vm_compute in E. discriminate E.
Qed.

End HypercubeAmbiguity.

(** ** Starting a new element with too little left *)





(** The fatal exit of the cube is reached from the facade: in
    [marginal_cube] all cuts fall on corners, the first polygon closes after
    5 of the 6 lines, and 1 line is left for the next one. *)
Lemma marginal_cube_is_fatal :
  Cube.construct_polygons (consts := sample_constants)
    (Cube.init_cube marginal_cube A0 0 unit_spacing) 0 = Exit (TooFewLines 1)
  /\ Cornelius.find_surface_3d (consts := sample_constants) (helpers := spec_helpers)
       (ready 3 0) marginal_cube = Exit (TooFewLines 1).
Proof. split; vm_compute; reflexivity. Qed.

(** ** Orientation of the normals *)

(** C9, as amended.  Every partial normal, of the triangle spanned by a
    line and the centroid of a polygon and of the tetrahedron spanned by a
    line, the centroid of its polygon and the centroid of a polyhedron, is
    oriented against the outside point of its own line: dotted with the
    vector from the centroid to that point it is not greater than 0.  The
    normal of the element is the sum of these partial normals, and nothing
    is said about its dot product with any single outside point. *)
Theorem partial_normals_not_toward_outside :
  (forall (p : Polygon.t) (centroid : vec4) (l : Line.t),
      Double.gtb
        (dot4 (Polygon.triangle_normal (helpers := spec_helpers) p centroid l)
           (map2_4 Floats.PrimFloat.sub (Line.outside_point l) centroid)) 0 = false)
  /\ (forall (centroid cent : vec4) (l : Line.t),
        Double.gtb
          (dot4 (Polyhedron.tetrahedron_normal (helpers := spec_helpers) centroid cent l)
             (Polyhedron.vsub (Line.outside_point l) centroid)) 0 = false).
Proof.
  split; intros; apply flip_not_toward_outside.
Qed.

(** C9 as stated fails: the 3-D query on [pentagon_cube] returns one
    polygon of 5 lines whose normal, dotted with the vector from the
    centroid to the outside point of its first line (the corner (1,0,0)),
    is positive.  With the opposite orientation convention the sign of
    every dot product changes, and the other four lines fail. *)
Lemma oriented_as_stated_fails :
  Cube.construct_polygons (consts := sample_constants)
    (Cube.init_cube pentagon_cube A0 0 unit_spacing) 0.5 = Ret (run_cube pentagon_cube 0.5)
  /\ exists p,
      Cube.get_polygons (run_cube pentagon_cube 0.5) = [p]
      /\ Polygon.get_number_lines p = 5%nat
      /\ map (fun l =>
                Double.gtb
                  (dot4 (Polygon.calculate_normal (helpers := spec_helpers) p)
                     (map2_4 Floats.PrimFloat.sub (Line.outside_point l)
                        (Polygon.calculate_centroid p))) 0)
           (Polygon.get_lines p) = [true; false; false; false; false]
      /\ oriented_as_stated (helpers := spec_helpers) p = false
      /\ oriented_as_stated (helpers := opposite_helpers) p = false.
Proof.
  split; [vm_compute; reflexivity|].
  eexists. split; [vm_compute; reflexivity|].
  repeat split; vm_compute; reflexivity.
Qed.

(* ================================================================== *)
(** * Signs of differences and products of doubles *)

Section Order.
Open Scope Z_scope.

Lemma digits2_pos_bounds (m : positive) :
  2 ^ (Zpos (digits2_pos m) - 1) <= Zpos m < 2 ^ Zpos (digits2_pos m).
Proof.
  induction m as [m IH | m IH |]; simpl digits2_pos.
  - rewrite Pos2Z.inj_succ.
    replace (Z.succ (Zpos (digits2_pos m)) - 1) with (Z.succ (Zpos (digits2_pos m) - 1)) by lia.
    rewrite !Z.pow_succ_r by lia. lia.
  - rewrite Pos2Z.inj_succ.
    replace (Z.succ (Zpos (digits2_pos m)) - 1) with (Z.succ (Zpos (digits2_pos m) - 1)) by lia.
    rewrite !Z.pow_succ_r by lia. lia.
  - simpl. lia.
Qed.

Lemma iter_xO (m d : positive) : Zpos (Pos.iter xO m d) = Zpos m * 2 ^ Zpos d.
Proof.
  induction d as [| d IH] using Pos.peano_ind.
  - simpl. lia.
  - rewrite Pos.iter_succ, Pos2Z.inj_succ, Z.pow_succ_r by lia.
    rewrite Pos2Z.inj_xO, IH. lia.
Qed.

Lemma shl_align_value (m : positive) (e e' : Z) :
  e' <= e -> Zpos (fst (shl_align m e e')) = Zpos m * 2 ^ (e - e').
Proof.
  intros H. unfold shl_align.
  destruct (e' - e) as [| d | d] eqn:E; simpl fst.
  - replace (e - e') with 0 by lia. simpl. lia.
  - lia.
  - rewrite iter_xO. f_equal. f_equal. lia.
Qed.

(** A canonical mantissa has at most [prec] digits, and exactly [prec]
    above the least exponent. *)
Lemma canonical_digits (m : positive) (e : Z) :
  SpecFloat.bounded prec emax m e = true ->
  Zpos m < 2 ^ prec /\ (SpecFloat.emin prec emax < e -> 2 ^ (prec - 1) <= Zpos m).
Proof.
  unfold SpecFloat.bounded, canonical_mantissa, fexp, SpecFloat.emin. intros H.
  apply andb_prop in H. destruct H as [H _]. apply Z.eqb_eq in H.
  pose proof (digits2_pos_bounds m) as [L U].
  split.
  - assert (Zpos (digits2_pos m) <= prec) by lia.
    apply Z.lt_le_trans with (1 := U). apply Z.pow_le_mono_r; lia.
  - intros He. assert (Zpos (digits2_pos m) = prec) as <- by lia. exact L.
Qed.

Lemma canonical_emin (m : positive) (e : Z) :
  SpecFloat.bounded prec emax m e = true -> SpecFloat.emin prec emax <= e.
Proof.
  unfold SpecFloat.bounded, canonical_mantissa, fexp, SpecFloat.emin. intros H.
  apply andb_prop in H. destruct H as [H _]. apply Z.eqb_eq in H. lia.
Qed.

(** Of two canonical mantissas, the one with the larger exponent is the
    larger number. *)
Lemma canonical_exponent_order (m1 m2 : positive) (e1 e2 : Z) :
  SpecFloat.bounded prec emax m1 e1 = true -> SpecFloat.bounded prec emax m2 e2 = true ->
  e1 < e2 -> Zpos m1 < Zpos m2 * 2 ^ (e2 - e1).
Proof.
  intros B1 B2 H.
  destruct (canonical_digits _ _ B1) as [U1 _].
  destruct (canonical_digits _ _ B2) as [_ L2].
  pose proof (canonical_emin _ _ B1).
  specialize (L2 ltac:(lia)).
  assert (2 ^ 1 <= 2 ^ (e2 - e1)) by (apply Z.pow_le_mono_r; lia).
  change (2 ^ prec) with (2 * 2 ^ (prec - 1)) in U1.
  change (2 ^ 1) with 2 in *.
  nia.
Qed.

End Order.

Section SignsOfResults.
Open Scope Z_scope.

(** A rounded value compares with zero as its sign bit says, or is a
    zero. *)
Lemma binary_round_aux_sign (s : bool) (m e : Z) (l : location) (c : comparison) :
  SFcompare (binary_round_aux prec emax s m e l) (S754_zero false) = Some c ->
  c = Eq \/ c = (if s then Lt else Gt).
Proof.
  unfold binary_round_aux.
  destruct (shr_fexp prec emax m e l) as [mrs' e'].
  destruct (shr_fexp prec emax _ e' loc_Exact) as [mrs'' e''].
  destruct (shr_m mrs''); [| destruct (Z.leb e'' _) |]; cbn; intros [= <-]; auto.
Qed.

Lemma binary_normalize_sign (z e : Z) (c : comparison) :
  SFcompare (binary_normalize prec emax z e false) (S754_zero false) = Some c ->
  c = Eq \/ c = (z ?= 0).
Proof.
  destruct z as [|p|p]; cbn [binary_normalize]; unfold binary_round;
    try destruct (shl_align _ _ _) as [mz ez].
  - cbn. intros [= <-]. auto.
  - intros H. apply binary_round_aux_sign in H. exact H.
  - intros H. apply binary_round_aux_sign in H. exact H.
Qed.

(** A computed difference that is not a zero compares with zero as its
    operands compare with one another. *)
Lemma SFsub_sign (x y : spec_float) (c : comparison) :
  valid_binary x = true -> valid_binary y = true ->
  SFcompare (SFsub prec emax x y) (S754_zero false) = Some c -> c <> Eq ->
  SFcompare x y = Some c.
Proof.
  intros Vx Vy H Hc.
  destruct x as [sx|sx| |sx mx ex], y as [sy|sy| |sy my ey]; cbn [SFsub] in H.
  all: try discriminate H.
  all: try (destruct sx, sy; cbn in H |- *; congruence).
  all: try (destruct sx; cbn in H |- *; congruence).
  all: try (destruct sy; cbn in H |- *; congruence).
  apply binary_normalize_sign in H. destruct H as [-> | ->]; [congruence|].
  cbn [valid_binary] in Vx, Vy.
  pose proof (shl_align_value mx ex (Z.min ex ey) ltac:(lia)) as Ax.
  pose proof (shl_align_value my ey (Z.min ex ey) ltac:(lia)) as Ay.
  set (Mx := Z.pos (fst (shl_align mx ex (Z.min ex ey)))) in *.
  set (My := Z.pos (fst (shl_align my ey (Z.min ex ey)))) in *.
  assert (ex < ey -> Mx < My) as Hlt.
  { intros He. rewrite Ax, Ay, Z.min_l by lia. rewrite Z.sub_diag, Z.mul_1_r.
    apply canonical_exponent_order; assumption. }
  assert (ey < ex -> My < Mx) as Hgt.
  { intros He. rewrite Ax, Ay, Z.min_r by lia. rewrite Z.sub_diag, Z.mul_1_r.
    apply canonical_exponent_order; assumption. }
  assert (ex = ey -> Mx = Z.pos mx /\ My = Z.pos my) as Heq.
  { intros He. rewrite Ax, Ay, He, Z.min_id, Z.sub_diag. lia. }
  cbn [SFcompare]. f_equal.
  destruct sx, sy; cbn [cond_Zopp] in Hc |- *.
  - destruct (Z.compare_spec ex ey) as [He|He|He].
    + destruct (Heq He) as [-> ->].
      change (Pos.compare_cont Eq mx my) with (Pos.compare mx my).
      destruct (Pos.compare_spec mx my); cbn [CompOpp]; symmetry;
        [apply Z.compare_eq_iff|apply Z.compare_gt_iff|apply Z.compare_lt_iff]; lia.
    + symmetry. apply Z.compare_gt_iff. specialize (Hlt He). lia.
    + symmetry. apply Z.compare_lt_iff. specialize (Hgt He). lia.
  - symmetry. apply Z.compare_lt_iff. lia.
  - symmetry. apply Z.compare_gt_iff. lia.
  - destruct (Z.compare_spec ex ey) as [He|He|He].
    + destruct (Heq He) as [-> ->].
      change (Pos.compare_cont Eq mx my) with (Pos.compare mx my).
      destruct (Pos.compare_spec mx my); symmetry;
        [apply Z.compare_eq_iff|apply Z.compare_lt_iff|apply Z.compare_gt_iff]; lia.
    + symmetry. apply Z.compare_lt_iff. specialize (Hlt He). lia.
    + symmetry. apply Z.compare_gt_iff. specialize (Hgt He). lia.
Qed.

(** A product is negative only if one factor is negative and the other
    positive. *)
Lemma SFmul_negative (x y : spec_float) :
  SFcompare (SFmul prec emax x y) (S754_zero false) = Some Lt ->
  (SFcompare x (S754_zero false) = Some Lt /\ SFcompare y (S754_zero false) = Some Gt)
  \/ (SFcompare x (S754_zero false) = Some Gt /\ SFcompare y (S754_zero false) = Some Lt).
Proof.
  destruct x as [sx|sx| |sx mx ex], y as [sy|sy| |sy my ey]; cbn [SFmul]; intros H.
  all: try discriminate H.
  all: try (destruct sx, sy; cbn in H |- *; (discriminate H || auto)).
  all: apply binary_round_aux_sign in H; destruct H as [H|H]; discriminate H.
Qed.

End SignsOfResults.

(** [x - y < 0] only if [x < y], and [0 < x - y] only if [y < x]. *)
Lemma sub_negative (x y : float) : (x - y <? 0) = true -> (x <? y) = true.
Proof.
  rewrite !ltb_spec, sub_spec. unfold SFltb. intros H.
  destruct (SFcompare (SF64sub _ _) _) as [[]|] eqn:E; try discriminate H.
  apply SFsub_sign in E; try apply Prim2SF_valid; try discriminate.
  now rewrite E.
Qed.

Lemma sub_positive (x y : float) : (0 <? x - y) = true -> (y <? x) = true.
Proof.
  rewrite !ltb_spec, sub_spec. unfold SFltb. intros H.
  rewrite SFcompare_antisym in H.
  destruct (SFcompare (SF64sub _ _) _) as [[]|] eqn:E; try discriminate H.
  apply SFsub_sign in E; try apply Prim2SF_valid; try discriminate.
  rewrite SFcompare_antisym, E. reflexivity.
Qed.

(** A negative product has one negative and one positive factor. *)
Lemma mul_negative (x y : float) :
  (x * y <? 0) = true ->
  ((x <? 0) = true /\ (0 <? y) = true) \/ ((0 <? x) = true /\ (y <? 0) = true).
Proof.
  rewrite !ltb_spec, mul_spec. unfold SFltb. intros H.
  destruct (SFcompare (SF64mul _ _) _) as [[]|] eqn:E; try discriminate H.
  apply SFmul_negative in E.
  rewrite (SFcompare_antisym (Prim2SF y)), (SFcompare_antisym (Prim2SF x)).
  change (Prim2SF 0) with (S754_zero false).
  destruct E as [[-> ->] | [-> ->]]; cbn; auto.
Qed.

(** The two operands of a negative product of differences [(a - v) * (b - v)]
    lie strictly on opposite sides of [v]. *)
Lemma product_test_straddles (a b v : float) :
  ((a - v) * (b - v) <? 0) = true ->
  ((a <? v) = true /\ (v <? b) = true) \/ ((v <? a) = true /\ (b <? v) = true).
Proof.
  intros H. apply mul_negative in H.
  destruct H as [[H1 H2]|[H1 H2]]; [left|right]; split;
    auto using sub_negative, sub_positive.
Qed.

(* ================================================================== *)
(** * The edge search of a square *)

(** A cut is recorded only on an edge that the surface crosses. *)
Lemma edge_hit_crosses (a b v : float) : edge_hit a b v = true -> crosses a b v = true.
Proof.
  unfold edge_hit, crosses.
  destruct ((a - v) * (b - v) <? 0) eqn:E.
  - intros _. apply product_test_straddles in E.
    destruct E as [[H1 H2]|[H1 H2]]; rewrite H1, H2;
      [reflexivity | destruct ((a <? v) && (v <? b)); reflexivity].
  - destruct ((a =? v) && (b <? v)); [intros _; apply orb_true_iff; left; apply orb_true_r|].
    destruct ((b =? v) && (a <? v)); [intros _; apply orb_true_r|discriminate].
Qed.

Section EdgeSearch.
Context {consts : SquareConstants}.

(** [ends_of_edge] is four such branches followed by the test of the
    number of cuts. *)
Lemma ends_of_edge_unfold (s : Square.t) (v : float) :
  Square.ends_of_edge s v
  = let dx1 := get (Square.dx s) (Square.x1 s) in
    let dx2 := get (Square.dx s) (Square.x2 s) in
    let top_left := Square.pt s false false - v in
    let top_right := Square.pt s false true - v in
    let bottom_left := Square.pt s true false - v in
    let bottom_right := Square.pt s true true - v in
    let s1 :=
      cut_edge s (top_left * bottom_left)
        ((Square.pt s false false =? v) && (Square.pt s true false <? v))
        ((Square.pt s true false =? v) && (Square.pt s false false <? v))
        (top_left / (Square.pt s false false - Square.pt s true false) * dx1, 0)
        (ALMOST_ZERO * dx1, 0) (ALMOST_ONE * dx1, 0) in
    let s2 :=
      cut_edge s1 (top_left * top_right)
        ((Square.pt s1 false false =? v) && (Square.pt s1 false true <? v))
        ((Square.pt s1 false true =? v) && (Square.pt s1 false false <? v))
        (0, top_left / (Square.pt s1 false false - Square.pt s1 false true) * dx2)
        (0, ALMOST_ZERO * dx2) (0, ALMOST_ONE * dx2) in
    let s3 :=
      cut_edge s2 (bottom_left * bottom_right)
        ((Square.pt s2 true false =? v) && (Square.pt s2 true true <? v))
        ((Square.pt s2 true true =? v) && (Square.pt s2 true false <? v))
        (dx1, bottom_left / (Square.pt s2 true false - Square.pt s2 true true) * dx2)
        (dx1, ALMOST_ZERO * dx2) (dx1, ALMOST_ONE * dx2) in
    let s4 :=
      cut_edge s3 (top_right * bottom_right)
        ((Square.pt s3 false true =? v) && (Square.pt s3 true true <? v))
        ((Square.pt s3 true true =? v) && (Square.pt s3 false true <? v))
        (top_right / (Square.pt s3 false true - Square.pt s3 true true) * dx1, dx2)
        (ALMOST_ZERO * dx1, dx2) (ALMOST_ONE * dx1, dx2) in
    if negb (Square.number_cuts s4 =? 0)%nat && negb (Square.number_cuts s4 =? 2)%nat
       && negb (Square.number_cuts s4 =? 4)%nat
    then Exit (BadCutCount (Square.number_cuts s4))
    else Ret s4.
Proof. reflexivity. Qed.

Lemma same_cell_refl (s : Square.t) : same_cell s s.
Proof. repeat split. Qed.

Lemma same_cell_trans (s s' s'' : Square.t) :
  same_cell s s' -> same_cell s' s'' -> same_cell s s''.
Proof. unfold same_cell. intuition congruence. Qed.

Lemma same_cell_pt (s s' : Square.t) (i j : bool) :
  same_cell s s' -> Square.pt s' i j = Square.pt s i j.
Proof. intros [H _]. unfold Square.pt. now rewrite H. Qed.

(** One branch records at most one cut and touches nothing else. *)
Lemma cut_edge_result (s : Square.t) (product : float) (on_first on_second : bool)
    (between at_first at_second : arr2 float) :
  let s' := cut_edge s product on_first on_second between at_first at_second in
  same_cell s s'
  /\ Square.number_cuts s'
     = (Square.number_cuts s
        + Nat.b2n (if (product <? 0)%float then true else if on_first then true else on_second))%nat.
Proof.
  unfold cut_edge, Square.add_cut, Square.number_cuts.
  destruct (product <? 0); [|destruct on_first; [|destruct on_second]];
    cbn [Square.set_cuts Square.cuts Nat.b2n]; rewrite ?length_app; cbn [length];
    (split; [repeat split | lia]).
Qed.

(** The edge search records one cut for every edge whose test succeeds,
    changes nothing else, and returns only with no, 2 or 4 cuts. *)
Lemma ends_of_edge_result (s : Square.t) (v : float) :
  let n := (Square.number_cuts s
            + length (filter (fun e => edge_hit (fst e) (snd e) v) (edges s)))%nat in
  match Square.ends_of_edge s v with
  | Ret s1 =>
      same_cell s s1 /\ Square.number_cuts s1 = n /\ (n = 0 \/ n = 2 \/ n = 4)%nat
  | Exit e => e = BadCutCount n /\ n <> 0%nat /\ n <> 2%nat /\ n <> 4%nat
  | _ => False
  end.
Proof.
  rewrite ends_of_edge_unfold. cbv zeta.
  match goal with |- context [cut_edge s ?p ?a ?b ?x ?y ?z] =>
    destruct (cut_edge_result s p a b x y z) as [C1 N1];
    set (s1 := cut_edge s p a b x y z) in * end.
  match goal with |- context [cut_edge s1 ?p ?a ?b ?x ?y ?z] =>
    destruct (cut_edge_result s1 p a b x y z) as [C2 N2];
    set (s2 := cut_edge s1 p a b x y z) in * end.
  match goal with |- context [cut_edge s2 ?p ?a ?b ?x ?y ?z] =>
    destruct (cut_edge_result s2 p a b x y z) as [C3 N3];
    set (s3 := cut_edge s2 p a b x y z) in * end.
  match goal with |- context [cut_edge s3 ?p ?a ?b ?x ?y ?z] =>
    destruct (cut_edge_result s3 p a b x y z) as [C4 N4];
    set (s4 := cut_edge s3 p a b x y z) in * end.
  clearbody s1 s2 s3 s4.
  pose proof (same_cell_trans _ _ _ C1 C2) as C12.
  pose proof (same_cell_trans _ _ _ C12 C3) as C13.
  pose proof (same_cell_trans _ _ _ C13 C4) as C14.
  rewrite !(same_cell_pt _ _ _ _ C1) in N2.
  rewrite !(same_cell_pt _ _ _ _ C12) in N3.
  rewrite !(same_cell_pt _ _ _ _ C13) in N4.
  assert (Hn : Square.number_cuts s4
               = (Square.number_cuts s
                  + length (filter (fun e => edge_hit (fst e) (snd e) v) (edges s)))%nat).
  { rewrite N4, N3, N2, N1. unfold edges. cbn [filter fst snd]. unfold edge_hit.
    repeat match goal with
           | |- context [if ?b then true else _] => destruct b
           end; cbn [Nat.b2n length]; lia. }
  rewrite <- Hn.
  destruct (Nat.eqb_spec (Square.number_cuts s4) 0) as [E0|E0];
    destruct (Nat.eqb_spec (Square.number_cuts s4) 2) as [E2|E2];
    destruct (Nat.eqb_spec (Square.number_cuts s4) 4) as [E4|E4]; cbn [negb andb];
    auto 6.
Qed.

End EdgeSearch.

Lemma filter_length_mono {A : Type} (f g : A -> bool) (l : list A) :
  (forall x, f x = true -> g x = true) ->
  (length (filter f l) <= length (filter g l))%nat.
Proof.
  intros H. induction l as [|x l IH]; cbn [filter]; [lia|].
  destruct (f x) eqn:E.
  - rewrite (H x E). cbn [length]. lia.
  - destruct (g x); cbn [length]; lia.
Qed.

Section SquareLines.
Context {consts : SquareConstants}.

(** X1.  [Square::ends_of_edge] records a cut only on an edge that the
    surface crosses: whether it returns or exits on a bad count, the
    number of cuts it has added is at most the number of the four edges
    whose two corner values lie strictly on opposite sides of the
    threshold, or of which one lies on the threshold and the other
    strictly below it. *)
Theorem cuts_only_on_crossed_edges (s : Square.t) (v : float) :
  match Square.ends_of_edge s v with
  | Ret s1 => (Square.number_cuts s1 <= Square.number_cuts s + crossed_edges s v)%nat
  | Exit e => exists n, e = BadCutCount n
                        /\ (n <= Square.number_cuts s + crossed_edges s v)%nat
  | _ => False
  end.
Proof.
  pose proof (ends_of_edge_result s v) as H. cbv zeta in H.
  assert (Hle : (length (filter (fun e => edge_hit (fst e) (snd e) v) (edges s))
                 <= crossed_edges s v)%nat).
  { apply filter_length_mono. intros e. apply edge_hit_crosses. }
  destruct (Square.ends_of_edge s v) as [s1|e| |]; try contradiction.
  - destruct H as (_ & -> & _). lia.
  - destruct H as (-> & _). eexists. split; [reflexivity|lia].
Qed.

(** [find_outside] touches the cuts, the outside points and the flag
    only. *)
Lemma find_outside_cell (s : Square.t) (v : float) :
  Square.points (Square.find_outside s v) = Square.points s
  /\ Square.const_i (Square.find_outside s v) = Square.const_i s
  /\ Square.const_value (Square.find_outside s v) = Square.const_value s
  /\ Square.x1 (Square.find_outside s v) = Square.x1 s
  /\ Square.x2 (Square.find_outside s v) = Square.x2 s.
Proof.
  unfold Square.find_outside.
  repeat match goal with
         | |- context [if ?b then _ else _] => destruct b
         end.
  all: repeat split.
Qed.

Lemma find_outside_flag (s : Square.t) (v : float) :
  Square.number_cuts s = 4%nat -> Square.ambiguous (Square.find_outside s v) = true.
Proof.
  intros H4. unfold Square.find_outside. rewrite H4. simpl Nat.eqb. cbv iota.
  repeat match goal with
         | |- context [if ?b then _ else _] => destruct b
         end.
  all: reflexivity.
Qed.

(** What [construct_lines] leaves behind, for a square whose cut counter
    is zero and whose flag is clear: the cuts found, one line for every
    two of them, and the flag raised with four cuts. *)
Lemma construct_lines_result (s : Square.t) (v : float) :
  Square.cuts s = [] -> Square.ambiguous s = false ->
  match Square.construct_lines s v with
  | Ret s' =>
      (exists s2,
          Square.const_i s2 = Square.const_i s
          /\ Square.const_value s2 = Square.const_value s
          /\ ((Square.cuts s2 = [] /\ Square.lines s' = [])
              \/ (exists a b, Square.cuts s2 = [a; b]
                    /\ Square.lines s' = [Square.make_line s2 a b (at2 (Square.out s2) false)])
              \/ (exists a b c d, Square.cuts s2 = [a; b; c; d]
                    /\ Square.lines s'
                       = [Square.make_line s2 a b (at2 (Square.out s2) false);
                          Square.make_line s2 c d (at2 (Square.out s2) true)]))
          /\ Square.cuts s' = Square.cuts s2
          /\ Square.ambiguous s' = Square.ambiguous s2
          /\ (Square.ambiguous s2 = true <-> length (Square.cuts s2) = 4%nat))
  | Exit e => e = BadCutCount 1 \/ e = BadCutCount 3
  | _ => False
  end.
Proof.
  intros Hc Ha. unfold Square.construct_lines.
  destruct (_ || _).
  { exists s. rewrite Hc, Ha. cbn. intuition (auto; discriminate). }
  pose proof (ends_of_edge_result s v) as H. cbv zeta in H.
  assert (Hle : (length (filter (fun e => edge_hit (fst e) (snd e) v) (edges s)) <= 4)%nat)
    by apply (filter_length_le (fun e => edge_hit (fst e) (snd e) v) (edges s)).
  assert (Hz : Square.number_cuts s = 0%nat) by (unfold Square.number_cuts; now rewrite Hc).
  rewrite Hz in H. cbn [Nat.add] in H.
  destruct (Square.ends_of_edge s v) as [s1|e| |]; cbn [bind]; try contradiction.
  2:{ destruct H as (-> & H0 & H2 & H4).
      remember (length (filter _ (edges s))) as n.
      destruct n as [|[|[|[|[|n]]]]]; try contradiction; auto; lia. }
  destruct H as (C & Hn & Hcases).
  destruct C as (_ & Ci & Cv & _ & _ & _ & _ & Camb).
  rewrite <- Hn in Hcases. clear Hn Hle.
  set (s2 := if (0 <? Square.number_cuts s1)%nat then Square.find_outside s1 v else s1).
  assert (H2 : Square.const_i s2 = Square.const_i s
               /\ Square.const_value s2 = Square.const_value s
               /\ length (Square.cuts s2) = Square.number_cuts s1
               /\ (Square.ambiguous s2 = true <-> length (Square.cuts s2) = 4%nat)).
  { subst s2. destruct (0 <? Square.number_cuts s1)%nat eqn:E0.
    - destruct (find_outside_cell s1 v) as (_ & -> & -> & _).
      destruct (Nat.eq_dec (Square.number_cuts s1) 4) as [H4|H4].
      + rewrite (find_outside_flag s1 v H4), (find_outside_four s1 v H4), H4. tauto.
      + destruct (find_outside_plain s1 v H4) as [-> ->].
        rewrite Camb, Ha. unfold Square.number_cuts in *.
        intuition (auto; try discriminate; try contradiction).
    - rewrite Camb, Ha. unfold Square.number_cuts in *.
      apply Nat.ltb_ge in E0. intuition (auto; try discriminate; lia). }
  destruct H2 as (Hi & Hv & Hlen & Hamb). rewrite <- Hlen in Hcases. clearbody s2.
  change (Square.cuts (Square.set_lines s2 [])) with (Square.cuts s2).
  destruct (Square.cuts s2) as [|a [|b [|c [|d [|e l]]]]] eqn:Ec; cbn [length] in Hcases;
    try lia.
  - exists s2. cbn. rewrite Ec. intuition auto.
  - exists s2. cbn. rewrite Ec. intuition eauto 8.
  - exists s2. cbn. rewrite Ec. intuition eauto 12.
Qed.

End SquareLines.

(** X2.  [Square::construct_lines], run on a square whose cut counter is
    zero and whose flag is clear (as [init_square] leaves them), returns
    with no, one or two lines, half as many as cuts, and with the
    ambiguity flag raised exactly when there are two lines; when it does
    not return it has exited on an odd number of cuts, 1 or 3. *)
Theorem square_yields_at_most_two_lines {consts : SquareConstants}
    (s : Square.t) (v : float) :
  Square.cuts s = [] -> Square.is_ambiguous s = false ->
  match Square.construct_lines s v with
  | Ret s' =>
      (Square.get_number_lines s' <= 2)%nat
      /\ Square.number_cuts s' = (2 * Square.get_number_lines s')%nat
      /\ (Square.is_ambiguous s' = true <-> Square.get_number_lines s' = 2%nat)
  | Exit e => e = BadCutCount 1 \/ e = BadCutCount 3
  | _ => False
  end.
Proof.
  intros Hc Ha. pose proof (construct_lines_result s v Hc Ha) as H.
  destruct (Square.construct_lines s v) as [s'|e| |]; try exact H.
  destruct H as (s2 & _ & _ & Hl & Hcuts & Hamb & Hiff).
  unfold Square.get_number_lines, Square.number_cuts, Square.is_ambiguous.
  rewrite Hcuts, Hamb, Hiff.
  destruct Hl as [[-> ->]|[(a & b & -> & ->)|(a & b & c & d & -> & ->)]];
    cbn [length]; intuition (auto; lia).
Qed.

Lemma square_yields_at_most_two_lines_witness :
  match Square.construct_lines (consts := sample_constants)
          (Square.init_square ((1, 0), (0, 2)) (A0, A1) (0, 0) unit_spacing) 0.5 with
  | Ret s' =>
      (Square.get_number_lines s' <= 2)%nat
      /\ Square.number_cuts s' = (2 * Square.get_number_lines s')%nat
      /\ (Square.is_ambiguous s' = true <-> Square.get_number_lines s' = 2%nat)
  | Exit e => e = BadCutCount 1 \/ e = BadCutCount 3
  | _ => False
  end.
Proof.
  apply (square_yields_at_most_two_lines
           (Square.init_square ((1, 0), (0, 2)) (A0, A1) (0, 0) unit_spacing) 0.5);
    reflexivity.
Defined.

(* ================================================================== *)
(** * What the greedy loops keep and reach *)

Section GreedyInvariants.
Variables (E P : Type) (add : P -> E -> option P).
Open Scope nat_scope.

Lemma nth_error_combine (refs : list E) (not_used : list bool) (k : nat) (e : E) (b : bool) :
  nth_error (combine refs not_used) k = Some (e, b)
  <-> nth_error refs k = Some e /\ nth_error not_used k = Some b.
Proof.
  revert not_used k. induction refs as [|x refs IH]; intros [|u not_used] [|k]; simpl;
    try (split; [discriminate|intros [? ?]; discriminate]).
  - split; [intros [= -> ->]; auto|intros [[= ->] [= ->]]; reflexivity].
  - apply IH.
Qed.

(** What a scan that accepts candidate [k] has seen: the candidate is
    unused and accepted, and every unused candidate before it was
    refused. *)
Lemma scan_found (p p' : P) (rest : list (E * bool)) (i k : nat) :
  Greedy.scan add p rest i = Some (k, p') ->
  i <= k
  /\ (exists e, nth_error rest (k - i) = Some (e, true) /\ add p e = Some p')
  /\ (forall j e, j < k - i -> nth_error rest j = Some (e, true) -> add p e = None).
Proof.
  revert i. induction rest as [|[x b] rest IH]; intros i; simpl; [discriminate|].
  assert (Hnext : Greedy.scan add p rest (S i) = Some (k, p') ->
                  (b = true -> add p x = None) ->
                  i <= k
                  /\ (exists e, nth_error ((x, b) :: rest) (k - i) = Some (e, true)
                                /\ add p e = Some p')
                  /\ (forall j e, j < k - i -> nth_error ((x, b) :: rest) j = Some (e, true)
                                  -> add p e = None)).
  { intros H Hx. apply IH in H as (H1 & (e & H2 & H3) & H4).
    replace (k - i) with (S (k - S i)) by lia. split; [lia|]. split.
    - exists e. split; assumption.
    - intros [|j] e' Hj; simpl.
      + intros [= -> ->]. now apply Hx.
      + apply H4. lia. }
  destruct b.
  - destruct (add p x) eqn:Ea.
    + intros [= <- <-]. rewrite Nat.sub_diag. split; [lia|]. split.
      * exists x. split; [reflexivity|exact Ea].
      * intros j e Hj. lia.
    + intros H. apply Hnext; auto.
  - intros H. apply Hnext; [exact H|discriminate].
Qed.

Lemma scan_none (p : P) (rest : list (E * bool)) (i : nat) :
  Greedy.scan add p rest i = None ->
  forall j e, nth_error rest j = Some (e, true) -> add p e = None.
Proof.
  revert i. induction rest as [|[x b] rest IH]; intros i; simpl.
  - intros _ [|j] e; discriminate.
  - destruct b.
    + destruct (add p x) eqn:Ea; [discriminate|].
      intros H [|j] e; simpl.
      * intros [= ->]. exact Ea.
      * apply (IH _ H).
    + intros H [|j] e; simpl; [discriminate|apply (IH _ H)].
Qed.

(** The same for a scan of the candidates from index [i] on. *)
Lemma scan_refs (p p' : P) (refs : list E) (not_used : list bool) (i k : nat) :
  Greedy.scan add p (skipn i (combine refs not_used)) i = Some (k, p') ->
  i <= k
  /\ (exists e, nth_error refs k = Some e /\ nth_error not_used k = Some true
                /\ add p e = Some p')
  /\ (forall j e, i <= j < k -> nth_error refs j = Some e ->
                  nth_error not_used j = Some true -> add p e = None).
Proof.
  intros H. apply scan_found in H as (H1 & (e & H2 & H3) & H4).
  rewrite nth_error_skipn in H2. replace (i + (k - i)) with k in H2 by lia.
  apply nth_error_combine in H2 as [H2 H2'].
  split; [exact H1|]. split; [exists e; auto|].
  intros j e' Hj Hr Hu. apply (H4 (j - i) e'); [lia|].
  rewrite nth_error_skipn. replace (i + (j - i)) with j by lia.
  apply nth_error_combine. auto.
Qed.

Lemma scan_refs_none (p : P) (refs : list E) (not_used : list bool) (i : nat) :
  Greedy.scan add p (skipn i (combine refs not_used)) i = None ->
  forall j e, i <= j -> nth_error refs j = Some e ->
              nth_error not_used j = Some true -> add p e = None.
Proof.
  intros H j e Hj Hr Hu. apply (scan_none _ _ _ H (j - i) e).
  rewrite nth_error_skipn. replace (i + (j - i)) with j by lia.
  apply nth_error_combine. auto.
Qed.

Lemma nth_error_clear (not_used : list bool) (k j : nat) :
  k < length not_used ->
  nth_error (Greedy.clear k not_used) j
  = if j =? k then Some false else nth_error not_used j.
Proof.
  intros Hk. unfold Greedy.clear.
  assert (Hf : length (firstn k not_used) = k) by (rewrite length_firstn; lia).
  destruct (Nat.eqb_spec j k) as [->|Hjk].
  - rewrite nth_error_app2 by lia. rewrite Hf, Nat.sub_diag. reflexivity.
  - destruct (Nat.lt_ge_cases j k) as [Hlt|Hge].
    + rewrite nth_error_app1 by lia. rewrite nth_error_firstn.
      destruct (Nat.ltb_spec j k); [reflexivity|lia].
    + rewrite nth_error_app2 by lia. rewrite Hf.
      replace (j - k) with (S (j - S k)) by lia. cbn [nth_error].
      rewrite nth_error_skipn. f_equal. lia.
Qed.

(** A property of the element that every accepted candidate preserves
    holds of the grown element. *)
Lemma grow_invariant (I : P -> Prop) (Q : E -> Prop) :
  (forall p e p', I p -> Q e -> add p e = Some p' -> I p') ->
  forall fuel p refs not_used used i,
    Forall Q refs -> I p ->
    I (fst (fst (Greedy.grow add fuel p refs not_used used i))).
Proof.
  intros Hstep fuel. induction fuel as [|fuel IH]; intros p refs not_used used i HQ HI;
    simpl; [exact HI|].
  destruct (Greedy.scan add p _ i) as [[k p']|] eqn:Es; [|exact HI].
  apply IH; [exact HQ|].
  apply scan_refs in Es as (_ & (e & He & _ & Ha) & _).
  apply (Hstep p e p' HI); [|exact Ha].
  rewrite Forall_forall in HQ. apply HQ. eapply nth_error_In. exact He.
Qed.

(** Marking candidate [k] moves it among the taken ones. *)
Lemma taken_clear (refs : list E) (not_used : list bool) (k : nat) (e : E) :
  nth_error refs k = Some e -> nth_error not_used k = Some true ->
  Permutation (taken refs (Greedy.clear k not_used)) (e :: taken refs not_used).
Proof.
  revert not_used k. induction refs as [|x refs IH]; intros [|b not_used] [|k]; simpl;
    try discriminate.
  - intros [= ->] [= ->]. unfold taken, Greedy.clear. simpl. apply Permutation_refl.
  - intros Hr Hu. specialize (IH _ _ Hr Hu).
    change (Greedy.clear (S k) (b :: not_used)) with (b :: Greedy.clear k not_used).
    unfold taken in *. simpl. destruct b; simpl.
    + exact IH.
    + apply perm_trans with (x :: e :: map fst (filter (fun x0 => negb (snd x0))
                                                  (combine refs not_used))).
      * apply perm_skip. exact IH.
      * apply perm_swap.
Qed.

Lemma taken_all (refs : list E) (not_used : list bool) :
  length not_used = length refs -> unused not_used = 0 -> taken refs not_used = refs.
Proof.
  revert not_used. induction refs as [|x refs IH]; intros [|b not_used]; simpl;
    try discriminate; [reflexivity|].
  intros Hl Hu. unfold unused in Hu. unfold taken. simpl.
  destruct b; simpl in *; [discriminate|].
  f_equal. apply IH; [lia|exact Hu].
Qed.

Lemma taken_none (refs : list E) (n : nat) : taken refs (repeat true n) = [].
Proof.
  revert n. induction refs as [|x refs IH]; intros [|n]; try reflexivity.
  unfold taken in *. simpl. apply IH.
Qed.

Section Items.
Variables (F : Type) (items : P -> list F) (R : E -> F -> Prop).
Hypothesis add_items :
  forall p e p', add p e = Some p' -> exists f, R e f /\ items p' = items p ++ [f].

(** The grown element has gained one item for every candidate that the
    loop has marked, in the order in which they were accepted. *)
Lemma grow_items (fuel : nat) (p p' : P) (refs : list E)
    (not_used not_used' : list bool) (used used' i : nat) :
  Greedy.grow add fuel p refs not_used used i = (p', not_used', used') ->
  exists es fs,
    items p' = items p ++ fs
    /\ Forall2 R es fs
    /\ Permutation (taken refs not_used') (taken refs not_used ++ es)
    /\ used' = used + length es.
Proof.
  revert p not_used used i. induction fuel as [|fuel IH]; intros p not_used used i; simpl.
  - intros [= <- <- <-]. exists [], []. rewrite !app_nil_r.
    repeat split; auto using Permutation_refl.
  - destruct (Greedy.scan add p _ i) as [[k q]|] eqn:Es.
    + intros H. apply IH in H as (es & fs & H1 & H2 & H3 & H4).
      apply scan_refs in Es as (_ & (e & He & Hu & Ha) & _).
      destruct (add_items _ _ _ Ha) as (f & Hf & Hq).
      exists (e :: es), (f :: fs). rewrite H1, Hq, <- app_assoc. split; [reflexivity|].
      split; [constructor; assumption|]. split.
      * apply perm_trans with (1 := H3).
        apply perm_trans with ((e :: taken refs not_used) ++ es).
        -- apply Permutation_app_tail. apply taken_clear; assumption.
        -- simpl. apply Permutation_middle.
      * simpl. lia.
    + intros [= <- <- <-]. exists [], []. rewrite !app_nil_r.
      repeat split; auto using Permutation_refl.
Qed.
End Items.

(** A loop that resumes its scan at index 1 misses nothing when
    candidate 0 is no longer unused: it ends with an element that refuses
    every candidate still unused. *)
Lemma grow_maximal_resumed (fuel : nat) (p p' : P) (refs : list E)
    (not_used not_used' : list bool) (used used' : nat) :
  unused not_used <= fuel -> nth_error not_used 0 <> Some true ->
  Greedy.grow add fuel p refs not_used used 1 = (p', not_used', used') ->
  forall k e, nth_error refs k = Some e -> nth_error not_used' k = Some true ->
              add p' e = None.
Proof.
  revert p not_used used. induction fuel as [|fuel IH]; intros p not_used used Hf H0;
    cbn [Greedy.grow].
  - intros [= <- <- <-] k e _ Hu. exfalso.
    assert (Hz : unused not_used = 0) by lia. apply unused_zero in Hz.
    rewrite Forall_forall in Hz. apply nth_error_In in Hu. apply Hz in Hu. discriminate.
  - destruct (Greedy.scan add p _ 1) as [[j q]|] eqn:Es.
    + pose proof (scan_marks_unused _ _ _ _ _ _ _ 1 _ Es) as Hj.
      apply (scan_refs p q refs not_used 1) in Es as (Hj1 & _ & _).
      destruct (unused_clear _ _ Hj) as [Hc _].
      assert (Hlt : j < length not_used) by (apply nth_error_Some; congruence).
      apply IH; [lia|]. rewrite nth_error_clear by exact Hlt.
      destruct (Nat.eqb_spec 0 j); [lia|exact H0].
    + intros [= <- <- <-] k e Hr Hu.
      destruct k as [|k]; [contradiction|].
      apply (scan_refs_none p refs not_used 1 Es (S k) e); auto. lia.
Qed.

(** The loop as the cells run it, from index 0 with an element that
    accepts any first candidate. *)
Lemma grow_maximal (fuel : nat) (p p' : P) (refs : list E)
    (not_used not_used' : list bool) (used used' : nat) :
  (forall e, add p e <> None) -> unused not_used <= fuel ->
  Greedy.grow add fuel p refs not_used used 0 = (p', not_used', used') ->
  forall k e, nth_error refs k = Some e -> nth_error not_used' k = Some true ->
              add p' e = None.
Proof.
  intros Hadd Hf. destruct fuel as [|fuel]; cbn [Greedy.grow].
  - intros [= <- <- <-] k e _ Hu. exfalso.
    assert (Hz : unused not_used = 0) by lia. apply unused_zero in Hz.
    rewrite Forall_forall in Hz. apply nth_error_In in Hu. apply Hz in Hu. discriminate.
  - destruct (Greedy.scan add p _ 0) as [[j q]|] eqn:Es.
    + pose proof (scan_marks_unused _ _ _ _ _ _ _ 0 _ Es) as Hj.
      apply (scan_refs p q refs not_used 0) in Es as (_ & (ej & Hej & _ & _) & Hbefore).
      destruct (unused_clear _ _ Hj) as [Hc _].
      assert (Hlt : j < length not_used) by (apply nth_error_Some; congruence).
      apply grow_maximal_resumed; [lia|].
      rewrite nth_error_clear by exact Hlt.
      destruct (Nat.eqb_spec 0 j) as [|Hne]; [discriminate|].
      intros H0.
      destruct (nth_error refs 0) as [e0|] eqn:Er.
      * apply (Hadd e0). apply (Hbefore 0 e0); auto. lia.
      * apply nth_error_None in Er.
        assert (length refs = 0) by lia.
        destruct refs; [|discriminate]. destruct j; discriminate Hej.
    + intros [= <- <- <-] k e Hr Hu.
      apply (scan_refs_none p refs not_used 0 Es k e); auto. lia.
Qed.

End GreedyInvariants.

(* ================================================================== *)
(** * Lines, polygons and the cube *)

Lemma get_set (v : vec4) (i j : axis) (x : float) :
  get (set v i x) j = if axis_eqb i j then x else get v j.
Proof. destruct i, j; reflexivity. Qed.

Lemma axis_eqb_eq (i j : axis) : axis_eqb i j = true <-> i = j.
Proof. destruct i, j; simpl; split; congruence. Qed.

(** A lifted point carries the two constant coordinates of its square. *)
Lemma lift_constant (s : Square.t) (p : arr2 float) :
  get (Square.lift s p) (snd (Square.const_i s)) = snd (Square.const_value s)
  /\ (fst (Square.const_i s) <> snd (Square.const_i s) ->
      get (Square.lift s p) (fst (Square.const_i s)) = fst (Square.const_value s)).
Proof.
  unfold Square.lift. rewrite !get_set.
  split.
  - replace (axis_eqb (snd (Square.const_i s)) (snd (Square.const_i s))) with true
      by (symmetry; now apply axis_eqb_eq).
    reflexivity.
  - intros Hne.
    destruct (axis_eqb (snd (Square.const_i s)) (fst (Square.const_i s))) eqn:E.
    + apply axis_eqb_eq in E. congruence.
    + replace (axis_eqb (fst (Square.const_i s)) (fst (Square.const_i s))) with true
        by (symmetry; now apply axis_eqb_eq).
      reflexivity.
Qed.

Lemma make_line_on_hyperplane (s : Square.t) (a b o : arr2 float) :
  fst (Square.const_i s) <> snd (Square.const_i s) ->
  on_hyperplane (fst (Square.const_i s)) (fst (Square.const_value s))
    (Square.make_line s a b o).
Proof.
  intros Hne. unfold on_hyperplane, Square.make_line, Line.init_line. cbn.
  repeat split; apply lift_constant; exact Hne.
Qed.

Lemma same_segment_on_hyperplane (i : axis) (x : float) (l l' : Line.t) :
  same_segment l l' -> on_hyperplane i x l -> on_hyperplane i x l'.
Proof.
  intros [->| ->]; [auto|]. unfold on_hyperplane. cbn. tauto.
Qed.

(** ** Adding a line to a polygon *)

Lemma add_line_unchecked (p : Polygon.t) (l : Line.t) :
  Polygon.add_line p l true = Some (Polygon.push p l).
Proof. unfold Polygon.add_line. destruct (rev (Polygon.lines p)); reflexivity. Qed.

(** [add_line] appends the line, possibly turned round, and nothing
    else. *)
Lemma add_line_items (p p' : Polygon.t) (l : Line.t) :
  Polygon.add_line p l false = Some p' ->
  exists l', same_segment l l' /\ Polygon.lines p' = Polygon.lines p ++ [l'].
Proof.
  unfold Polygon.add_line.
  destruct (rev (Polygon.lines p)) as [|last r].
  - intros [= <-]. exists l. split; [now left|reflexivity].
  - destruct (_ || _); [|discriminate].
    destruct (Polygon.difference (Line.end_point l) (Line.end_point last) <? Polygon.EPSILON);
      intros [= <-]; cbn [Polygon.push Polygon.lines].
    + exists (Line.flip_start_end l). split; [now right|reflexivity].
    + exists l. split; [now left|reflexivity].
Qed.

Lemma add_line_const_i (p p' : Polygon.t) (l : Line.t) (b : bool) :
  Polygon.add_line p l b = Some p' -> Polygon.const_i p' = Polygon.const_i p.
Proof.
  unfold Polygon.add_line.
  destruct (rev (Polygon.lines p)) as [|last r]; [intros [= <-]; reflexivity|].
  destruct b; [intros [= <-]; reflexivity|].
  destruct (_ || _); [|discriminate]. intros [= <-]. reflexivity.
Qed.

Lemma chained_snoc (ls : list Line.t) (a b : Line.t) :
  chained ((ls ++ [a]) ++ [b])
  = chained (ls ++ [a])
    && (Polygon.difference (Line.start_point b) (Line.end_point a) <? Polygon.EPSILON).
Proof.
  induction ls as [|x ls IH].
  - cbn. now rewrite andb_true_r.
  - destruct ls as [|y ls].
    + cbn. rewrite !andb_true_r. reflexivity.
    + cbn [app chained] in *. rewrite IH. now rewrite andb_assoc.
Qed.

(** A line accepted after a check starts where the last line ends. *)
Lemma add_line_chained (p p' : Polygon.t) (l : Line.t) :
  chained (Polygon.lines p) = true ->
  Polygon.add_line p l false = Some p' ->
  chained (Polygon.lines p') = true.
Proof.
  intros Hc. unfold Polygon.add_line.
  destruct (rev (Polygon.lines p)) as [|last r] eqn:Er.
  - intros [= <-]. cbn. apply (f_equal (@rev _)) in Er. rewrite rev_involutive in Er.
    rewrite Er. reflexivity.
  - apply (f_equal (@rev _)) in Er. rewrite rev_involutive in Er. cbn [rev] in Er.
    destruct (Polygon.difference (Line.start_point l) (Line.end_point last) <? Polygon.EPSILON)
      eqn:E1;
      destruct (Polygon.difference (Line.end_point l) (Line.end_point last) <? Polygon.EPSILON)
        eqn:E2; cbn [orb]; try discriminate.
    all: intros [= <-]; cbn [Polygon.push Polygon.lines]; rewrite Er in *;
      rewrite chained_snoc, Hc; cbn [Line.flip_start_end Line.start_point];
      try rewrite E1; try rewrite E2; reflexivity.
Qed.


Section CubeResults.
Context {consts : SquareConstants}.

(** The six squares of a cube start with no cut and a clear flag, and lie
    in the hyperplane of the cube. *)
Lemma split_to_squares_ready (cu : arr2 (arr2 (arr2 float))) (c_i : axis) (c_v : float)
    (d : vec4) :
  let sqs := Cube.squares (Cube.split_to_squares (Cube.init_cube cu c_i c_v d)) in
  length sqs = 6%nat
  /\ Forall (fun s => Square.cuts s = [] /\ Square.ambiguous s = false
                      /\ fst (Square.const_i s) = c_i
                      /\ fst (Square.const_value s) = c_v
                      /\ snd (Square.const_i s) <> c_i) sqs.
Proof.
  destruct c_i; cbn; split; try reflexivity; repeat constructor; discriminate.
Qed.

(** What the first loop of [construct_polygons] collects. *)
Lemma construct_all_lines_result (c_i : axis) (c_v : float) (sqs sqs' : list Square.t)
    (ls : list Line.t) (v : float) :
  Forall (fun s => Square.cuts s = [] /\ Square.ambiguous s = false
                   /\ fst (Square.const_i s) = c_i
                   /\ fst (Square.const_value s) = c_v
                   /\ snd (Square.const_i s) <> c_i) sqs ->
  Cube.construct_all_lines sqs v = Ret (sqs', ls) ->
  (length ls <= 2 * length sqs)%nat
  /\ (existsb Square.is_ambiguous sqs' = false -> (length ls <= length sqs)%nat)
  /\ Forall (on_hyperplane c_i c_v) ls.
Proof.
  intros Hf. revert sqs' ls. induction Hf as [|s sqs Hs Hf IH]; intros sqs' ls; cbn.
  - intros [= <- <-]. cbn. repeat split; auto.
  - destruct Hs as (Hc & Ha & Hi & Hv & Hne).
    pose proof (construct_lines_result s v Hc Ha) as H1.
    destruct (Square.construct_lines s v) as [s'| | |]; cbn; try discriminate.
    destruct (Cube.construct_all_lines sqs v) as [[sqs1 ls1]| | |]; cbn; try discriminate.
    intros [= <- <-]. destruct (IH _ _ eq_refl) as (IH1 & IH2 & IH3).
    destruct H1 as (s2 & Hi2 & Hv2 & Hl & _ & Hamb & Hiff).
    assert (Hplane : forall a b o, on_hyperplane c_i c_v (Square.make_line s2 a b o)).
    { intros a b o. rewrite <- Hi, <- Hv, <- Hi2, <- Hv2.
      apply make_line_on_hyperplane. rewrite Hi2. congruence. }
    unfold Square.get_lines, Square.is_ambiguous. cbn [existsb]. rewrite Hamb.
    rewrite length_app.
    destruct Hl as [[Hcuts ->]|[(a & b & Hcuts & ->)|(a & b & c & d & Hcuts & ->)]];
      rewrite Hcuts in Hiff; cbn [length] in *.
    + repeat split; [lia| |exact IH3].
      intros H. apply orb_false_iff in H as [_ H]. specialize (IH2 H). lia.
    + repeat split; [lia| |constructor; [apply Hplane|exact IH3]].
      intros H. apply orb_false_iff in H as [_ H]. specialize (IH2 H). lia.
    + repeat split; [lia| |constructor; [apply Hplane|constructor; [apply Hplane|exact IH3]]].
      intros H. apply orb_false_iff in H as [H _].
      destruct Hiff as [_ Hiff]. rewrite Hiff in H by reflexivity. discriminate.
Qed.

(** The polygon of the unambiguous case. *)
Lemma unchecked_polygon (ls : list Line.t) (p : Polygon.t) :
  Polygon.lines
    (fold_left
       (fun p l => match Polygon.add_line p l true with Some p' => p' | None => p end)
       ls p)
  = Polygon.lines p ++ ls.
Proof.
  revert p. induction ls as [|l ls IH]; intros p; cbn [fold_left].
  - now rewrite app_nil_r.
  - rewrite add_line_unchecked, IH. cbn. now rewrite <- app_assoc.
Qed.

Lemma unchecked_polygon_const_i (ls : list Line.t) (p : Polygon.t) :
  Polygon.const_i
    (fold_left
       (fun p l => match Polygon.add_line p l true with Some p' => p' | None => p end)
       ls p)
  = Polygon.const_i p.
Proof.
  revert p. induction ls as [|l ls IH]; intros p; cbn [fold_left]; [reflexivity|].
  rewrite add_line_unchecked, IH. reflexivity.
Qed.

(** The three ways in which [construct_polygons] returns. *)
Lemma construct_polygons_result (cu : arr2 (arr2 (arr2 float))) (c_i : axis) (c_v : float)
    (d : vec4) (value : float) (c' : Cube.t) :
  Cube.construct_polygons (Cube.init_cube cu c_i c_v d) value = Ret c' ->
  Cube.construct_all_lines
    (Cube.squares (Cube.split_to_squares (Cube.init_cube cu c_i c_v d))) value
  = Ret (Cube.squares c', Cube.line_refs c')
  /\ ((Cube.line_refs c' = [] /\ Cube.polygons c' = [])
      \/ (Cube.line_refs c' <> [] /\ Cube.ambiguous c' = false
          /\ existsb Square.is_ambiguous (Cube.squares c') = false
          /\ length (Cube.line_refs c') <> 6%nat
          /\ exists p, Cube.polygons c' = [p]
                       /\ Polygon.lines p = Cube.line_refs c'
                       /\ Polygon.const_i p = c_i)
      \/ (Cube.line_refs c' <> [] /\ Cube.ambiguous c' = true
          /\ Cube.build (length (Cube.line_refs c')) c_i (Cube.line_refs c')
               (repeat true (length (Cube.line_refs c'))) 0 []
             = Ret (Cube.polygons c'))).
Proof.
  unfold Cube.construct_polygons.
  set (c0 := Cube.split_to_squares (Cube.init_cube cu c_i c_v d)).
  assert (H0 : Cube.ambiguous c0 = false /\ Cube.polygons c0 = [] /\ Cube.const_i c0 = c_i)
    by (unfold c0, Cube.init_cube; destruct (Polygon.x_lookup c_i) as [[? ?] ?];
        repeat split).
  destruct H0 as (H0 & Hp0 & Hi0). clearbody c0.
  destruct (Cube.construct_all_lines (Cube.squares c0) value) as [[sqs ls]| | |] eqn:E;
    cbn [bind fst snd]; try discriminate.
  set (c1 := Cube.set_line_refs (Cube.set_squares c0 sqs) ls).
  change (Cube.get_number_lines c1) with (length ls).
  destruct (Nat.eqb_spec (length ls) 0) as [Hz|Hz].
  - intros Ec; injection Ec as <-. cbn. split; [reflexivity|]. left.
    destruct ls; [auto|discriminate].
  - assert (Hne : ls <> []) by (intros ->; apply Hz; reflexivity).
    assert (Hk : Cube.squares (Cube.check_ambiguity c1 (length ls)) = sqs
                 /\ Cube.line_refs (Cube.check_ambiguity c1 (length ls)) = ls
                 /\ Cube.polygons (Cube.check_ambiguity c1 (length ls)) = []
                 /\ Cube.const_i (Cube.check_ambiguity c1 (length ls)) = c_i
                 /\ (Cube.ambiguous (Cube.check_ambiguity c1 (length ls)) = false ->
                     existsb Square.is_ambiguous sqs = false /\ length ls <> 6%nat)).
    { unfold Cube.check_ambiguity. change (Cube.squares c1) with sqs.
      destruct (existsb Square.is_ambiguous sqs); [repeat split; auto; discriminate|].
      destruct (Nat.eqb_spec (length ls) 6); repeat split; auto; discriminate. }
    destruct Hk as (Hsq & Hln & Hpo & Hci & Hna).
    set (c2 := Cube.check_ambiguity c1 (length ls)) in *. clearbody c2.
    destruct (Cube.ambiguous c2) eqn:Ea.
    + rewrite Hci, Hln, Hpo.
      destruct (Cube.build _ _ _ _ _ _) as [polys| | |] eqn:Eb; cbn [bind]; try discriminate.
      intros Ec; injection Ec as <-. cbn. rewrite Hsq, Hln. split; [reflexivity|].
      right. right. rewrite Ea. auto.
    + intros Ec; injection Ec as <-. cbn. rewrite Hsq, Hln, Hpo, Hci, Ea.
      split; [reflexivity|].
      right. left. destruct (Hna eq_refl) as [Hn1 Hn2].
      repeat split; auto.
      eexists. split; [reflexivity|]. split.
      * rewrite unchecked_polygon. unfold Polygon.init_polygon.
        destruct (Polygon.x_lookup c_i) as [[? ?] ?]. reflexivity.
      * rewrite unchecked_polygon_const_i. unfold Polygon.init_polygon.
        destruct (Polygon.x_lookup c_i) as [[? ?] ?]. reflexivity.
Qed.

End CubeResults.


(** ** The loop that builds the polygons of an ambiguous cube *)

Lemma all_lines_app (ps qs : list Polygon.t) :
  all_lines (ps ++ qs) = all_lines ps ++ all_lines qs.
Proof. unfold all_lines. apply flat_map_app. Qed.

(** What the loop returns: between one polygon and two fewer than there
    are lines left, each grown by the inner loop from an empty polygon and
    not empty, which together hold every line that was left, possibly
    turned round, exactly once. *)
Lemma cube_build_result (fuel : nat) (c_i : axis) (refs : list Line.t)
    (not_used : list bool) (used : nat) (polys polys' : list Polygon.t) :
  length not_used = length refs ->
  (used + unused not_used = length refs)%nat ->
  (unused not_used <= fuel)%nat ->
  Cube.build fuel c_i refs not_used used polys = Ret polys' ->
  exists new es,
    polys' = polys ++ new
    /\ (1 <= length new)%nat /\ (length new + 2 + used <= length refs)%nat
    /\ Forall
         (fun p =>
            Polygon.lines p <> []
            /\ exists not_used0 used0,
                 length not_used0 = length refs
                 /\ Cube.grow (length refs) (Polygon.init_polygon c_i) refs not_used0 used0 0
                    = (p, snd (fst (Cube.grow (length refs) (Polygon.init_polygon c_i) refs
                                      not_used0 used0 0)),
                          snd (Cube.grow (length refs) (Polygon.init_polygon c_i) refs
                                 not_used0 used0 0))) new
    /\ Forall2 same_segment es (all_lines new)
    /\ Permutation (taken refs not_used ++ es) refs.
Proof.
  revert not_used used polys.
  induction fuel as [|fuel IH]; intros not_used used polys Hlen Hsum Hfuel;
    rewrite cube_build_unfold.
  - destruct (Z.ltb_spec (Z.of_nat (length refs) - Z.of_nat used) 3);
      [discriminate|exfalso; lia].
  - destruct (Z.ltb_spec (Z.of_nat (length refs) - Z.of_nat used) 3) as [|H3];
      [discriminate|].
    destruct (Cube.grow (length refs) (Polygon.init_polygon c_i) refs not_used used 0)
      as [[p not_used1] used1] eqn:Eg.
    unfold Cube.grow in Eg.
    pose proof (grow_accounts _ _ _ _ _ _ _ _ _ _ _ _ Eg) as (Ha1 & Ha2 & _).
    assert (Hprog : (used < used1)%nat).
    { assert (Hu : (0 < unused not_used)%nat) by lia.
      assert (Hf : (0 < length refs)%nat) by lia.
      exact (grow_progress _ _ _ _ _ _ _ _ _ _ _
               (fun e => add_line_first c_i e) Hlen Hu Hf Eg). }
    destruct (grow_items _ _ (fun p l => Polygon.add_line p l false) _
                Polygon.lines same_segment (fun p e p' => add_line_items p p' e)
                _ _ _ _ _ _ _ _ _ Eg)
      as (es1 & fs1 & Hi1 & Hi2 & Hi3 & Hi4).
    assert (Hp0 : Polygon.lines (Polygon.init_polygon c_i) = [])
      by (unfold Polygon.init_polygon; destruct (Polygon.x_lookup c_i) as [[? ?] ?];
          reflexivity).
    rewrite Hp0 in Hi1. cbn [app] in Hi1.
    assert (Hne : Polygon.lines p <> []).
    { rewrite Hi1. apply Forall2_length in Hi2. destruct fs1; [cbn in Hi2; lia|discriminate]. }
    assert (Hgrown : Polygon.lines p <> []
                     /\ exists not_used0 used0,
                          length not_used0 = length refs
                          /\ Cube.grow (length refs) (Polygon.init_polygon c_i) refs
                               not_used0 used0 0
                             = (p, snd (fst (Cube.grow (length refs) (Polygon.init_polygon c_i)
                                               refs not_used0 used0 0)),
                                   snd (Cube.grow (length refs) (Polygon.init_polygon c_i) refs
                                          not_used0 used0 0))).
    { split; [exact Hne|]. exists not_used, used. split; [exact Hlen|].
      unfold Cube.grow. rewrite Eg. reflexivity. }
    destruct (Z.ltb_spec (Z.of_nat used1) (Z.of_nat (length refs))) as [Hmore|Hdone].
    + intros Hb. apply IH in Hb; [|lia|lia|lia].
      destruct Hb as (new & es & -> & Hn1 & Hn2 & Hall & Hseg & Hperm).
      exists (p :: new), (es1 ++ es). rewrite <- app_assoc. split; [reflexivity|].
      cbn [length]. split; [lia|]. split; [lia|]. split; [constructor; assumption|].
      split.
      * change (all_lines (p :: new)) with (Polygon.lines p ++ all_lines new).
        rewrite Hi1. apply Forall2_app; assumption.
      * rewrite app_assoc. apply perm_trans with (2 := Hperm).
        apply Permutation_app_tail. apply Permutation_sym. exact Hi3.
    + intros [= <-]. exists [p], es1. split; [reflexivity|].
      cbn [length]. split; [lia|]. split; [lia|]. split; [constructor; [assumption|constructor]|].
      split.
      * unfold all_lines. cbn. rewrite app_nil_r. unfold Polygon.get_lines.
        rewrite Hi1. exact Hi2.
      * apply Permutation_sym. rewrite <- (taken_all _ refs not_used1) at 1 by lia.
        exact Hi3.
Qed.

(** Every polygon of a cube is made of lines of the cube. *)
Lemma grown_polygon_invariant (I : Polygon.t -> Prop) (Q : Line.t -> Prop)
    (c_i : axis) (refs : list Line.t) (not_used : list bool) (used : nat) :
  (forall p l p', I p -> Q l -> Polygon.add_line p l false = Some p' -> I p') ->
  Forall Q refs -> I (Polygon.init_polygon c_i) ->
  I (fst (fst (Cube.grow (length refs) (Polygon.init_polygon c_i) refs not_used used 0))).
Proof.
  intros Hstep HQ HI. unfold Cube.grow. apply (grow_invariant _ _ _ I Q); assumption.
Qed.


Section CubeProperties.
Context {consts : SquareConstants}.

(** The lines that a cube collects: at most two for each of its six
    squares, at most one for each when no square is ambiguous, all of them
    in the hyperplane of the cube. *)
Lemma cube_lines (cu : arr2 (arr2 (arr2 float))) (c_i : axis) (c_v : float) (d : vec4)
    (value : float) (c' : Cube.t) :
  Cube.construct_polygons (Cube.init_cube cu c_i c_v d) value = Ret c' ->
  (length (Cube.line_refs c') <= 12)%nat
  /\ (existsb Square.is_ambiguous (Cube.squares c') = false ->
      (length (Cube.line_refs c') <= 6)%nat)
  /\ Forall (on_hyperplane c_i c_v) (Cube.line_refs c').
Proof.
  intros H. apply construct_polygons_result in H as [H _].
  destruct (split_to_squares_ready cu c_i c_v d) as [H6 Hready].
  destruct (construct_all_lines_result c_i c_v _ _ _ _ Hready H) as (H1 & H2 & H3).
  rewrite H6 in H1, H2. auto.
Qed.

(** The numbers of lines and of polygons of a cube that has returned. *)
Lemma cube_counts (cu : arr2 (arr2 (arr2 float))) (c_i : axis)
    (c_v : float) (d : vec4) (value : float) (c' : Cube.t) :
  Cube.construct_polygons (Cube.init_cube cu c_i c_v d) value = Ret c' ->
  (Cube.get_number_lines c' <= 12)%nat
  /\ (Cube.get_number_polygons c' <= 10)%nat
  /\ (Cube.get_number_polygons c' = 0%nat <-> Cube.get_number_lines c' = 0%nat)
  /\ Forall (fun p => (1 <= Polygon.get_number_lines p)%nat) (Cube.get_polygons c').
Proof.
  intros H. destruct (cube_lines _ _ _ _ _ _ H) as (H12 & _ & _).
  apply construct_polygons_result in H as [_ H].
  unfold Cube.get_number_lines, Cube.get_number_polygons, Cube.get_polygons,
    Polygon.get_number_lines.
  destruct H as [[Hl Hp]|[(Hl & _ & _ & _ & p & Hp & Hlp & _)|(Hl & _ & Hb)]].
  - rewrite Hl, Hp. cbn. repeat split; auto; lia.
  - rewrite Hp. cbn [length]. split; [exact H12|]. split; [lia|].
    assert (Hpos : (1 <= length (Cube.line_refs c'))%nat)
      by (destruct (Cube.line_refs c'); [contradiction|cbn; lia]).
    split; [split; intros; lia|].
    constructor; [|constructor]. rewrite Hlp. exact Hpos.
  - apply cube_build_result in Hb.
    + destruct Hb as (new & es & Hnew & Hn1 & Hn2 & Hall & _ & _).
      cbn [app] in Hnew. rewrite Hnew. split; [exact H12|].
      split; [lia|]. split; [split; intros; lia|].
      apply Forall_impl with (2 := Hall). intros p [Hne _].
      destruct (Polygon.lines p); [contradiction|cbn; lia].
    + apply unused_repeat.
    + rewrite (proj1 (unused_repeat _)). reflexivity.
    + rewrite (proj1 (unused_repeat _)). lia.
Qed.


(** X3.  When [Cube::construct_polygons] returns, it has collected at
    most 12 lines and built at most 10 polygons, which is what the arrays
    [line_refs] of the cube and [polygon_refs] of the hypercube (ten
    entries for each of the eight cubes) can hold.  There is a polygon
    exactly when there is a line, and no polygon is without lines. *)
Theorem cube_stays_within_its_arrays (cu : arr2 (arr2 (arr2 float))) (c_i : axis)
    (c_v : float) (d : vec4) (value : float) (c' : Cube.t) :
  Cube.construct_polygons (Cube.init_cube cu c_i c_v d) value = Ret c' ->
  (Cube.get_number_lines c' <= 12)%nat
  /\ (Cube.get_number_polygons c' <= 10)%nat
  /\ (Cube.get_number_polygons c' = 0%nat <-> Cube.get_number_lines c' = 0%nat)
  /\ Forall (fun p => (1 <= Polygon.get_number_lines p)%nat) (Cube.get_polygons c').
Proof. apply cube_counts. Qed.

(** X4.  In the unambiguous case [Cube::construct_polygons] returns a
    single polygon, which holds all lines found, in the order in which the
    squares produced them and none of them turned round; there are at
    most five of them. *)
Theorem unambiguous_cube_has_one_polygon (cu : arr2 (arr2 (arr2 float))) (c_i : axis)
    (c_v : float) (d : vec4) (value : float) (c' : Cube.t) :
  Cube.construct_polygons (Cube.init_cube cu c_i c_v d) value = Ret c' ->
  Cube.is_ambiguous c' = false -> Cube.get_number_lines c' <> 0%nat ->
  (Cube.get_number_lines c' <= 5)%nat
  /\ exists p, Cube.get_polygons c' = [p]
               /\ Polygon.get_lines p = Cube.line_refs c'
               /\ Polygon.const_i p = c_i.
Proof.
  intros H Ha Hn. destruct (cube_lines _ _ _ _ _ _ H) as (_ & H6 & _).
  apply construct_polygons_result in H as [_ H].
  unfold Cube.get_number_lines, Cube.get_polygons, Cube.is_ambiguous in *.
  destruct H as [[Hl _]|[(_ & _ & Hsq & Hn6 & p & Hp & Hlp & Hci)|(_ & Hamb & _)]].
  - rewrite Hl in Hn. contradiction.
  - specialize (H6 Hsq). split; [lia|]. exists p. auto.
  - congruence.
Qed.

(** X5.  The polygons that [Cube::construct_polygons] returns hold every
    line that the squares produced exactly once: their lines, taken
    polygon after polygon, are the collected lines in some order, each as
    it was collected or with its two end points exchanged. *)
Theorem cube_uses_every_line_once (cu : arr2 (arr2 (arr2 float))) (c_i : axis)
    (c_v : float) (d : vec4) (value : float) (c' : Cube.t) :
  Cube.construct_polygons (Cube.init_cube cu c_i c_v d) value = Ret c' ->
  exists es, Permutation es (Cube.line_refs c')
             /\ Forall2 same_segment es (all_lines (Cube.get_polygons c')).
Proof.
  intros H. apply construct_polygons_result in H as [_ H]. unfold Cube.get_polygons.
  destruct H as [[Hl Hp]|[(Hl & _ & _ & _ & p & Hp & Hlp & _)|(Hl & _ & Hb)]].
  - exists []. rewrite Hl, Hp. split; constructor.
  - exists (Cube.line_refs c'). split; [apply Permutation_refl|].
    rewrite Hp. unfold all_lines. cbn. rewrite app_nil_r. unfold Polygon.get_lines.
    rewrite Hlp. clear. induction (Cube.line_refs c'); constructor; auto. now left.
  - apply cube_build_result in Hb.
    + destruct Hb as (new & es & Hnew & _ & _ & _ & Hseg & Hperm).
      cbn [app] in Hnew. rewrite Hnew. rewrite taken_none in Hperm. exists es. auto.
    + apply unused_repeat.
    + rewrite (proj1 (unused_repeat _)). reflexivity.
    + rewrite (proj1 (unused_repeat _)). lia.
Qed.

(** X6.  The polygons of an ambiguous cube are chains: in each of them
    every line starts where the line before it ends, the sum of the
    coordinate-wise absolute differences of the two points being below
    [EPSILON]. *)
Theorem ambiguous_cube_polygons_are_chains (cu : arr2 (arr2 (arr2 float))) (c_i : axis)
    (c_v : float) (d : vec4) (value : float) (c' : Cube.t) :
  Cube.construct_polygons (Cube.init_cube cu c_i c_v d) value = Ret c' ->
  Cube.is_ambiguous c' = true ->
  Forall (fun p => chained (Polygon.get_lines p) = true) (Cube.get_polygons c').
Proof.
  intros H Ha. apply construct_polygons_result in H as [_ H].
  unfold Cube.get_polygons, Cube.is_ambiguous in *.
  destruct H as [[Hl Hp]|[(_ & Hamb & _)|(Hl & _ & Hb)]].
  - rewrite Hp. constructor.
  - congruence.
  - apply cube_build_result in Hb.
    + destruct Hb as (new & es & Hnew & _ & _ & Hall & _ & _).
      cbn [app] in Hnew. rewrite Hnew.
      apply Forall_impl with (2 := Hall). intros p (_ & nu0 & used0 & _ & Hg).
      apply (f_equal (fun x => fst (fst x))) in Hg. cbn [fst] in Hg. rewrite <- Hg.
      apply (grown_polygon_invariant
               (fun p => chained (Polygon.get_lines p) = true) (fun _ => True)).
      * intros q l q' Hq _ Hadd. exact (add_line_chained q q' l Hq Hadd).
      * apply Forall_forall. auto.
      * unfold Polygon.init_polygon. destruct (Polygon.x_lookup c_i) as [[? ?] ?].
        reflexivity.
    + apply unused_repeat.
    + rewrite (proj1 (unused_repeat _)). reflexivity.
    + rewrite (proj1 (unused_repeat _)). lia.
Qed.

(** Where the lines and polygons of a cube that has returned lie. *)
Lemma cube_hyperplane (cu : arr2 (arr2 (arr2 float))) (c_i : axis)
    (c_v : float) (d : vec4) (value : float) (c' : Cube.t) :
  Cube.construct_polygons (Cube.init_cube cu c_i c_v d) value = Ret c' ->
  Forall (on_hyperplane c_i c_v) (Cube.line_refs c')
  /\ Forall (fun p => Polygon.const_i p = c_i
                      /\ Forall (on_hyperplane c_i c_v) (Polygon.get_lines p))
       (Cube.get_polygons c').
Proof.
  intros H. destruct (cube_lines _ _ _ _ _ _ H) as (_ & _ & Hplane).
  split; [exact Hplane|].
  apply construct_polygons_result in H as [_ H]. unfold Cube.get_polygons.
  destruct H as [[Hl Hp]|[(Hl & _ & _ & _ & p & Hp & Hlp & Hci)|(Hl & _ & Hb)]].
  - rewrite Hp. constructor.
  - rewrite Hp. constructor; [|constructor]. unfold Polygon.get_lines. rewrite Hlp. auto.
  - apply cube_build_result in Hb.
    + destruct Hb as (new & es & Hnew & _ & _ & Hall & _ & _).
      cbn [app] in Hnew. rewrite Hnew.
      apply Forall_impl with (2 := Hall). intros p (_ & nu0 & used0 & _ & Hg).
      apply (f_equal (fun x => fst (fst x))) in Hg. cbn [fst] in Hg. rewrite <- Hg.
      apply (grown_polygon_invariant
               (fun p => Polygon.const_i p = c_i
                         /\ Forall (on_hyperplane c_i c_v) (Polygon.get_lines p))
               (on_hyperplane c_i c_v)).
      * intros q l q' [Hq1 Hq2] Hl' Hadd. split.
        -- rewrite (add_line_const_i _ _ _ _ Hadd). exact Hq1.
        -- destruct (add_line_items _ _ _ Hadd) as (l' & Hseg & Hlines).
           unfold Polygon.get_lines in *. rewrite Hlines. apply Forall_app. split; [exact Hq2|].
           constructor; [|constructor].
           exact (same_segment_on_hyperplane _ _ _ _ Hseg Hl').
      * exact Hplane.
      * unfold Polygon.init_polygon. destruct (Polygon.x_lookup c_i) as [[? ?] ?].
        split; [reflexivity|constructor].
    + apply unused_repeat.
    + rewrite (proj1 (unused_repeat _)). reflexivity.
    + rewrite (proj1 (unused_repeat _)). lia.
Qed.


(** X7.  Everything that [Cube::construct_polygons] builds lies in the
    hyperplane of the cube: the end points and the outside point of every
    line collected, and of every line of every polygon, have the constant
    coordinate [const_i] equal to [const_value], and every polygon has the
    constant index of the cube. *)
Theorem cube_elements_lie_in_its_hyperplane (cu : arr2 (arr2 (arr2 float))) (c_i : axis)
    (c_v : float) (d : vec4) (value : float) (c' : Cube.t) :
  Cube.construct_polygons (Cube.init_cube cu c_i c_v d) value = Ret c' ->
  Forall (on_hyperplane c_i c_v) (Cube.line_refs c')
  /\ Forall (fun p => Polygon.const_i p = c_i
                      /\ Forall (on_hyperplane c_i c_v) (Polygon.get_lines p))
       (Cube.get_polygons c').
Proof. apply cube_hyperplane. Qed.

End CubeProperties.

(* ================================================================== *)
(** * Polyhedra and the hypercube *)

Lemma lines_in_acc (polys : list Polygon.t) (n : nat) :
  fold_left (fun n poly => (n + Polygon.get_number_lines poly)%nat) polys n
  = (n + fold_left (fun n poly => (n + Polygon.get_number_lines poly)%nat) polys 0)%nat.
Proof.
  revert n. induction polys as [|q polys IH]; intros n; cbn [fold_left]; [lia|].
  rewrite (IH (n + _)%nat), (IH (0 + _)%nat). lia.
Qed.

(** [add_polygon] appends the polygon as it is and counts its lines as
    tetrahedrons. *)
Lemma add_polygon_items (p p' : Polyhedron.t) (poly : Polygon.t) (b : bool) :
  Polyhedron.add_polygon p poly b = Some p' ->
  Polyhedron.polygons p' = Polyhedron.polygons p ++ [poly]
  /\ Polyhedron.number_tetrahedrons p'
     = (Polyhedron.number_tetrahedrons p + Polygon.get_number_lines poly)%nat.
Proof.
  unfold Polyhedron.add_polygon.
  destruct (_ || _); [intros [= <-]; split; reflexivity|].
  destruct (existsb _ _); [intros [= <-]; split; reflexivity|discriminate].
Qed.

Lemma add_polygon_unchecked (p : Polyhedron.t) (poly : Polygon.t) :
  Polyhedron.add_polygon p poly true = Some (Polyhedron.push p poly).
Proof. unfold Polyhedron.add_polygon. now rewrite orb_true_r. Qed.

Lemma add_polygon_counts (p p' : Polyhedron.t) (poly : Polygon.t) (b : bool) :
  Polyhedron.number_tetrahedrons p = lines_in p ->
  Polyhedron.add_polygon p poly b = Some p' ->
  Polyhedron.number_tetrahedrons p' = lines_in p'.
Proof.
  intros H Ha. apply add_polygon_items in Ha as [Hp Hn].
  unfold lines_in in *. rewrite Hn, Hp, fold_left_app. cbn [fold_left]. now rewrite H.
Qed.

(** The polyhedron of the unambiguous case. *)
Lemma unchecked_polyhedron (refs : list Polygon.t) (p : Polyhedron.t) :
  let q :=
    fold_left
      (fun p poly =>
         match Polyhedron.add_polygon p poly true with Some p' => p' | None => p end)
      refs p in
  Polyhedron.polygons q = Polyhedron.polygons p ++ refs
  /\ (Polyhedron.number_tetrahedrons p = lines_in p ->
      Polyhedron.number_tetrahedrons q = lines_in q).
Proof.
  revert p. induction refs as [|poly refs IH]; intros p; cbn [fold_left].
  - rewrite app_nil_r. auto.
  - rewrite add_polygon_unchecked. destruct (IH (Polyhedron.push p poly)) as [H1 H2].
    cbv zeta in *. split.
    + rewrite H1. cbn. now rewrite <- app_assoc.
    + intros H. apply H2.
      apply (add_polygon_counts p _ poly true H). apply add_polygon_unchecked.
Qed.

Lemma all_polygons_app (ps qs : list Polyhedron.t) :
  all_polygons (ps ++ qs) = all_polygons ps ++ all_polygons qs.
Proof. unfold all_polygons. apply flat_map_app. Qed.

(** What the loop of the ambiguous hypercube returns: at least one
    polyhedron, each grown by the inner loop from an empty one, which
    together hold every polygon that was left exactly once. *)
Lemma hypercube_build_result (fuel : nat) (refs : list Polygon.t)
    (not_used : list bool) (used : nat) (polys : list Polyhedron.t) :
  length not_used = length refs ->
  (used + unused not_used = length refs)%nat ->
  (unused not_used < fuel)%nat ->
  exists new,
    Hypercube.build fuel refs not_used used polys = Ret (polys ++ new)
    /\ (1 <= length new)%nat
    /\ Forall (fun p => Polyhedron.number_tetrahedrons p = lines_in p) new
    /\ Permutation (taken refs not_used ++ all_polygons new) refs.
Proof.
  revert not_used used polys.
  induction fuel as [|fuel IH]; intros not_used used polys Hlen Hsum Hfuel; [lia|].
  cbn [Hypercube.build].
  destruct (Hypercube.grow (length refs) Polyhedron.init_polyhedron refs not_used used 0)
    as [[p not_used1] used1] eqn:Eg.
  unfold Hypercube.grow in Eg.
  pose proof (grow_accounts _ _ _ _ _ _ _ _ _ _ _ _ Eg) as (Ha1 & Ha2 & Ha3).
  destruct (grow_items _ _ (fun p poly => Polyhedron.add_polygon p poly false) _
              Polyhedron.polygons (@eq Polygon.t)
              (fun p e p' H => ex_intro _ e (conj eq_refl (proj1 (add_polygon_items p p' e false H))))
              _ _ _ _ _ _ _ _ _ Eg)
    as (es1 & fs1 & Hi1 & Hi2 & Hi3 & Hi4).
  assert (Hes : es1 = fs1).
  { clear - Hi2. induction Hi2; [reflexivity|]. now subst. }
  subst fs1. cbn [Polyhedron.init_polyhedron Polyhedron.polygons app] in Hi1.
  assert (Hcount : Polyhedron.number_tetrahedrons p = lines_in p).
  { replace p with (fst (fst (Greedy.grow
                                (fun p poly => Polyhedron.add_polygon p poly false)
                                (length refs) Polyhedron.init_polyhedron refs not_used used 0)))
      by (now rewrite Eg).
    apply (grow_invariant _ _ _ (fun p => Polyhedron.number_tetrahedrons p = lines_in p)
             (fun _ => True)).
    - intros q e q' Hq _ Hadd. exact (add_polygon_counts q q' e false Hq Hadd).
    - apply Forall_forall. auto.
    - reflexivity. }
  destruct (Nat.ltb_spec used1 (length refs)) as [Hmore|Hdone].
  - assert (Hprog : (used < used1)%nat).
    { assert (Hu : (0 < unused not_used)%nat) by lia.
      assert (Hf : (0 < length refs)%nat) by lia.
      exact (grow_progress _ _ _ _ _ _ _ _ _ _ _ add_polygon_first Hlen Hu Hf Eg). }
    destruct (IH not_used1 used1 (polys ++ [p])) as (new & E & Hn & Hall & Hperm);
      [lia|lia|lia|].
    exists (p :: new). rewrite E, <- app_assoc. split; [reflexivity|].
    cbn [length]. split; [lia|]. split; [constructor; assumption|].
    change (all_polygons (p :: new)) with (Polyhedron.polygons p ++ all_polygons new).
    rewrite Hi1, app_assoc. apply perm_trans with (2 := Hperm).
    apply Permutation_app_tail. apply Permutation_sym. exact Hi3.
  - exists [p]. split; [reflexivity|]. cbn [length]. split; [lia|].
    split; [constructor; [assumption|constructor]|].
    unfold all_polygons. cbn. rewrite app_nil_r, Hi1.
    apply Permutation_sym. rewrite <- (taken_all _ refs not_used1) at 1 by lia.
    exact Hi3.
Qed.


Section HypercubeResults.
Context {consts : SquareConstants}.

(** What the first loop of [construct_polyhedra] collects: the polygons
    of the eight cubes, cube after cube. *)
Lemma construct_all_polygons_result (cs cs' : list Cube.t) (ps : list Polygon.t)
    (v : float) :
  Hypercube.construct_all_polygons cs v = Ret (cs', ps) ->
  Forall2 (fun c c' => Cube.construct_polygons c v = Ret c') cs cs'
  /\ ps = flat_map Cube.get_polygons cs'.
Proof.
  revert cs' ps. induction cs as [|c cs IH]; intros cs' ps; cbn.
  - intros [= <- <-]. split; constructor.
  - destruct (Cube.construct_polygons c v) as [c'| | |] eqn:E1; cbn; try discriminate.
    destruct (Hypercube.construct_all_polygons cs v) as [[cs1 ps1]| | |]; cbn;
      try discriminate.
    intros [= <- <-]. destruct (IH _ _ eq_refl) as [H1 H2].
    split; [constructor; assumption|]. cbn. now rewrite H2.
Qed.

(** The eight cubes of a hypercube: two for every coordinate, at 0 and at
    one step of it. *)
Lemma split_to_cubes_cubes (hc : arr2 (arr2 (arr2 (arr2 float)))) (d : vec4) (v : float) :
  let h := Hypercube.init_hypercube hc d in
  Hypercube.cubes (fst (Hypercube.split_to_cubes h v))
  = flat_map
      (fun i =>
         map (fun j => Cube.init_cube (Hypercube.slice h i j) i
                         (Double.of_step j * get d i) d) STEPS) DIM
  /\ Hypercube.polyhedra (fst (Hypercube.split_to_cubes h v)) = [].
Proof. split; reflexivity. Qed.

Lemma check_ambiguity_keeps (h : Hypercube.t) (n : Z) :
  Hypercube.polygon_refs (Hypercube.check_ambiguity h n) = Hypercube.polygon_refs h
  /\ Hypercube.polyhedra (Hypercube.check_ambiguity h n) = Hypercube.polyhedra h.
Proof.
  unfold Hypercube.check_ambiguity. destruct h as [hc ph cs pr a d].
  cbn [Hypercube.cubes Hypercube.ambiguous Hypercube.set_ambiguous].
  destruct (existsb Cube.is_ambiguous cs); cbn [negb]; cbv iota; [split; reflexivity|].
  destruct (_ && _); split; reflexivity.
Qed.

(** The two ways in which [construct_polyhedra] returns. *)
Lemma construct_polyhedra_result (hc : arr2 (arr2 (arr2 (arr2 float)))) (d : vec4)
    (value : float) (h : Hypercube.t) :
  Hypercube.construct_polyhedra (Hypercube.init_hypercube hc d) value = Ret h ->
  Hypercube.construct_all_polygons
    (Hypercube.cubes (fst (Hypercube.split_to_cubes (Hypercube.init_hypercube hc d) value)))
    value
  = Ret (Hypercube.cubes h, Hypercube.polygon_refs h)
  /\ ((Hypercube.ambiguous h = false
       /\ exists p, Hypercube.polyhedra h = [p]
                    /\ Polyhedron.polygons p = Hypercube.polygon_refs h
                    /\ Polyhedron.number_tetrahedrons p = lines_in p)
      \/ (Hypercube.ambiguous h = true
          /\ Hypercube.build (S (length (Hypercube.polygon_refs h)))
               (Hypercube.polygon_refs h)
               (repeat true (length (Hypercube.polygon_refs h))) 0 []
             = Ret (Hypercube.polyhedra h))).
Proof.
  unfold Hypercube.construct_polyhedra.
  destruct (split_to_cubes_cubes hc d value) as [_ Hp0]. cbv zeta in Hp0.
  destruct (Hypercube.split_to_cubes (Hypercube.init_hypercube hc d) value) as [h0 nb].
  cbn [fst] in *.
  destruct (Hypercube.construct_all_polygons (Hypercube.cubes h0) value)
    as [[cs ps]| | |]; cbn [bind fst snd]; try discriminate.
  destruct (Double.to_int value) as [n|]; [|discriminate].
  set (h1 := Hypercube.set_polygon_refs (Hypercube.set_cubes h0 cs) ps).
  destruct (check_ambiguity_spec h1 n) as [Hcs _].
  destruct (check_ambiguity_keeps h1 n) as [Hrefs Hpoly].
  change (Hypercube.polygon_refs h1) with ps in *.
  change (Hypercube.cubes h1) with cs in Hcs.
  change (Hypercube.polyhedra h1) with (Hypercube.polyhedra h0) in Hpoly.
  rewrite Hp0 in Hpoly.
  set (h2 := Hypercube.check_ambiguity h1 n) in *. clearbody h2. rewrite Hrefs, Hpoly.
  destruct (Hypercube.ambiguous h2) eqn:Ea.
  - destruct (Hypercube.build _ _ _ _ _) as [polys| | |] eqn:Eb; cbn [bind];
      try discriminate.
    intros E; injection E as <-. cbn. rewrite Hcs, Hrefs, Ea. split; [reflexivity|].
    right. split; [reflexivity|exact Eb].
  - intros E; injection E as <-. cbn. rewrite Hcs, Hrefs, Ea. split; [reflexivity|].
    left. split; [reflexivity|]. eexists. split; [reflexivity|].
    destruct (unchecked_polyhedron ps Polyhedron.init_polyhedron) as [H1 H2].
    cbv zeta in H1, H2. split; [exact H1|apply H2; reflexivity].
Qed.

(** X8.  When [Hypercube::construct_polyhedra] returns, it has built at
    least one polyhedron, also when the cubes have produced no polygon at
    all, and the polyhedra hold every polygon of the eight cubes exactly
    once; in the unambiguous case there is one polyhedron, which holds
    them in the order in which the cubes produced them. *)
Theorem hypercube_uses_every_polygon_once (hc : arr2 (arr2 (arr2 (arr2 float))))
    (d : vec4) (value : float) (h : Hypercube.t) :
  Hypercube.construct_polyhedra (Hypercube.init_hypercube hc d) value = Ret h ->
  (1 <= Hypercube.get_number_polyhedra h)%nat
  /\ Hypercube.polygon_refs h = flat_map Cube.get_polygons (Hypercube.cubes h)
  /\ Permutation (all_polygons (Hypercube.get_polyhedra h)) (Hypercube.polygon_refs h)
  /\ (Hypercube.is_ambiguous h = false ->
      exists p, Hypercube.get_polyhedra h = [p]
                /\ Polyhedron.polygons p = Hypercube.polygon_refs h).
Proof.
  intros H. apply construct_polyhedra_result in H as [Hall H].
  apply construct_all_polygons_result in Hall as [_ Hrefs].
  unfold Hypercube.get_number_polyhedra, Hypercube.get_polyhedra, Hypercube.is_ambiguous.
  destruct H as [(Ha & p & Hp & Hpp & _)|(Ha & Hb)].
  - rewrite Hp. cbn [length]. split; [lia|]. split; [exact Hrefs|]. split.
    + unfold all_polygons. cbn. rewrite app_nil_r, Hpp. apply Permutation_refl.
    + intros _. exists p. auto.
  - destruct (hypercube_build_result (S (length (Hypercube.polygon_refs h)))
                (Hypercube.polygon_refs h)
                (repeat true (length (Hypercube.polygon_refs h))) 0 [])
      as (new & E & Hn & _ & Hperm).
    + apply unused_repeat.
    + rewrite (proj1 (unused_repeat _)). reflexivity.
    + rewrite (proj1 (unused_repeat _)). lia.
    + rewrite E in Hb. injection Hb as Hb. cbn [app] in Hb. rewrite <- Hb.
      rewrite taken_none in Hperm. cbn [app] in Hperm.
      split; [exact Hn|]. split; [exact Hrefs|]. split; [exact Hperm|].
      rewrite Ha. discriminate.
Qed.

(** X9.  In every polyhedron that [Hypercube::construct_polyhedra]
    returns, the counter [number_tetrahedrons], by which
    [calculate_centroid] divides and up to which [calculate_normal] sums,
    is the number of lines of all its polygons. *)
Theorem polyhedron_counts_its_tetrahedrons (hc : arr2 (arr2 (arr2 (arr2 float))))
    (d : vec4) (value : float) (h : Hypercube.t) :
  Hypercube.construct_polyhedra (Hypercube.init_hypercube hc d) value = Ret h ->
  Forall (fun p => Polyhedron.get_number_tetrahedrons p = lines_in p)
    (Hypercube.get_polyhedra h).
Proof.
  intros H. apply construct_polyhedra_result in H as [_ H].
  unfold Hypercube.get_polyhedra, Polyhedron.get_number_tetrahedrons.
  destruct H as [(Ha & p & Hp & _ & Hc)|(Ha & Hb)].
  - rewrite Hp. constructor; [exact Hc|constructor].
  - destruct (hypercube_build_result (S (length (Hypercube.polygon_refs h)))
                (Hypercube.polygon_refs h)
                (repeat true (length (Hypercube.polygon_refs h))) 0 [])
      as (new & E & _ & Hall & _).
    + apply unused_repeat.
    + rewrite (proj1 (unused_repeat _)). reflexivity.
    + rewrite (proj1 (unused_repeat _)). lia.
    + rewrite E in Hb. injection Hb as Hb. cbn [app] in Hb. rewrite <- Hb. exact Hall.
Qed.

Lemma Forall2_Forall {A B : Type} (R : A -> B -> Prop) (P : A -> Prop) (Q : B -> Prop)
    (l : list A) (l' : list B) :
  (forall a b, P a -> R a b -> Q b) -> Forall2 R l l' -> Forall P l -> Forall Q l'.
Proof.
  intros H HR. induction HR as [|a b l l' Hab _ IH]; intros HP; constructor;
    inversion HP; subst; eauto.
Qed.

(** The cubes of a hypercube that has returned are the eight cubes of
    the split, each after its own [construct_polygons]. *)
Lemma hypercube_cubes (hc : arr2 (arr2 (arr2 (arr2 float)))) (d : vec4)
    (value : float) (h : Hypercube.t) :
  Hypercube.construct_polyhedra (Hypercube.init_hypercube hc d) value = Ret h ->
  length (Hypercube.cubes h) = 8%nat
  /\ Forall (fun c' => exists cu c_i j,
                 Cube.construct_polygons
                   (Cube.init_cube cu c_i (Double.of_step j * get d c_i) d) value = Ret c')
       (Hypercube.cubes h).
Proof.
  intros H. apply construct_polyhedra_result in H as [Hall _].
  apply construct_all_polygons_result in Hall as [Hall _].
  destruct (split_to_cubes_cubes hc d value) as [Hc _]. cbv zeta in Hc.
  rewrite Hc in Hall. clear Hc. split.
  - apply Forall2_length in Hall. rewrite <- Hall. reflexivity.
  - apply (Forall2_Forall _ (fun c => exists cu c_i j,
                                 c = Cube.init_cube cu c_i (Double.of_step j * get d c_i) d)
             _ _ _) with (2 := Hall).
    + intros c c' (cu & c_i & j & ->) E. exists cu, c_i, j. exact E.
    + cbn [flat_map map DIM STEPS app].
      repeat (constructor; [eexists _, _, _; reflexivity|]).
      constructor.
Qed.

(** X10.  When [Hypercube::construct_polyhedra] returns, the eight cubes
    have produced at most 80 polygons, ten at most each, which is what the
    arrays [polygon_refs] and [not_used] of the hypercube can hold, and no
    polygon is without lines. *)
Theorem hypercube_stays_within_its_arrays (hc : arr2 (arr2 (arr2 (arr2 float))))
    (d : vec4) (value : float) (h : Hypercube.t) :
  Hypercube.construct_polyhedra (Hypercube.init_hypercube hc d) value = Ret h ->
  length (Hypercube.cubes h) = 8%nat
  /\ Forall (fun c => (Cube.get_number_polygons c <= 10)%nat) (Hypercube.cubes h)
  /\ (length (Hypercube.polygon_refs h) <= 80)%nat
  /\ Forall (fun p => (1 <= Polygon.get_number_lines p)%nat) (Hypercube.polygon_refs h).
Proof.
  intros H. destruct (hypercube_cubes _ _ _ _ H) as [H8 Hc].
  apply construct_polyhedra_result in H as [Hall _].
  apply construct_all_polygons_result in Hall as [_ Hrefs].
  assert (Hten : Forall (fun c => (Cube.get_number_polygons c <= 10)%nat
                                  /\ Forall (fun p => (1 <= Polygon.get_number_lines p)%nat)
                                       (Cube.get_polygons c)) (Hypercube.cubes h)).
  { apply Forall_impl with (2 := Hc). intros c' (cu & c_i & j & E).
    destruct (cube_counts _ _ _ _ _ _ E) as (_ & H10 & _ & Hne). auto. }
  split; [exact H8|]. split; [apply Forall_impl with (2 := Hten); tauto|].
  rewrite Hrefs. clear - H8 Hten.
  assert (G : forall cs, Forall (fun c => (Cube.get_number_polygons c <= 10)%nat
                                  /\ Forall (fun p => (1 <= Polygon.get_number_lines p)%nat)
                                       (Cube.get_polygons c)) cs ->
              (length (flat_map Cube.get_polygons cs) <= 10 * length cs)%nat
              /\ Forall (fun p => (1 <= Polygon.get_number_lines p)%nat)
                   (flat_map Cube.get_polygons cs)).
  { induction 1 as [|c cs [Hc1 Hc2] _ [IH1 IH2]]; cbn [flat_map length].
    - split; [lia|constructor].
    - rewrite length_app. unfold Cube.get_number_polygons, Cube.get_polygons in *.
      split; [lia|]. apply Forall_app. auto. }
  destruct (G _ Hten) as [G1 G2]. rewrite H8 in G1. split; [lia|exact G2].
Qed.

End HypercubeResults.


Section HypercubeFaces.
Context {consts : SquareConstants}.

(** X11.  Every polygon that [Hypercube::construct_polyhedra] collects
    lies in a face of the cell: with [i] its constant index, the end
    points and the outside point of each of its lines have coordinate [i]
    equal to [0 * dx[i]] or all equal to [1 * dx[i]]. *)
Theorem hypercube_polygons_lie_in_faces (hc : arr2 (arr2 (arr2 (arr2 float))))
    (d : vec4) (value : float) (h : Hypercube.t) :
  Hypercube.construct_polyhedra (Hypercube.init_hypercube hc d) value = Ret h ->
  Forall (fun p => exists j,
              Forall (on_hyperplane (Polygon.const_i p)
                        (Double.of_step j * get d (Polygon.const_i p)))
                (Polygon.get_lines p))
    (Hypercube.polygon_refs h).
Proof.
  intros H. destruct (hypercube_cubes _ _ _ _ H) as [_ Hc].
  apply construct_polyhedra_result in H as [Hall _].
  apply construct_all_polygons_result in Hall as [_ ->].
  induction Hc as [|c cs (cu & c_i & j & E) _ IH]; cbn [flat_map]; [constructor|].
  apply Forall_app. split; [|exact IH].
  destruct (cube_hyperplane _ _ _ _ _ _ E) as [_ Hp].
  apply Forall_impl with (2 := Hp). intros p [-> Hl]. exists j. exact Hl.
Qed.

Lemma count_below_acc (xs : list float) (v : float) (n : Z) :
  fold_left (fun n x => if x <? v then (n + 1)%Z else n) xs n
  = (n + number_below xs v)%Z.
Proof.
  unfold number_below. revert n. induction xs as [|x xs IH]; intros n; cbn [fold_left filter].
  - cbn. lia.
  - rewrite IH. destruct (x <? v); cbn [length]; lia.
Qed.

Lemma number_below_app (xs ys : list float) (v : float) :
  number_below (xs ++ ys) v = (number_below xs v + number_below ys v)%Z.
Proof. unfold number_below. rewrite filter_app, length_app. lia. Qed.

(** X12.  The number that [Hypercube::split_to_cubes] returns is the
    number of the 16 corner values of the hypercube that lie strictly
    below the threshold, each corner counted once (a NaN is not counted);
    and the split makes 8 cubes. *)
Theorem split_to_cubes_counts_corners_below (h : Hypercube.t) (value : float) :
  snd (Hypercube.split_to_cubes h value)
  = number_below (Hypercube.corners4 (Hypercube.hypercube h)) value
  /\ length (Hypercube.cubes (fst (Hypercube.split_to_cubes h value))) = 8%nat.
Proof.
  split; [|reflexivity].
  unfold Hypercube.split_to_cubes. cbn [snd STEPS fold_left].
  rewrite !count_below_acc.
  replace (Hypercube.corners4 (Hypercube.hypercube h))
    with (Hypercube.corners3 (Hypercube.slice h A0 false)
          ++ Hypercube.corners3 (Hypercube.slice h A0 true)) by reflexivity.
  rewrite number_below_app. lia.
Qed.

End HypercubeFaces.

(** X13.  The inner loops of [Cube::construct_polygons] and of
    [Hypercube::construct_polyhedra] restart their scan at index 1 after
    every candidate they accept, and yet miss nothing: started on an
    empty element, each ends with an element that refuses every candidate
    still marked unused, so a polygon (a polyhedron) is closed only when
    no line (no polygon) that is left fits it. *)
Theorem grown_elements_take_all_that_fits :
  (forall c_i refs not_used used p not_used' used',
      (length not_used <= length refs)%nat ->
      Cube.grow (length refs) (Polygon.init_polygon c_i) refs not_used used 0
      = (p, not_used', used') ->
      forall k l, nth_error refs k = Some l -> nth_error not_used' k = Some true ->
                  Polygon.add_line p l false = None)
  /\ (forall refs not_used used p not_used' used',
        (length not_used <= length refs)%nat ->
        Hypercube.grow (length refs) Polyhedron.init_polyhedron refs not_used used 0
        = (p, not_used', used') ->
        forall k poly, nth_error refs k = Some poly -> nth_error not_used' k = Some true ->
                       Polyhedron.add_polygon p poly false = None).
Proof.
  split.
  - intros c_i refs not_used used p not_used' used' Hlen Hg.
    apply (grow_maximal _ _ (fun p l => Polygon.add_line p l false) _ _ _ _ _ _ _ _
             (fun e => add_line_first c_i e)) with (2 := Hg).
    pose proof (unused_le_length not_used). lia.
  - intros refs not_used used p not_used' used' Hlen Hg.
    apply (grow_maximal _ _ (fun p poly => Polyhedron.add_polygon p poly false)
             _ _ _ _ _ _ _ _ add_polygon_first) with (2 := Hg).
    pose proof (unused_le_length not_used). lia.
Qed.

(* ================================================================== *)
(** * The facade and its caller *)

Lemma store_lookup (xs arr r : list vec4) :
  Cornelius.store xs arr = Ret r ->
  (length xs <= length arr)%nat
  /\ length r = length arr
  /\ (forall i v, nth_error xs i = Some v -> nth_error r i = Some v)
  /\ (forall i, (length xs <= i)%nat -> nth_error r i = nth_error arr i).
Proof.
  unfold Cornelius.store. destruct (Nat.leb_spec (length xs) (length arr)); [|discriminate].
  intros [= <-]. split; [assumption|]. split.
  { rewrite length_app, length_skipn. lia. }
  split.
  - intros i v Hv. rewrite nth_error_app1; [exact Hv|].
    apply nth_error_Some. congruence.
  - intros i Hi. rewrite nth_error_app2 by exact Hi. rewrite nth_error_skipn.
    f_equal. lia.
Qed.

Lemma last_components_axis (v : vec4) (dimension : Z) (k : nat) (x : float) :
  (0 <= dimension <= 4)%Z ->
  nth_error (Cornelius.last_components v dimension) k = Some x ->
  (Z.of_nat k < dimension)%Z
  /\ exists a, Cornelius.axis_of_Z (Z.of_nat k + (4 - dimension)) = Some a /\ x = get v a.
Proof.
  intros Hd. unfold Cornelius.last_components.
  assert ((dimension = 0 \/ dimension = 1 \/ dimension = 2 \/ dimension = 3
           \/ dimension = 4)%Z) as [-> |[-> |[-> |[-> | ->]]]] by lia; cbn [Z.sub Z.to_nat skipn];
    cbn; destruct k as [|[|[|[|k]]]]; cbn; try discriminate;
    try (destruct k; discriminate); intros [= <-];
    (split; [lia|]); eexists; (split; [reflexivity|reflexivity]).
Qed.

(** Reading a stored component through an accessor. *)
Lemma accessor_reads (arr : list vec4) (number_elements dimension : Z) (i k : nat)
    (v : vec4) (x : float) :
  (0 <= dimension <= 4)%Z -> (Z.of_nat i < number_elements)%Z ->
  nth_error arr i = Some v ->
  nth_error (Cornelius.last_components v dimension) k = Some x ->
  (if ((Z.of_nat i >=? number_elements) || (Z.of_nat k >=? dimension))%Z
   then OutOfRange
   else Cornelius.read arr (Z.of_nat i) (Z.of_nat k + (4 - dimension))) = Ret x.
Proof.
  intros Hd Hi Hv Hx. destruct (last_components_axis _ _ _ _ Hd Hx) as (Hk & a & Ha & ->).
  destruct (Z.geb_spec (Z.of_nat i) number_elements); [lia|].
  destruct (Z.geb_spec (Z.of_nat k) dimension); [lia|]. cbn [orb].
  unfold Cornelius.read. destruct (Z.ltb_spec (Z.of_nat i) 0); [lia|].
  rewrite Nat2Z.id, Hv, Ha. reflexivity.
Qed.

(** A state that holds the results of a query serves them. *)
Lemma stored_results_served (c : Cornelius.t) (dimension : Z) (ns cs rn rc : list vec4) :
  (0 <= dimension <= 4)%Z -> length cs = length ns ->
  Cornelius.cube_dimension c = dimension ->
  Cornelius.store ns (Cornelius.normals c) = Ret rn ->
  Cornelius.store cs (Cornelius.centroids c) = Ret rc ->
  serves (Cornelius.set_results c (Z.of_nat (length ns)) rn rc) dimension ns cs.
Proof.
  intros Hd Hlen Hdim Hn Hc. unfold serves.
  apply store_lookup in Hn as (_ & _ & Hn & _). apply store_lookup in Hc as (_ & _ & Hc & _).
  split; [exact Hdim|]. split; [reflexivity|]. split; [exact Hlen|].
  unfold Cornelius.get_normal_element, Cornelius.get_centroid_element.
  cbn [Cornelius.set_results Cornelius.number_elements Cornelius.cube_dimension
       Cornelius.normals Cornelius.centroids]. rewrite Hdim.
  split; intros i k v x Hv Hx; apply accessor_reads with (v := v); auto.
  - assert (i < length ns)%nat by (apply nth_error_Some; congruence). lia.
  - assert (i < length cs)%nat by (apply nth_error_Some; congruence). lia.
Qed.


Section FacadeResults.
Context {consts : SquareConstants} {helpers : ElementHelpers}.

Lemma nothing_served (c : Cornelius.t) (dimension : Z) :
  Cornelius.cube_dimension c = dimension ->
  serves (Cornelius.set_results c 0 (Cornelius.normals c) (Cornelius.centroids c))
    dimension [] [].
Proof.
  intros Hd. unfold serves. split; [exact Hd|]. split; [reflexivity|].
  split; [reflexivity|]. split; intros [|i] k n x; discriminate.
Qed.

(** A 3-D query that returns serves the polygons found in the cell. *)
Lemma find_surface_3d_result (c c' : Cornelius.t) (cu : arr2 (arr2 (arr2 float))) :
  Cornelius.find_surface_3d c cu = Ret c' ->
  serves c' 3 (map Polygon.calculate_normal (found_polygons c cu))
    (map Polygon.calculate_centroid (found_polygons c cu))
  /\ Cornelius.initialized c' = true
  /\ Cornelius.value c' = Cornelius.value c /\ Cornelius.dx c' = Cornelius.dx c
  /\ length (Cornelius.normals c') = length (Cornelius.normals c)
  /\ length (Cornelius.centroids c') = length (Cornelius.centroids c).
Proof.
  unfold Cornelius.find_surface_3d, Cornelius.surface_3d, found_polygons.
  destruct (Cornelius.initialized c) eqn:Ei; [|discriminate].
  destruct (Z.eqb_spec (Cornelius.cube_dimension c) 3) as [Hd|]; [|discriminate].
  cbn [negb orb]. cbv zeta. destruct (_ || _).
  { intros Er. injection Er as <-. cbn [map]. split; [apply nothing_served; exact Hd|].
    unfold Cornelius.set_results.
    cbn [Cornelius.initialized Cornelius.value Cornelius.dx Cornelius.normals
         Cornelius.centroids]. auto. }
  destruct (Cube.construct_polygons _ _) as [cube_3d| | |]; cbn [bind]; try discriminate.
  destruct (Cornelius.store _ (Cornelius.normals c)) as [ns| | |] eqn:En; cbn [bind];
    try discriminate.
  destruct (Cornelius.store _ (Cornelius.centroids c)) as [cs| | |] eqn:Ec; cbn [bind];
    try discriminate.
  intros Er. injection Er as <-.
  assert (Hlen : length (map Polygon.calculate_centroid (Cube.get_polygons cube_3d))
                 = length (map Polygon.calculate_normal (Cube.get_polygons cube_3d)))
    by (rewrite !length_map; reflexivity).
  assert (H3 : (0 <= 3 <= 4)%Z) by lia.
  pose proof (stored_results_served c 3 _ _ _ _ H3 Hlen Hd En Ec) as Hs.
  rewrite length_map in Hs. split; [exact Hs|].
  apply store_lookup in En as (_ & Ln & _). apply store_lookup in Ec as (_ & Lc & _).
  unfold Cornelius.set_results.
  cbn [Cornelius.initialized Cornelius.value Cornelius.dx Cornelius.normals
       Cornelius.centroids]. auto.
Qed.

End FacadeResults.

Section FacadeServes.
Context {consts : SquareConstants} {helpers : ElementHelpers}.

Lemma find_surface_2d_result (c c' : Cornelius.t) (cu : arr2 (arr2 float)) :
  Cornelius.find_surface_2d c cu = Ret c' ->
  serves c' 2 (map line_normal (found_lines c cu)) (map line_centroid (found_lines c cu)).
Proof.
  unfold Cornelius.find_surface_2d, found_lines.
  destruct (Cornelius.initialized c) eqn:Ei; [|discriminate].
  destruct (Z.eqb_spec (Cornelius.cube_dimension c) 2) as [Hd|]; [|discriminate].
  cbn [negb orb]. cbv zeta.
  destruct (Square.construct_lines _ _) as [cube_2d| | |]; cbn [bind]; try discriminate.
  destruct (Cornelius.store _ (Cornelius.normals c)) as [ns| | |] eqn:En; cbn [bind];
    try discriminate.
  destruct (Cornelius.store _ (Cornelius.centroids c)) as [cs| | |] eqn:Ec; cbn [bind];
    try discriminate.
  intros Er. injection Er as <-.
  assert (Hlen : length (map line_centroid (Square.get_lines cube_2d))
                 = length (map line_normal (Square.get_lines cube_2d)))
    by (rewrite !length_map; reflexivity).
  assert (H2 : (0 <= 2 <= 4)%Z) by lia.
  pose proof (stored_results_served c 2 _ _ _ _ H2 Hlen Hd En Ec) as Hs.
  rewrite length_map in Hs. exact Hs.
Qed.

Lemma find_surface_4d_result (c c' : Cornelius.t) (cu : arr2 (arr2 (arr2 (arr2 float)))) :
  Cornelius.find_surface_4d c cu = Ret c' ->
  serves c' 4 (map Polyhedron.calculate_normal (found_polyhedra c cu))
    (map Polyhedron.calculate_centroid (found_polyhedra c cu)).
Proof.
  unfold Cornelius.find_surface_4d, found_polyhedra.
  destruct (Cornelius.initialized c) eqn:Ei; [|discriminate].
  destruct (Z.eqb_spec (Cornelius.cube_dimension c) 4) as [Hd|]; [|discriminate].
  cbn [negb orb]. cbv zeta. destruct (_ || _).
  { intros Er. injection Er as <-. cbn [map]. apply nothing_served; exact Hd. }
  destruct (Hypercube.construct_polyhedra _ _) as [cube_4d| | |]; cbn [bind];
    try discriminate.
  destruct (Cornelius.store _ (Cornelius.normals c)) as [ns| | |] eqn:En; cbn [bind];
    try discriminate.
  destruct (Cornelius.store _ (Cornelius.centroids c)) as [cs| | |] eqn:Ec; cbn [bind];
    try discriminate.
  intros Er. injection Er as <-.
  assert (Hlen : length (map Polyhedron.calculate_centroid (Hypercube.get_polyhedra cube_4d))
                 = length (map Polyhedron.calculate_normal (Hypercube.get_polyhedra cube_4d)))
    by (rewrite !length_map; reflexivity).
  assert (H4 : (0 <= 4 <= 4)%Z) by lia.
  pose proof (stored_results_served c 4 _ _ _ _ H4 Hlen Hd En Ec) as Hs.
  rewrite length_map in Hs. exact Hs.
Qed.

(** X14.  A query that returns leaves the facade serving exactly what the
    cell code found: the number of elements is the number of lines,
    polygons or polyhedra found, and the accessors return, component by
    component, the normal and the centroid of each of them. *)
Theorem queries_serve_what_was_found (c c' : Cornelius.t) :
  (forall cu, Cornelius.find_surface_2d c cu = Ret c' ->
     serves c' 2 (map line_normal (found_lines c cu))
       (map line_centroid (found_lines c cu)))
  /\ (forall cu, Cornelius.find_surface_3d c cu = Ret c' ->
        serves c' 3 (map Polygon.calculate_normal (found_polygons c cu))
          (map Polygon.calculate_centroid (found_polygons c cu)))
  /\ (forall cu, Cornelius.find_surface_4d c cu = Ret c' ->
        serves c' 4 (map Polyhedron.calculate_normal (found_polyhedra c cu))
          (map Polyhedron.calculate_centroid (found_polyhedra c cu))).
Proof.
  split; [|split]; intros cu H.
  - apply find_surface_2d_result; exact H.
  - apply find_surface_3d_result in H. tauto.
  - apply find_surface_4d_result; exact H.
Qed.

End FacadeServes.

Lemma copy_rows_lookup (arr : list vec4) (number_elements dimension : Z)
    (rows : list (list float)) :
  Cornelius.copy_rows arr number_elements dimension = Cornelius.Rows rows ->
  (0 <= dimension)%Z
  /\ Z.of_nat (length rows) = number_elements
  /\ (forall i row, nth_error rows i = Some row ->
        (dimension <= 4)%Z
        /\ exists v, nth_error arr i = Some v
                     /\ row = Cornelius.last_components v dimension).
Proof.
  unfold Cornelius.copy_rows.
  destruct (Z.ltb_spec dimension 0); [discriminate|].
  destruct (Z.ltb_spec number_elements 0); [discriminate|]. cbn [orb].
  destruct (Z.eqb_spec number_elements 0) as [->|].
  { intros E. injection E as <-. split; [assumption|]. split; [reflexivity|].
    intros [|i] row; discriminate. }
  destruct (Z.ltb_spec 4 dimension); [discriminate|].
  destruct (Z.ltb_spec (Z.of_nat (length arr)) number_elements); [discriminate|].
  intros E. injection E as <-. split; [assumption|]. split.
  { rewrite length_map, length_firstn. lia. }
  intros i row Hrow. split; [assumption|].
  rewrite nth_error_map in Hrow.
  destruct (nth_error (firstn _ arr) i) as [v|] eqn:Ev; [|discriminate].
  injection Hrow as <-. exists v. split; [|reflexivity].
  destruct (Nat.lt_ge_cases i (Z.to_nat number_elements)) as [Hi|Hi].
  - rewrite nth_error_firstn in Ev. destruct (Nat.ltb_spec i (Z.to_nat number_elements)); [exact Ev|lia].
  - assert (Hlen : (length (firstn (Z.to_nat number_elements) arr) <= i)%nat)
      by (rewrite length_firstn; lia).
    apply nth_error_None in Hlen. congruence.
Qed.

(** X15.  The bulk getters and the element accessors read the same
    results: when [get_normals] or [get_centroids] returns, it has one row
    per element, and entry [k] of row [i] is what the accessor returns for
    element [i] and component [k]. *)
Theorem bulk_getters_agree_with_accessors (c : Cornelius.t) (rows : list (list float)) :
  (Cornelius.get_normals c = Cornelius.Rows rows ->
   Z.of_nat (length rows) = Cornelius.get_number_elements c
   /\ forall i k row x, nth_error rows i = Some row -> nth_error row k = Some x ->
        Cornelius.get_normal_element c (Z.of_nat i) (Z.of_nat k) = Ret x)
  /\ (Cornelius.get_centroids c = Cornelius.Rows rows ->
      Z.of_nat (length rows) = Cornelius.get_number_elements c
      /\ forall i k row x, nth_error rows i = Some row -> nth_error row k = Some x ->
           Cornelius.get_centroid_element c (Z.of_nat i) (Z.of_nat k) = Ret x).
Proof.
  unfold Cornelius.get_normals, Cornelius.get_centroids, Cornelius.get_normal_element,
    Cornelius.get_centroid_element, Cornelius.get_number_elements.
  split; intros H; apply copy_rows_lookup in H as (H0 & Hn & Hrows); (split; [exact Hn|]);
    intros i k row x Hrow Hx; destruct (Hrows i row Hrow) as (H4 & v & Hv & ->);
    apply accessor_reads with (v := v); auto; try lia;
    assert (i < length rows)%nat by (apply nth_error_Some; congruence); lia.
Qed.

Section CallerOfTheQuery.
Context {consts : SquareConstants} {helpers : ElementHelpers}.
Variable temperature : float -> float -> float -> float.

Lemma diagonal_test (a b v : float) :
  ((v - a) * (b - v) <? 0) = true -> same_side a b v = true.
Proof.
  intros H. apply mul_negative in H. unfold same_side.
  destruct H as [[H1 H2]|[H1 H2]].
  - apply sub_negative in H1. apply sub_positive in H2. rewrite H1, H2.
    apply orb_true_r.
  - apply sub_positive in H1. apply sub_negative in H2. rewrite H1, H2. reflexivity.
Qed.

(** X16.  [check_intersect] reports no intersection only when, on each of
    the four body diagonals of the cell, the temperatures at the two ends
    lie strictly on one side of the cut: both below or both above. *)
Theorem no_intersection_only_with_one_sided_diagonals
    (T_cut tau x y dt dx dy : float) :
  fst (SurfaceFinder.check_intersect temperature T_cut tau x y dt dx dy) = false ->
  let cube := snd (SurfaceFinder.check_intersect temperature T_cut tau x y dt dx dy) in
  let cu (i j k : bool) := at2 (at2 (at2 cube i) j) k in
  same_side (cu false false false) (cu true true true) T_cut = true
  /\ same_side (cu false true false) (cu true false true) T_cut = true
  /\ same_side (cu false true true) (cu true false false) T_cut = true
  /\ same_side (cu false false true) (cu true true false) T_cut = true.
Proof.
  unfold SurfaceFinder.check_intersect. cbv zeta. cbn [fst snd at2].
  destruct (_ <? 0) eqn:E1; [|discriminate].
  destruct (_ <? 0) eqn:E2 in |- *; [|discriminate].
  destruct (_ <? 0) eqn:E3 in |- *; [|discriminate].
  destruct (_ <? 0) eqn:E4 in |- *; [|discriminate].
  intros _. repeat split; apply diagonal_test; assumption.
Qed.

Lemma read_element_served (c : Cornelius.t) (ns cs : list vec4)
    (tau_local x_local y_local grid_dt grid_dx grid_dy : float) (i : nat) (n m : vec4) :
  serves c 3 ns cs -> nth_error ns i = Some n -> nth_error cs i = Some m ->
  SurfaceFinder.read_element c tau_local x_local y_local grid_dt grid_dx grid_dy (Z.of_nat i)
  = Ret (SurfaceFinder.mk_element
           (get m A1 + tau_local - grid_dt / 2)
           (get m A2 + x_local - grid_dx / 2)
           (get m A3 + y_local - grid_dy / 2)
           (get n A1) (get n A2) (get n A3)).
Proof.
  intros (_ & _ & _ & Hn & Hc) En Em. unfold SurfaceFinder.read_element.
  pose proof (Hc i 0%nat m (get m A1) Em eq_refl) as C0.
  pose proof (Hc i 1%nat m (get m A2) Em eq_refl) as C1.
  pose proof (Hc i 2%nat m (get m A3) Em eq_refl) as C2.
  pose proof (Hn i 0%nat n (get n A1) En eq_refl) as N0.
  pose proof (Hn i 1%nat n (get n A2) En eq_refl) as N1.
  pose proof (Hn i 2%nat n (get n A3) En eq_refl) as N2.
  change (Z.of_nat 0) with 0%Z in C0, N0. change (Z.of_nat 1) with 1%Z in C1, N1.
  change (Z.of_nat 2) with 2%Z in C2, N2.
  rewrite C0, C1, C2, N0, N1, N2.
  reflexivity.
Qed.

Lemma read_elements_served (c : Cornelius.t) (polys : list Polygon.t)
    (tau_local x_local y_local grid_dt grid_dx grid_dy : float) :
  serves c 3 (map Polygon.calculate_normal polys) (map Polygon.calculate_centroid polys) ->
  forall remaining i, (i + remaining = length polys)%nat ->
  SurfaceFinder.read_elements c tau_local x_local y_local grid_dt grid_dx grid_dy
    (Z.of_nat i) remaining
  = Ret (map (element_of tau_local x_local y_local grid_dt grid_dx grid_dy)
           (skipn i polys)).
Proof.
  intros Hs. induction remaining as [|remaining IH]; intros i Hi.
  - rewrite skipn_all2 by lia. reflexivity.
  - destruct (nth_error polys i) as [p|] eqn:Ep.
    2:{ apply nth_error_None in Ep. lia. }
    cbn [SurfaceFinder.read_elements].
    rewrite (read_element_served c _ _ _ _ _ _ _ _ i (Polygon.calculate_normal p)
               (Polygon.calculate_centroid p) Hs).
    2,3: rewrite nth_error_map, Ep; reflexivity.
    cbn [bind]. replace (Z.of_nat i + 1)%Z with (Z.of_nat (S i)) by lia.
    rewrite IH by lia. cbn [bind].
    assert (Hsk : skipn i polys = p :: skipn (S i) polys).
    { clear - Ep. revert polys Ep. induction i as [|i IHi]; intros [|q polys] Ep;
        try discriminate.
      - injection Ep as ->. reflexivity.
      - cbn [skipn]. apply (IHi polys Ep). }
    rewrite Hsk. reflexivity.
Qed.

(** X17.  For one cell, [Find_full_hypersurface] writes nothing and leaves
    the facade alone when [check_intersect] reports no intersection;
    otherwise, when the pass returns, it writes one line per polygon that
    the 3-D query finds in the cell, in their order, with the centroid
    moved to the cell and the normal as computed. *)
Theorem surface_in_cell_writes_the_found_polygons (c c' : Cornelius.t)
    (T_cut tau_local x_local y_local grid_dt grid_dx grid_dy : float)
    (es : list SurfaceFinder.surface_element) :
  SurfaceFinder.surface_in_cell temperature c T_cut tau_local x_local y_local
    grid_dt grid_dx grid_dy = Ret (c', es) ->
  let r := SurfaceFinder.check_intersect temperature T_cut tau_local x_local y_local
             grid_dt grid_dx grid_dy in
  if fst r
  then es = map (element_of tau_local x_local y_local grid_dt grid_dx grid_dy)
              (found_polygons c (snd r))
  else c' = c /\ es = [].
Proof.
  unfold SurfaceFinder.surface_in_cell. cbv zeta.
  destruct (SurfaceFinder.check_intersect _ _ _ _ _ _ _ _) as [intersect cube].
  cbn [fst snd]. destruct intersect.
  2:{ intros E. injection E as <- <-. split; reflexivity. }
  destruct (Cornelius.find_surface_3d c cube) as [c1| | |] eqn:Eq; cbn [bind];
    try discriminate.
  apply find_surface_3d_result in Eq as (Hs & _).
  pose proof Hs as (_ & Hn & _). rewrite length_map in Hn.
  pose proof (read_elements_served c1 _ tau_local x_local y_local grid_dt grid_dx grid_dy Hs
                (length (found_polygons c cube)) 0 eq_refl) as Hr.
  change (Z.of_nat 0) with 0%Z in Hr. unfold Cornelius.get_number_elements.
  unfold Cornelius.get_number_elements in Hn. rewrite Hn, Nat2Z.id, Hr.
  cbn [bind skipn]. intros E. injection E as <- <-. reflexivity.
Qed.

End CallerOfTheQuery.

(* ================================================================== *)
(** * Witnesses on sample cells *)

(** A witness of X3: the cube with two opposite corners below. *)
Lemma cube_stays_within_its_arrays_witness :
  (Cube.get_number_lines (run_cube two_corner_cube 0.5) <= 12)%nat
  /\ (Cube.get_number_polygons (run_cube two_corner_cube 0.5) <= 10)%nat
  /\ (Cube.get_number_polygons (run_cube two_corner_cube 0.5) = 0%nat
      <-> Cube.get_number_lines (run_cube two_corner_cube 0.5) = 0%nat)
  /\ Forall (fun p => (1 <= Polygon.get_number_lines p)%nat)
       (Cube.get_polygons (run_cube two_corner_cube 0.5)).
Proof.
  apply (cube_stays_within_its_arrays (consts := sample_constants)
           two_corner_cube A0 0 unit_spacing 0.5).
  vm_compute. reflexivity.
Defined.

(** A witness of X4: the pentagon cube. *)
Lemma unambiguous_cube_has_one_polygon_witness :
  (Cube.get_number_lines (run_cube pentagon_cube 0.5) <= 5)%nat
  /\ exists p, Cube.get_polygons (run_cube pentagon_cube 0.5) = [p]
               /\ Polygon.get_lines p = Cube.line_refs (run_cube pentagon_cube 0.5)
               /\ Polygon.const_i p = A0.
Proof.
  apply (unambiguous_cube_has_one_polygon (consts := sample_constants)
           pentagon_cube A0 0 unit_spacing 0.5).
  - vm_compute. reflexivity.
  - vm_compute. reflexivity.
  - vm_compute. discriminate.
Defined.

(** A witness of X5: the cube with two opposite corners below. *)
Lemma cube_uses_every_line_once_witness :
  exists es, Permutation es (Cube.line_refs (run_cube two_corner_cube 0.5))
             /\ Forall2 same_segment es
                  (all_lines (Cube.get_polygons (run_cube two_corner_cube 0.5))).
Proof.
  apply (cube_uses_every_line_once (consts := sample_constants)
           two_corner_cube A0 0 unit_spacing 0.5).
  vm_compute. reflexivity.
Defined.

(** A witness of X6: the cube with two opposite corners below. *)
Lemma ambiguous_cube_polygons_are_chains_witness :
  Forall (fun p => chained (Polygon.get_lines p) = true)
    (Cube.get_polygons (run_cube two_corner_cube 0.5)).
Proof.
  apply (ambiguous_cube_polygons_are_chains (consts := sample_constants)
           two_corner_cube A0 0 unit_spacing 0.5).
  - vm_compute. reflexivity.
  - vm_compute. reflexivity.
Defined.

(** A witness of X7: the hexagon cube. *)
Lemma cube_elements_lie_in_its_hyperplane_witness :
  Forall (on_hyperplane A0 0) (Cube.line_refs (run_cube hexagon_cube 0.5))
  /\ Forall (fun p => Polygon.const_i p = A0
                      /\ Forall (on_hyperplane A0 0) (Polygon.get_lines p))
       (Cube.get_polygons (run_cube hexagon_cube 0.5)).
Proof.
  apply (cube_elements_lie_in_its_hyperplane (consts := sample_constants)
           hexagon_cube A0 0 unit_spacing 0.5).
  vm_compute. reflexivity.
Defined.

(** A witness of X8: the hypercube with two low corners. *)
Lemma hypercube_uses_every_polygon_once_witness :
  (1 <= Hypercube.get_number_polyhedra (run_hypercube two_low_corners 2.5))%nat
  /\ Hypercube.polygon_refs (run_hypercube two_low_corners 2.5)
     = flat_map Cube.get_polygons (Hypercube.cubes (run_hypercube two_low_corners 2.5))
  /\ Permutation (all_polygons (Hypercube.get_polyhedra (run_hypercube two_low_corners 2.5)))
       (Hypercube.polygon_refs (run_hypercube two_low_corners 2.5))
  /\ (Hypercube.is_ambiguous (run_hypercube two_low_corners 2.5) = false ->
      exists p, Hypercube.get_polyhedra (run_hypercube two_low_corners 2.5) = [p]
                /\ Polyhedron.polygons p
                   = Hypercube.polygon_refs (run_hypercube two_low_corners 2.5)).
Proof.
  apply (hypercube_uses_every_polygon_once (consts := sample_constants)
           two_low_corners unit_spacing 2.5).
  vm_compute. reflexivity.
Defined.

(** A witness of X9: the hypercube with two low corners. *)
Lemma polyhedron_counts_its_tetrahedrons_witness :
  Forall (fun p => Polyhedron.get_number_tetrahedrons p = lines_in p)
    (Hypercube.get_polyhedra (run_hypercube two_low_corners 2.5)).
Proof.
  apply (polyhedron_counts_its_tetrahedrons (consts := sample_constants)
           two_low_corners unit_spacing 2.5).
  vm_compute. reflexivity.
Defined.

(** A witness of X10: the hypercube with two low corners. *)
Lemma hypercube_stays_within_its_arrays_witness :
  length (Hypercube.cubes (run_hypercube two_low_corners 2.5)) = 8%nat
  /\ Forall (fun c => (Cube.get_number_polygons c <= 10)%nat)
       (Hypercube.cubes (run_hypercube two_low_corners 2.5))
  /\ (length (Hypercube.polygon_refs (run_hypercube two_low_corners 2.5)) <= 80)%nat
  /\ Forall (fun p => (1 <= Polygon.get_number_lines p)%nat)
       (Hypercube.polygon_refs (run_hypercube two_low_corners 2.5)).
Proof.
  apply (hypercube_stays_within_its_arrays (consts := sample_constants)
           two_low_corners unit_spacing 2.5).
  vm_compute. reflexivity.
Defined.

(** A witness of X11: the hypercube with two low corners. *)
Lemma hypercube_polygons_lie_in_faces_witness :
  Forall (fun p => exists j,
              Forall (on_hyperplane (Polygon.const_i p)
                        (Double.of_step j * get unit_spacing (Polygon.const_i p)))
                (Polygon.get_lines p))
    (Hypercube.polygon_refs (run_hypercube two_low_corners 2.5)).
Proof.
  apply (hypercube_polygons_lie_in_faces (consts := sample_constants)
           two_low_corners unit_spacing 2.5).
  vm_compute. reflexivity.
Defined.

(** A witness of X13: the second line of the cube with two corners below
    is left over by the first polygon, and the second polygon of the
    hypercube with two low corners by the first polyhedron. *)
Lemma grown_elements_take_all_that_fits_witness :
  match nth_error (Cube.line_refs (run_cube two_corner_cube 0.5)) 1 with
  | Some l => Polygon.add_line (fst (fst first_polygon)) l false = None
  | None => False
  end
  /\ match nth_error (Hypercube.polygon_refs (run_hypercube two_low_corners 2.5)) 1 with
     | Some poly => Polyhedron.add_polygon (fst (fst first_polyhedron)) poly false = None
     | None => False
     end.
Proof.
  split.
  - destruct (nth_error (Cube.line_refs (run_cube two_corner_cube 0.5)) 1) as [l|] eqn:Hl.
    + apply (proj1 grown_elements_take_all_that_fits A0
               (Cube.line_refs (run_cube two_corner_cube 0.5)) (repeat true 6) 0%nat
               (fst (fst first_polygon)) (snd (fst first_polygon)) (snd first_polygon))
        with (k := 1%nat).
      * vm_compute. lia.
      * vm_compute. reflexivity.
      * exact Hl.
      * vm_compute. reflexivity.
    + vm_compute in Hl. discriminate Hl.
  - destruct (nth_error (Hypercube.polygon_refs (run_hypercube two_low_corners 2.5)) 1)
      as [poly|] eqn:Hp.
    + apply (proj2 grown_elements_take_all_that_fits
               (Hypercube.polygon_refs (run_hypercube two_low_corners 2.5)) (repeat true 8)
               0%nat (fst (fst first_polyhedron)) (snd (fst first_polyhedron))
               (snd first_polyhedron))
        with (k := 1%nat).
      * vm_compute. lia.
      * vm_compute. reflexivity.
      * exact Hp.
      * vm_compute. reflexivity.
    + vm_compute in Hp. discriminate Hp.
Defined.

(** A witness of X14: the 3-D query on the hexagon cube. *)
Lemma queries_serve_what_was_found_witness :
  serves hexagon_query 3
    (map (Polygon.calculate_normal (helpers := spec_helpers))
       (found_polygons (consts := sample_constants) (ready 3 0.5) hexagon_cube))
    (map Polygon.calculate_centroid
       (found_polygons (consts := sample_constants) (ready 3 0.5) hexagon_cube)).
Proof.
  apply (proj1 (proj2 (queries_serve_what_was_found (consts := sample_constants)
                         (helpers := spec_helpers) (ready 3 0.5) hexagon_query))
           hexagon_cube).
  vm_compute. reflexivity.
Defined.

(** A witness of X15: the state after a 3-D query with one element. *)
Lemma bulk_getters_agree_with_accessors_witness :
  Cornelius.get_normal_element one_element_3d 0 1 = Ret 0.125
  /\ Cornelius.get_centroid_element one_element_3d 0 2 = Ret 0.25.
Proof.
  split.
  - apply (proj2 (proj1 (bulk_getters_agree_with_accessors one_element_3d
                           [[0.125; 0.125; 0.125]]) eq_refl)
             0%nat 1%nat [0.125; 0.125; 0.125] 0.125 eq_refl eq_refl).
  - apply (proj2 (proj2 (bulk_getters_agree_with_accessors one_element_3d
                           [[0.25; 0.25; 0.25]]) eq_refl)
             0%nat 2%nat [0.25; 0.25; 0.25] 0.25 eq_refl eq_refl).
Defined.

(** A witness of X16: a uniform temperature 1 and the cut 0.5. *)
Lemma no_intersection_only_with_one_sided_diagonals_witness :
  same_side 1 1 0.5 = true.
Proof.
  exact (proj1 (no_intersection_only_with_one_sided_diagonals (fun _ _ _ => 1)
                  0.5 0.5 0.5 0.5 1 1 1 eq_refl)).
Defined.

(** A witness of X17: the cell cut by the plane [x = 0.5]. *)
Lemma surface_in_cell_writes_the_found_polygons_witness :
  [SurfaceFinder.mk_element 0.5 0.5 0.5 0 1 0]
  = map (element_of (helpers := spec_helpers) 0.5 0.5 0.5 1 1 1)
      (found_polygons (consts := sample_constants) (ready 3 0.5)
         (snd (SurfaceFinder.check_intersect rising_along_x 0.5 0.5 0.5 0.5 1 1 1))).
Proof.
  apply (surface_in_cell_writes_the_found_polygons (consts := sample_constants)
           (helpers := spec_helpers) rising_along_x (ready 3 0.5)
           (match sample_pass with Ret r => fst r | _ => ready 3 0.5 end)
           0.5 0.5 0.5 0.5 1 1 1).
  vm_compute. reflexivity.
Defined.
